(** * cpp-unit-test-gen: a shallow embedding of the pipeline and its contracts

    The three Python modules of the repository are embedded here:

    - [llm_client.py]  : [call_llm], the retrying client of the local
      generation service;
    - [build_utils.py] : [build_project], [run_tests], [run_coverage], thin
      wrappers over [subprocess.run];
    - [main.py]        : [read_file], [write_file], [collect_cpp_files] and
      the three blocks of [main] that the properties below are about
      (initial generation, refinement, and build / test / coverage).

    Python text ([str]) and byte strings ([bytes]) are both represented by
    [string]: a [str] is held as its UTF-8 encoding, so that [bytes.decode]
    is a validity check.  A [str] that holds a lone surrogate (the JSON
    decoder delivers one for an escape such as [\ud800]) has no UTF-8
    encoding; it is held as a [string] that is not valid UTF-8, so that
    encoding a text, as writing to a file in text mode does, is a validity
    check too.  Effects (console, network, processes, files) are
    threaded through a state-and-exception monad [M] over a [world]; what the
    outside answers is given by an [environment] of oracles.  Paths are
    POSIX paths, the default encoding is UTF-8, and exceptions are those
    that derive from [Exception]. *)

From Stdlib Require Import String Ascii List ZArith NArith Lia Bool DecimalString.
Import ListNotations.

Set Warnings "-register-all".

Open Scope string_scope.

(* ================================================================== *)
(** * Definitions *)
(* ================================================================== *)

(** ** Python text primitives *)

Module Py.

(** The newline character, written [\n] in the source. *)
Definition nl : string := String "010"%char EmptyString.

(** [s.startswith(p)] *)
Definition startswith (s p : string) : bool := prefix p s.

(** [s.endswith(suffix)] *)
Fixpoint endswith (s suffix : string) : bool :=
  if String.eqb s suffix then true
  else match s with
       | EmptyString => false
       | String _ s' => endswith s' suffix
       end.

(** [needle in hay], on text *)
Fixpoint str_in (needle hay : string) : bool :=
  if prefix needle hay then true
  else match hay with
       | EmptyString => false
       | String _ hay' => str_in needle hay'
       end.

(** [str(n)] for an integer *)
Definition str_of_int (n : Z) : string := NilZero.string_of_int (Z.to_int n).

(** [range(n)]: [0, 1, ..., n-1], empty when [n <= 0] *)
Definition range (n : Z) : list Z := map Z.of_nat (seq 0 (Z.to_nat n)).

(** [s.split("/")]: the segments of a path. *)
Fixpoint split_slash (s : string) : list string :=
  match s with
  | EmptyString => [EmptyString]
  | String c rest =>
      if Ascii.eqb c "/" then EmptyString :: split_slash rest
      else match split_slash rest with
           | [] => [String c EmptyString]
           | seg :: segs => String c seg :: segs
           end
  end.

(** Strict UTF-8 validation, as done by [bytes.decode()]: [pending]
    continuation bytes are still expected, the next of which must lie in
    [lo..hi] (this excludes overlong forms, surrogates and code points
    above U+10FFFF). *)
Fixpoint utf8_ok (pending : nat) (lo hi : N) (s : string) : bool :=
  match s with
  | EmptyString => Nat.eqb pending 0
  | String c rest =>
      let b := N_of_ascii c in
      match pending with
      | O =>
          if (b <=? 127)%N then utf8_ok 0 128 191 rest
          else if ((194 <=? b) && (b <=? 223))%N then utf8_ok 1 128 191 rest
          else if (b =? 224)%N then utf8_ok 2 160 191 rest
          else if (b =? 237)%N then utf8_ok 2 128 159 rest
          else if ((225 <=? b) && (b <=? 239))%N then utf8_ok 2 128 191 rest
          else if (b =? 240)%N then utf8_ok 3 144 191 rest
          else if ((241 <=? b) && (b <=? 243))%N then utf8_ok 3 128 191 rest
          else if (b =? 244)%N then utf8_ok 3 128 143 rest
          else false
      | S k =>
          if ((lo <=? b) && (b <=? hi))%N then utf8_ok k 128 191 rest
          else false
      end
  end.

Definition utf8_valid (b : string) : bool := utf8_ok 0 128 191 b.

(** What reading in text mode does to line ends: a carriage return
    followed by a line feed, and a lone carriage return, both become a line
    feed.  [after_cr] says that the character before was a carriage
    return. *)
Fixpoint universal_newlines (after_cr : bool) (s : string) : string :=
  match s with
  | EmptyString => EmptyString
  | String c rest =>
      if Ascii.eqb c "013" then String "010" (universal_newlines true rest)
      else if Ascii.eqb c "010" && after_cr then universal_newlines false rest
      else String c (universal_newlines false rest)
  end.

End Py.

(** ** [os.path] (POSIX flavour) *)

Module OsPath.

(** [os.path.join(a, b)] *)
Definition join (a b : string) : string :=
  if Py.startswith b "/" then b
  else if String.eqb a "" || Py.endswith a "/" then a ++ b
  else a ++ "/" ++ b.

(** [os.path.basename(p)]: what follows the last ["/"] of [p]. *)
Fixpoint basename (p : string) : string :=
  match p with
  | EmptyString => EmptyString
  | String c rest =>
      if Py.str_in "/" rest then basename rest
      else if Ascii.eqb c "/" then rest
      else p
  end.

End OsPath.

(** ** The project directory as [os.walk] sees it *)

(** A directory holds the names of its regular files and its
    sub-directories, each in the order the operating system lists them. *)
Inductive dirtree : Type :=
| Dir (files : list string) (subdirs : list (string * dirtree)).

(** [os.walk(top)], top-down: one triple [(root, dirs, files)] per
    directory, a directory before its sub-directories. *)
Fixpoint os_walk (top : string) (t : dirtree)
  : list (string * list string * list string) :=
  match t with
  | Dir files subdirs =>
      (top, map fst subdirs, files)
        :: flat_map (fun d => os_walk (OsPath.join top (fst d)) (snd d)) subdirs
  end.

(** ** main.py: discovery *)

(** [collect_cpp_files(project_dir)] (main.py, lines 14-23).  The outer
    [fold_left] is the loop over [os.walk], the inner one the loop over
    [files]; [continue] leaves the accumulator as it is. *)
Definition collect_cpp_files (project_dir : string) (fs : dirtree) : list string :=
  fold_left
    (fun (cpp_files : list string) (entry : string * list string * list string) =>
       let '(root, _, files) := entry in
       if Py.str_in "third_party" root then cpp_files
       else
         fold_left
           (fun (cpp_files : list string) (file : string) =>
              if Py.endswith file ".cc" || Py.endswith file ".cpp"
              then (cpp_files ++ [OsPath.join root file])%list
              else cpp_files)
           files cpp_files)
    (os_walk project_dir fs) [].

(** The path of the generated test of [cpp_file] (main.py, line 56). *)
Definition test_file_of (test_dir cpp_file : string) : string :=
  OsPath.join test_dir ("test_" ++ OsPath.basename cpp_file).

(** ** Exceptions *)

(** The classes of exception the program can meet.  All are subclasses of
    [Exception]; [ConnectTimeout] derives from both [ConnectionError] and
    [Timeout] in [requests.exceptions]. *)
Inductive exc_class : Type :=
| ConnectionError
| ConnectTimeout
| Timeout
| HTTPError
| RequestException
| JSONDecodeError
| KeyError
| TypeError
| AttributeError
| OSError
| UnicodeDecodeError
| UnicodeEncodeError
| CalledProcessError
| Exception.

(** An exception object: its class, [str(e)], and, for a
    [CalledProcessError], the captured [e.stderr]. *)
Record exn : Type := mk_exn {
  exc_type : exc_class;
  exc_str : string;
  exc_stderr : option string
}.

Definition new_exn (c : exc_class) (msg : string) : exn := mk_exn c msg None.

(** [isinstance(e, requests.exceptions.ConnectionError)] *)
Definition is_ConnectionError (e : exn) : bool :=
  match exc_type e with
  | ConnectionError | ConnectTimeout => true
  | _ => false
  end.

(** [isinstance(e, requests.exceptions.Timeout)] *)
Definition is_Timeout (e : exn) : bool :=
  match exc_type e with
  | Timeout | ConnectTimeout => true
  | _ => false
  end.

(** [isinstance(e, subprocess.CalledProcessError)] *)
Definition is_CalledProcessError (e : exn) : bool :=
  match exc_type e with
  | CalledProcessError => true
  | _ => false
  end.

Inductive result (A : Type) : Type :=
| Ok (a : A)
| Raise (e : exn).

Arguments Ok {A} a.
Arguments Raise {A} e.

(** ** Values exchanged with the generation service *)

(** A Python value decoded from JSON. *)
Inductive pyvalue : Type :=
| PyNone
| PyBool (b : bool)
| PyInt (n : Z)
| PyFloat (repr : string)
| PyStr (s : string)
| PyList (items : list pyvalue)
| PyDict (items : list (string * pyvalue)).

(** The request body built by [call_llm]. *)
Record payload : Type := mk_payload {
  p_model : string;
  p_prompt : string;
  p_stream : bool
}.

(** A [requests.Response]: [resp_json] is what [response.json()] does,
    return the decoded body or raise.  An answer whose status allows no
    body (1xx, 204, 304) reaches the program with an empty body, whatever
    the service sent: for a real service [resp_json] raises there. *)
Record Response : Type := mk_Response {
  status_code : Z;
  reason : string;
  resp_url : string;
  resp_json : result pyvalue
}.

(** ** Processes *)

(** What starting a command leads to: it runs and exits, or it cannot be
    started at all (missing binary, missing working directory). *)
Inductive proc_outcome : Type :=
| Exited (code : Z) (out err : string)
| NotStarted (e : exn).

Record CompletedProcess : Type := mk_CompletedProcess {
  cp_args : list string;
  returncode : Z;
  stdout : option string;
  stderr : option string
}.

(** ** The world *)

Inductive event : Type :=
| EvPrint (text : string)
| EvPost (url : string) (json : payload) (timeout : Z)
| EvSleep (seconds : Z)
| EvMakedirs (path : string) (exist_ok : bool)
| EvRun (args : list string) (cwd : string) (check capture_output : bool)
| EvOpen (path mode : string)
| EvCall (callee : string) (args : list string).

(** The mutable part: what has happened so far, how many requests were
    sent, which directories exist, and the bytes of each regular file. *)
Record world : Type := mk_world {
  trace : list event;
  requests_sent : nat;
  directories : list string;
  file_store : list (string * string)
}.

(** The answers of the outside.  [http n url body] is the outcome of the
    [n]-th POST of the run; [exec args cwd] that of running a command (each
    command line is run at most once per pipeline run); [mkdir_error] and
    [open_error] say when the operating system refuses; [codec_error] is the
    text of the [UnicodeDecodeError] of an ill-formed byte string, and
    [encode_error] that of the [UnicodeEncodeError] of a text that cannot be
    encoded. *)
Record environment : Type := mk_environment {
  http : nat -> string -> payload -> result Response;
  exec : list string -> string -> proc_outcome;
  mkdir_error : string -> option exn;
  open_error : string -> string -> option exn;
  codec_error : string -> string;
  encode_error : string -> string
}.

(** ** The monad of effects *)

Definition M (A : Type) : Type := world -> result A * world.

Definition ret {A : Type} (a : A) : M A := fun w => (Ok a, w).

Definition raise {A : Type} (e : exn) : M A := fun w => (Raise e, w).

Definition bind {A B : Type} (m : M A) (k : A -> M B) : M B :=
  fun w =>
    match m w with
    | (Ok a, w') => k a w'
    | (Raise e, w') => (Raise e, w')
    end.

(** [try: m  except Exception as e: handler e] *)
Definition try_except {A : Type} (m : M A) (handler : exn -> M A) : M A :=
  fun w =>
    match m w with
    | (Ok a, w') => (Ok a, w')
    | (Raise e, w') => handler e w'
    end.

Declare Scope monad_scope.
Delimit Scope monad_scope with monad.
Notation "x <- c ;; k" := (bind c (fun x => k))
  (at level 61, c at next level, right associativity) : monad_scope.
Notation "c ;; k" := (bind c (fun _ => k))
  (at level 61, right associativity) : monad_scope.
Open Scope monad_scope.

Definition emit (e : event) : M unit :=
  fun w => (Ok tt, mk_world (trace w ++ [e]) (requests_sent w)
                            (directories w) (file_store w)).

(** [print(text)] *)
Definition print (text : string) : M unit := emit (EvPrint text).

(** [for x in xs: body x] *)
Fixpoint for_each {A : Type} (xs : list A) (body : A -> M unit) : M unit :=
  match xs with
  | [] => ret tt
  | x :: rest => body x ;; for_each rest body
  end.

(** Marks, in the trace, that the driver calls one of the functions it
    imports; this is what a test double of that function would record. *)
Definition call {A : Type} (callee : string) (args : list string) (m : M A) : M A :=
  emit (EvCall callee args) ;; m.

(** ** The library calls the program makes *)

Section Program.

Variable E : environment.

(** [repr(s)] of a text without quotes, backslashes or control
    characters. *)
Definition py_repr (s : string) : string := "'" ++ s ++ "'".

(** [repr] of a list of such texts. *)
Definition py_repr_list (l : list string) : string :=
  "[" ++ String.concat ", " (map py_repr l) ++ "]".

(** [b.decode()] on captured output; [None] has no such method. *)
Definition bytes_decode (b : option string) : M string :=
  match b with
  | None =>
      raise (new_exn AttributeError
               "'NoneType' object has no attribute 'decode'")
  | Some bytes =>
      if Py.utf8_valid bytes then ret bytes
      else raise (new_exn UnicodeDecodeError (codec_error E bytes))
  end.

(** [time.sleep(seconds)] *)
Definition time_sleep (seconds : Z) : M unit := emit (EvSleep seconds).

(** [requests.post(url, json=..., timeout=...)] *)
Definition requests_post (url : string) (json : payload) (timeout : Z)
  : M Response :=
  fun w =>
    (http E (requests_sent w) url json,
     mk_world (trace w ++ [EvPost url json timeout]) (S (requests_sent w))
              (directories w) (file_store w)).

(** [response.raise_for_status()]: an [HTTPError] for a 4xx or a 5xx
    status, nothing otherwise. *)
Definition raise_for_status (r : Response) : M unit :=
  if ((400 <=? status_code r) && (status_code r <? 500))%Z then
    raise (new_exn HTTPError
             (Py.str_of_int (status_code r) ++ " Client Error: " ++ reason r
                ++ " for url: " ++ resp_url r))
  else if ((500 <=? status_code r) && (status_code r <? 600))%Z then
    raise (new_exn HTTPError
             (Py.str_of_int (status_code r) ++ " Server Error: " ++ reason r
                ++ " for url: " ++ resp_url r))
  else ret tt.

(** [response.json()] *)
Definition response_json (r : Response) : M pyvalue :=
  fun w => (resp_json r, w).

Fixpoint dict_get (items : list (string * pyvalue)) (key : string)
  : option pyvalue :=
  match items with
  | [] => None
  | (k, v) :: rest => if String.eqb k key then Some v else dict_get rest key
  end.

(** [type(v).__name__] *)
Definition type_name (v : pyvalue) : string :=
  match v with
  | PyNone => "NoneType"
  | PyBool _ => "bool"
  | PyInt _ => "int"
  | PyFloat _ => "float"
  | PyStr _ => "str"
  | PyList _ => "list"
  | PyDict _ => "dict"
  end.

(** [v[key]] for a text key (messages of Python 3.11 and later). *)
Definition subscript (v : pyvalue) (key : string) : M pyvalue :=
  match v with
  | PyDict items =>
      match dict_get items key with
      | Some x => ret x
      | None => raise (new_exn KeyError (py_repr key))
      end
  | PyList _ =>
      raise (new_exn TypeError
               "list indices must be integers or slices, not str")
  | PyStr _ =>
      raise (new_exn TypeError "string indices must be integers, not 'str'")
  | _ =>
      raise (new_exn TypeError
               ("'" ++ type_name v ++ "' object is not subscriptable"))
  end.

Definition is_dir (w : world) (path : string) : bool :=
  existsb (String.eqb path) (directories w).

(** [os.makedirs(path, exist_ok=...)].  Only [path] itself is recorded as
    created, not the ancestors made on the way. *)
Definition os_makedirs (path : string) (exist_ok : bool) : M unit :=
  emit (EvMakedirs path exist_ok) ;;
  fun w =>
    if is_dir w path then
      if exist_ok then (Ok tt, w)
      else (Raise (new_exn OSError
                     ("[Errno 17] File exists: " ++ py_repr path)), w)
    else
      match mkdir_error E path with
      | Some e => (Raise e, w)
      | None =>
          (Ok tt, mk_world (trace w) (requests_sent w)
                           (path :: directories w) (file_store w))
      end.

(** [subprocess.run(args, cwd=cwd, check=..., capture_output=...)].  The
    tools work inside the build directory and leave the set of known
    directories alone. *)
Definition subprocess_run (args : list string) (cwd : string)
           (check capture_output : bool) : M CompletedProcess :=
  emit (EvRun args cwd check capture_output) ;;
  match exec E args cwd with
  | NotStarted e => raise e
  | Exited code out err =>
      let captured (b : string) := if capture_output then Some b else None in
      if check && negb (code =? 0)%Z then
        raise (mk_exn CalledProcessError
                 ("Command '" ++ py_repr_list args
                    ++ "' returned non-zero exit status "
                    ++ Py.str_of_int code ++ ".")
                 (captured err))
      else
        ret (mk_CompletedProcess args code (captured out) (captured err))
  end.

Fixpoint store_get (files : list (string * string)) (path : string)
  : option string :=
  match files with
  | [] => None
  | (p, bytes) :: rest =>
      if String.eqb p path then Some bytes else store_get rest path
  end.

Fixpoint store_put (files : list (string * string)) (path bytes : string)
  : list (string * string) :=
  match files with
  | [] => [(path, bytes)]
  | (p, old) :: rest =>
      if String.eqb p path then (p, bytes) :: rest
      else (p, old) :: store_put rest path bytes
  end.

Definition set_file (path bytes : string) : M unit :=
  fun w => (Ok tt, mk_world (trace w) (requests_sent w) (directories w)
                            (store_put (file_store w) path bytes)).

(** ** main.py: file helpers *)

(** [read_file(path)] (main.py, lines 6-8): the file is opened in text
    mode, so its bytes are decoded and its line ends translated. *)
Definition read_file (path : string) : M string :=
  emit (EvOpen path "r") ;;
  match open_error E path "r" with
  | Some e => raise e
  | None =>
      fun w =>
        match store_get (file_store w) path with
        | None =>
            (Raise (new_exn OSError
                      ("[Errno 2] No such file or directory: "
                         ++ py_repr path)), w)
        | Some bytes =>
            (text <- bytes_decode (Some bytes) ;;
             ret (Py.universal_newlines false text)) w
        end
  end.

(** How the argument check of [f.write] names the type of a value that
    is not a text: by the name of its type, and [None] by its own name. *)
Definition write_arg_name (v : pyvalue) : string :=
  match v with
  | PyNone => "None"
  | _ => type_name v
  end.

(** [write_file(path, content)] (main.py, lines 10-12): [open(path, "w")]
    creates or empties the file before [f.write] looks at [content];
    [f.write] refuses what is not a text, and encodes a text before any of
    it reaches the file, which fails as a whole for a text that has no
    encoding. *)
Definition write_file (path : string) (content : pyvalue) : M unit :=
  emit (EvOpen path "w") ;;
  match open_error E path "w" with
  | Some e => raise e
  | None =>
      set_file path "" ;;
      match content with
      | PyStr s =>
          if Py.utf8_valid s then set_file path s
          else raise (new_exn UnicodeEncodeError (encode_error E s))
      | _ =>
          raise (new_exn TypeError
                   ("write() argument must be str, not "
                      ++ write_arg_name content))
      end
  end.

(** ** llm_client.py *)

Definition OLLAMA_API_URL : string := "http://localhost:11434/api/generate".

(** The body of the [try] of [call_llm] (llm_client.py, lines 15-17): one
    request and the extraction of the completion from its answer. *)
Definition send_request (body : payload) : M pyvalue :=
  response <- requests_post OLLAMA_API_URL body 60 ;;
  raise_for_status response ;;
  decoded <- response_json response ;;
  subscript decoded "response".

(** The [for attempt in range(max_retries)] loop of [call_llm]
    (llm_client.py, lines 13-31), over the attempts still to make.  A
    handler that neither raises nor returns lets the loop go on; when the
    loop runs out the function ends without [return], that is with
    [None]. *)
Fixpoint call_llm_loop (body : payload) (max_retries : Z) (attempts : list Z)
  : M pyvalue :=
  match attempts with
  | [] => ret PyNone
  | attempt :: rest =>
      try_except
        (send_request body)
        (fun e =>
           if is_ConnectionError e then
             if (attempt <? max_retries - 1)%Z then
               print ("⚠️  Connection failed, retrying in 2 seconds... (attempt "
                        ++ Py.str_of_int (attempt + 1) ++ "/"
                        ++ Py.str_of_int max_retries ++ ")") ;;
               time_sleep 2 ;;
               call_llm_loop body max_retries rest
             else
               raise (new_exn Exception
                        "Failed to connect to Ollama. Make sure Ollama is running on localhost:11434")
           else if is_Timeout e then
             if (attempt <? max_retries - 1)%Z then
               print ("⚠️  Request timeout, retrying... (attempt "
                        ++ Py.str_of_int (attempt + 1) ++ "/"
                        ++ Py.str_of_int max_retries ++ ")") ;;
               time_sleep 1 ;;
               call_llm_loop body max_retries rest
             else
               raise (new_exn Exception "LLM request timed out")
           else
             raise (new_exn Exception ("LLM API error: " ++ exc_str e)))
  end.

(** [call_llm(prompt, model, max_retries)] (llm_client.py, lines 6-31) *)
Definition call_llm (prompt model : string) (max_retries : Z) : M pyvalue :=
  let body := mk_payload model prompt false in
  call_llm_loop body max_retries (Py.range max_retries).

Definition default_model : string := "phi3:mini".
Definition default_max_retries : Z := 3.

(** ** build_utils.py *)

(** [build_project(project_dir, build_dir)] (build_utils.py, lines 4-13) *)
Definition build_project (project_dir build_dir : string) : M (bool * string) :=
  os_makedirs build_dir true ;;
  let cmake_cmd := ["cmake"; project_dir] in
  let make_cmd := ["cmake"; "--build"; "."] in
  try_except
    (subprocess_run cmake_cmd build_dir true true ;;
     result <- subprocess_run make_cmd build_dir true true ;;
     out <- bytes_decode (stdout result) ;;
     ret (true, out))
    (fun e =>
       if is_CalledProcessError e then
         err <- bytes_decode (exc_stderr e) ;;
         ret (false, err)
       else raise e).

(** [run_tests(build_dir)] (build_utils.py, lines 15-18) *)
Definition run_tests (build_dir : string) : M (bool * string) :=
  let test_cmd := ["ctest"; "--output-on-failure"] in
  result <- subprocess_run test_cmd build_dir false true ;;
  out <- bytes_decode (stdout result) ;;
  err <- bytes_decode (stderr result) ;;
  ret ((returncode result =? 0)%Z, out ++ err).

(** [run_coverage(build_dir)] (build_utils.py, lines 20-26) *)
Definition run_coverage (build_dir : string) : M string :=
  let coverage_cmd :=
    ["lcov"; "--capture"; "--directory"; "."; "--output-file"; "coverage.info"] in
  subprocess_run coverage_cmd build_dir false false ;;
  let genhtml_cmd := ["genhtml"; "coverage.info"; "--output-directory"; "coverage"] in
  subprocess_run genhtml_cmd build_dir false false ;;
  ret (OsPath.join build_dir "coverage/index.html").

(** ** main.py: the driver *)

(** One turn of the loop of step 1 of [main] (main.py, lines 50-61): the
    [try] block for one source file, and its handler. *)
Definition generate_one (yaml_dir test_dir cpp_file : string) : M unit :=
  try_except
    (print (Py.nl ++ "Processing: " ++ cpp_file) ;;
     code <- read_file cpp_file ;;
     yaml_prompt <- read_file (OsPath.join yaml_dir "initial.yaml") ;;
     let prompt :=
       yaml_prompt ++ Py.nl ++ Py.nl ++ "C++ Source File:" ++ Py.nl ++ code in
     test_code <- call "call_llm" [prompt]
                    (call_llm prompt default_model default_max_retries) ;;
     let test_file := test_file_of test_dir cpp_file in
     write_file test_file test_code ;;
     print ("✅ Generated test: " ++ test_file))
    (fun e =>
       print ("❌ Error processing " ++ cpp_file ++ ": " ++ exc_str e)).

(** The loop of step 1 of [main] (main.py, lines 49-61), over the files
    that discovery returned. *)
Definition main_generate (yaml_dir test_dir : string) (cpp_files : list string)
  : M unit :=
  for_each cpp_files (generate_one yaml_dir test_dir).

(** Steps 3 and 4 of [main] (main.py, lines 85-114): build, then test,
    then coverage. *)
Definition main_build_and_test (project_dir build_dir yaml_dir : string)
  : M unit :=
  print (Py.nl ++ "🔨 Step 3: Building project with generated tests...") ;;
  built <- call "build_project" [project_dir; build_dir]
             (build_project project_dir build_dir) ;;
  let '(build_success, build_log) := built in
  (if negb build_success then
     print "❌ Build failed. Attempting to fix issues..." ;;
     print ("Build log:" ++ Py.nl ++ build_log) ;;
     try_except
       (yaml_prompt <- read_file (OsPath.join yaml_dir "fix_build.yaml") ;;
        let prompt :=
          yaml_prompt ++ Py.nl ++ Py.nl ++ "Build Log:" ++ Py.nl ++ build_log in
        fixed_code <- call "call_llm" [prompt]
                        (call_llm prompt default_model default_max_retries) ;;
        print "🔧 LLM provided fix suggestions. Manual review may be needed.")
       (fun e => print ("❌ Error during build fix attempt: " ++ exc_str e))
   else
     print "✅ Build successful!" ;;
     print (Py.nl ++ "🧪 Step 4: Running tests and generating coverage...") ;;
     tested <- call "run_tests" [build_dir] (run_tests build_dir) ;;
     let '(test_success, test_log) := tested in
     if (test_success : bool) then
       print "✅ Tests passed!" ;;
       try_except
         (coverage_report <- call "run_coverage" [build_dir]
                               (run_coverage build_dir) ;;
          print ("📊 Coverage report generated at: " ++ coverage_report))
         (fun e => print ("❌ Error generating coverage: " ++ exc_str e))
     else
       print "❌ Tests failed!" ;;
       print ("Test log:" ++ Py.nl ++ test_log)) ;;
  print (Py.nl ++ "🎉 Pipeline completed!").

End Program.

(** ** Reading a trace *)

(** The prompts of the calls the driver made to [call_llm], in order. *)
Definition llm_calls (tr : list event) : list string :=
  flat_map (fun ev => match ev with
                      | EvCall callee [prompt] =>
                          if String.eqb callee "call_llm" then [prompt] else []
                      | _ => []
                      end) tr.

(** The functions the driver called, by name, in order. *)
Definition calls (tr : list event) : list string :=
  flat_map (fun ev => match ev with
                      | EvCall callee _ => [callee]
                      | _ => []
                      end) tr.

(** The command lines started, in order. *)
Definition commands_run (tr : list event) : list (list string) :=
  flat_map (fun ev => match ev with
                      | EvRun args _ _ _ => [args]
                      | _ => []
                      end) tr.

(** The requests sent to the generation service, in order. *)
Definition posts (tr : list event) : list payload :=
  flat_map (fun ev => match ev with
                      | EvPost _ body _ => [body]
                      | _ => []
                      end) tr.

(** The delays slept, in order. *)
Definition sleeps (tr : list event) : list Z :=
  flat_map (fun ev => match ev with
                      | EvSleep s => [s]
                      | _ => []
                      end) tr.

(** The files opened for writing, in order. *)
Definition files_written (tr : list event) : list string :=
  flat_map (fun ev => match ev with
                      | EvOpen path mode =>
                          if String.eqb mode "w" then [path] else []
                      | _ => []
                      end) tr.

(** The error with which [call_llm] gives up on a service that cannot be
    reached (llm_client.py, line 23). *)
Definition service_unreachable : exn :=
  new_exn Exception
    "Failed to connect to Ollama. Make sure Ollama is running on localhost:11434".

(** The error with which [call_llm] reports any other failure [e]
    (llm_client.py, line 31). *)
Definition api_error (e : exn) : exn :=
  new_exn Exception ("LLM API error: " ++ exc_str e).

(** An attempt is refused when the request raises a
    [requests.exceptions.ConnectionError]. *)
Definition refused (r : result Response) : Prop :=
  exists e, r = Raise e /\ is_ConnectionError e = true.


(** The operating system lets [os.makedirs(path, exist_ok=True)] succeed:
    the directory is there already, or it can be created. *)
Definition can_makedirs (E : environment) (w : world) (path : string) : Prop :=
  is_dir w path = true \/ mkdir_error E path = None.

(** A command line of the build tool. *)
Definition is_cmake (args : list string) : Prop := hd "" args = "cmake".

(** ** Files of a project *)

(** The test on file names of [collect_cpp_files] (main.py, line 21). *)
Definition is_cpp (file : string) : bool :=
  Py.endswith file ".cc" || Py.endswith file ".cpp".

(** The test on directories of [collect_cpp_files] (main.py, line 18). *)
Definition skipped (root : string) : bool := Py.str_in "third_party" root.

(** A name that a directory entry can have: not empty, without ["/"]. *)
Definition valid_name (name : string) : bool :=
  negb (String.eqb name "") && negb (Py.str_in "/" name).

Fixpoint distinct (names : list string) : bool :=
  match names with
  | [] => true
  | name :: rest => negb (existsb (String.eqb name) rest) && distinct rest
  end.

(** A tree that a file system can hold: entries have valid names, and no
    two files, and no two sub-directories, of one directory share a name. *)
Fixpoint well_formed (t : dirtree) : bool :=
  match t with
  | Dir files subdirs =>
      forallb valid_name files && distinct files
      && forallb valid_name (map fst subdirs) && distinct (map fst subdirs)
      && forallb (fun d => well_formed (snd d)) subdirs
  end.

(** [file_in t dirs file]: going down from [t] through the directories
    [dirs] leads to a directory that holds the regular file [file]. *)
Inductive file_in : dirtree -> list string -> string -> Prop :=
| file_here (files : list string) (subdirs : list (string * dirtree))
            (file : string) :
    In file files -> file_in (Dir files subdirs) [] file
| file_below (files : list string) (subdirs : list (string * dirtree))
             (d : string) (sub : dirtree) (dirs : list string) (file : string) :
    In (d, sub) subdirs -> file_in sub dirs file ->
    file_in (Dir files subdirs) (d :: dirs) file.

(** The path [os.walk] gives to the directory [dirs] below [project_dir]. *)
Definition root_of (project_dir : string) (dirs : list string) : string :=
  fold_left OsPath.join dirs project_dir.

(** The path of the file [file] of that directory. *)
Definition file_path (project_dir : string) (dirs : list string) (file : string)
  : string :=
  OsPath.join (root_of project_dir dirs) file.

(** [project_dir] as a prefix of the paths below it. *)
Definition base (project_dir : string) : string :=
  if String.eqb project_dir "" || Py.endswith project_dir "/" then project_dir
  else project_dir ++ "/".

(** The paths, relative to the top, of all the regular files of a tree, in
    the order of [os.walk]. *)
Fixpoint all_rel (t : dirtree) : list string :=
  match t with
  | Dir files subdirs =>
      List.app files
        (flat_map (fun d => map (fun rel => fst d ++ "/" ++ rel)
                                (all_rel (snd d))) subdirs)
  end.

(** The paths of all the regular files that [os.walk] lists. *)
Definition all_paths (project_dir : string) (t : dirtree) : list string :=
  flat_map (fun entry : string * list string * list string =>
              let '(root, _, files) := entry in map (OsPath.join root) files)
           (os_walk project_dir t).

(** ** Sample projects, worlds and environments *)

(** A project with a vendored library, and with a directory whose name
    merely contains the text "third_party". *)
Definition sample_project : dirtree :=
  Dir ["a.cpp"; "README.md"]
      [("third_party", Dir ["a.cpp"] [("deep", Dir ["z.cc"] [])]);
       ("lib", Dir ["b.cc"] []);
       ("third_party_old", Dir ["c.cpp"] [])].

(** A project with two source files of the same name. *)
Definition twin_project : dirtree :=
  Dir [] [("a", Dir ["util.cc"] []); ("b", Dir ["util.cc"] [])].

(** Nothing has happened yet, and the disk is empty. *)
Definition empty_world : world := mk_world [] 0 [] [].

(** The disk holds the sources of [twin_project] and the templates. *)
Definition twin_world : world :=
  mk_world [] 0 []
    [("proj/a/util.cc", "int a() { return 1; }");
     ("proj/b/util.cc", "int b() { return 2; }");
     ("yaml_prompts/initial.yaml", "Write unit tests.");
     ("yaml_prompts/fix_build.yaml", "Fix this build.")].

Definition completion (text : string) : result Response :=
  Ok (mk_Response 200 "OK" OLLAMA_API_URL (Ok (PyDict [("response", PyStr text)]))).

(** A machine on which every tool starts and exits with status 0, saying
    nothing, and on which the service completes every prompt with the
    number of the request. *)
Definition calm : environment :=
  mk_environment
    (fun n _ _ => completion ("// test " ++ Py.str_of_int (Z.of_nat n)))
    (fun _ _ => Exited 0 "" "")
    (fun _ => None)
    (fun _ _ => None)
    (fun _ => "'utf-8' codec can't decode bytes")
    (fun _ => "'utf-8' codec can't encode characters: surrogates not allowed").

Definition with_http (E : environment)
           (h : nat -> string -> payload -> result Response) : environment :=
  mk_environment h (exec E) (mkdir_error E) (open_error E) (codec_error E)
                 (encode_error E).

Definition with_exec (E : environment)
           (x : list string -> string -> proc_outcome) : environment :=
  mk_environment (http E) x (mkdir_error E) (open_error E) (codec_error E)
                 (encode_error E).

(** The service is not running: every request is refused. *)
Definition refusing_service : environment :=
  with_http calm
    (fun _ _ _ => Raise (new_exn ConnectionError "Connection refused")).

(** The service answers 300, with a JSON object that holds a completion
    as its body. *)
Definition multiple_choices_service : environment :=
  with_http calm
    (fun _ _ _ =>
       Ok (mk_Response 300 "Multiple Choices" OLLAMA_API_URL
             (Ok (PyDict [("response", PyStr "// one of many")])))).

(** The service answers 200 with a JSON object without completion. *)
Definition key_error_service : environment :=
  with_http calm
    (fun _ _ _ =>
       Ok (mk_Response 200 "OK" OLLAMA_API_URL
             (Ok (PyDict [("error", PyStr "model not found")])))).

(** The service answers 500. *)
Definition broken_service : environment :=
  with_http calm
    (fun _ _ _ =>
       Ok (mk_Response 500 "Internal Server Error" OLLAMA_API_URL
             (Raise (new_exn JSONDecodeError
                       "Expecting value: line 1 column 1 (char 0)")))).

(** Both steps of the build succeed and say something. *)
Definition talkative_build : environment :=
  with_exec calm
    (fun args _ =>
       match args with
       | ["cmake"; "--build"; "."] => Exited 0 "[100%] Built target tests" "warning: W"
       | "cmake" :: _ => Exited 0 "-- Configuring done" ""
       | _ => Exited 0 "" ""
       end).

(** The configure step fails with an error message. *)
Definition broken_configure : environment :=
  with_exec calm
    (fun args _ =>
       match args with
       | ["cmake"; "--build"; "."] => Exited 0 "" ""
       | "cmake" :: _ => Exited 1 "" "CMake Error: no CMakeLists.txt"
       | _ => Exited 0 "" ""
       end).

(** The build step fails with an error message. *)
Definition broken_build : environment :=
  with_exec calm
    (fun args _ =>
       match args with
       | ["cmake"; "--build"; "."] => Exited 2 "[ 50%] Building" "error: X"
       | _ => Exited 0 "" ""
       end).

(** The build succeeds, a test fails, and the coverage tools fail too. *)
Definition failing_tests : environment :=
  with_exec calm
    (fun args _ =>
       match args with
       | "cmake" :: _ => Exited 0 "built" ""
       | "ctest" :: _ => Exited 8 "1 test failed" ""
       | _ => Exited 1 "" "no data"
       end).

(** ** main.py: refinement *)

Section Refinement.

Variable E : environment.

(** One turn of the second loop of step 2 of [main] (main.py, lines
    71-82): the [try] block for one test file, and its handler. *)
Definition refine_one (yaml_dir test_dir test_file : string) : M unit :=
  try_except
    (print (Py.nl ++ "Refining: " ++ test_file) ;;
     let test_path := OsPath.join test_dir test_file in
     test_code <- read_file E test_path ;;
     yaml_prompt <- read_file E (OsPath.join yaml_dir "refine.yaml") ;;
     let prompt :=
       yaml_prompt ++ Py.nl ++ Py.nl ++ "Test File:" ++ Py.nl ++ test_code in
     refined_code <- call "call_llm" [prompt]
                       (call_llm E prompt default_model default_max_retries) ;;
     write_file E test_path refined_code ;;
     print ("✅ Refined test: " ++ test_file))
    (fun e =>
       print ("❌ Error refining " ++ test_file ++ ": " ++ exc_str e)).


End Refinement.

(** ** More of the vocabulary of the properties *)


(** The error with which [call_llm] gives up on a service that does not
    answer in time (llm_client.py, line 29). *)
Definition request_timed_out : exn := new_exn Exception "LLM request timed out".

(** An attempt is answered with the completion [v] when the request returns
    a response whose status is neither 4xx nor 5xx and whose body is a JSON
    object with [v] under "response". *)
Definition answered (r : result Response) (v : pyvalue) : Prop :=
  exists resp items,
    r = Ok resp
    /\ ((400 <=? status_code resp) && (status_code resp <? 600))%Z = false
    /\ resp_json resp = Ok (PyDict items)
    /\ dict_get items "response" = Some v.

(** The errors that [call_llm] raises by itself. *)
Definition is_call_llm_error (e : exn) : Prop :=
  exc_type e = Exception
  /\ (e = service_unreachable
      \/ e = request_timed_out
      \/ exists cause, e = api_error cause).

(** No carriage return occurs in a text. *)
Fixpoint no_carriage_return (s : string) : bool :=
  match s with
  | EmptyString => true
  | String c rest => negb (Ascii.eqb c "013") && no_carriage_return rest
  end.

(** The prints of a trace, in order. *)
Definition printed (tr : list event) : list string :=
  flat_map (fun ev => match ev with
                      | EvPrint text => [text]
                      | _ => []
                      end) tr.

(** The files opened for reading, in order. *)
Definition files_read (tr : list event) : list string :=
  flat_map (fun ev => match ev with
                      | EvOpen path mode =>
                          if String.eqb mode "r" then [path] else []
                      | _ => []
                      end) tr.

(** ** More sample worlds and environments *)


(** The service refuses the first two requests and answers the third. *)
Definition waking_service : environment :=
  with_http calm
    (fun n _ _ =>
       if (n <? 2)%nat then Raise (new_exn ConnectionError "Connection refused")
       else completion "// ready").

(** [cmake] is not installed. *)
Definition no_cmake : environment :=
  with_exec calm
    (fun args _ =>
       match args with
       | "cmake" :: _ =>
           NotStarted (new_exn OSError
                         "[Errno 2] No such file or directory: 'cmake'")
       | _ => Exited 0 "" ""
       end).

(** [lcov] is not installed. *)
Definition no_lcov : environment :=
  with_exec calm
    (fun args _ =>
       match args with
       | "lcov" :: _ =>
           NotStarted (new_exn OSError
                         "[Errno 2] No such file or directory: 'lcov'")
       | _ => Exited 0 "" ""
       end).

(** The configure step fails and its error output is not UTF-8. *)
Definition garbled_configure : environment :=
  with_exec calm
    (fun args _ =>
       match args with
       | ["cmake"; "--build"; "."] => Exited 0 "" ""
       | "cmake" :: _ => Exited 1 "" (String "255" "")
       | _ => Exited 0 "" ""
       end).

(** The build directory cannot be made. *)
Definition read_only_disk : environment :=
  mk_environment (http calm) (exec calm)
    (fun path => Some (new_exn OSError
                         ("[Errno 13] Permission denied: " ++ "'" ++ path ++ "'")))
    (open_error calm) (codec_error calm) (encode_error calm).

(** [cmake] configures the project and is gone when the build starts. *)
Definition vanishing_cmake : environment :=
  with_exec calm
    (fun args _ =>
       match args with
       | ["cmake"; "--build"; "."] =>
           NotStarted (new_exn OSError
                         "[Errno 2] No such file or directory: 'cmake'")
       | _ => Exited 0 "" ""
       end).

(** [ctest] is not installed. *)
Definition no_ctest : environment :=
  with_exec calm
    (fun args _ =>
       match args with
       | "ctest" :: _ =>
           NotStarted (new_exn OSError
                         "[Errno 2] No such file or directory: 'ctest'")
       | _ => Exited 0 "" ""
       end).

(** A text that holds a lone surrogate, as the JSON decoder delivers it
    for the escape [\ud800]: the three bytes below are what its encoding
    would be, and no valid UTF-8. *)
Definition lone_surrogate : string :=
  String "237" (String "160" (String "128" "")).

(** The service completes every prompt with that text. *)
Definition surrogate_service : environment :=
  with_http calm (fun _ _ _ => completion lone_surrogate).

(** The disk after step 1 on [twin_world], with one generated test. *)
Definition generated_world : world :=
  mk_world [] 0 ["generated_tests"]
    [("generated_tests/test_util.cc", "// test 1");
     ("yaml_prompts/refine.yaml", "Refine these tests.")].

(* ================================================================== *)
(** * Properties *)
(* ================================================================== *)

(** ** Text *)

Lemma prefix_app (x b : string) : prefix x (x ++ b) = true.
Proof.
  induction x as [ | c x IH ]; cbn.
  - destruct b; reflexivity.
  - destruct (ascii_dec c c) as [ _ | Hn ]; [ exact IH | contradiction ].
Qed.

Lemma str_in_unfold (needle hay : string) :
  Py.str_in needle hay
  = if prefix needle hay then true
    else match hay with
         | EmptyString => false
         | String _ hay' => Py.str_in needle hay'
         end.
Proof. destruct hay; reflexivity. Qed.

Lemma str_in_prefix (x b : string) : Py.str_in x (x ++ b) = true.
Proof. rewrite str_in_unfold, prefix_app. reflexivity. Qed.

Lemma str_in_app_r (x a b : string) :
  Py.str_in x b = true -> Py.str_in x (a ++ b) = true.
Proof.
  intros H. induction a as [ | c a IH ]; cbn [append]; [ exact H | ].
  rewrite str_in_unfold, IH. destruct (prefix x (String c (a ++ b))); reflexivity.
Qed.

Lemma append_nil_r (s : string) : s ++ "" = s.
Proof. induction s as [ | c s IH ]; cbn; [ | rewrite IH ]; reflexivity. Qed.

Lemma append_assoc (a b c : string) : (a ++ b) ++ c = a ++ (b ++ c).
Proof. induction a as [ | x a IH ]; cbn; [ | rewrite IH ]; reflexivity. Qed.

Lemma str_in_refl (x : string) : Py.str_in x x = true.
Proof.
  rewrite <- (append_nil_r x) at 2. apply str_in_prefix.
Qed.

Lemma append_inv_head (a x y : string) : a ++ x = a ++ y -> x = y.
Proof.
  induction a as [ | c a IH ]; cbn; [ auto | ].
  intros H. injection H as H. auto.
Qed.

Lemma prefix_slash (c : ascii) (s : string) :
  prefix "/" (String c s) = Ascii.eqb c "/".
Proof.
  cbn [prefix]. destruct (ascii_dec "/" c) as [ <- | Hn ].
  - destruct s; reflexivity.
  - symmetry. apply Ascii.eqb_neq. congruence.
Qed.

Lemma slash_free_cons (c : ascii) (s : string) :
  Py.str_in "/" (String c s) = false ->
  Ascii.eqb c "/" = false /\ Py.str_in "/" s = false.
Proof.
  rewrite str_in_unfold, prefix_slash.
  destruct (Ascii.eqb c "/"); [ discriminate | auto ].
Qed.

Lemma str_in_cons (x : string) (c : ascii) (s : string) :
  Py.str_in x s = true -> Py.str_in x (String c s) = true.
Proof. apply (str_in_app_r x (String c "") s). Qed.

Lemma endswith_unfold (s suffix : string) :
  Py.endswith s suffix
  = if String.eqb s suffix then true
    else match s with
         | EmptyString => false
         | String _ s' => Py.endswith s' suffix
         end.
Proof. destruct s; reflexivity. Qed.

Lemma endswith_inv (s suffix : string) :
  Py.endswith s suffix = true -> exists a, s = a ++ suffix.
Proof.
  induction s as [ | c s IH ]; rewrite endswith_unfold.
  - destruct (String.eqb_spec "" suffix) as [ <- | Hn ]; intros H.
    + exists "". reflexivity.
    + discriminate.
  - destruct (String.eqb_spec (String c s) suffix) as [ <- | Hn ]; intros H.
    + exists "". reflexivity.
    + destruct (IH H) as (a & ->). exists (String c a). reflexivity.
Qed.

(** A text that ends with ["/"] and also ends with a non-empty [d] has a
    [d] that ends with ["/"]. *)
Lemma ends_with_slash (x d a : string) :
  d <> "" -> a ++ "/" = x ++ d -> Py.str_in "/" d = true.
Proof.
  revert a. induction x as [ | c x IH ]; intros a Hd H; cbn in H.
  - subst d. apply str_in_app_r. reflexivity.
  - destruct a as [ | c' a ]; cbn in H; injection H as Hc H.
    + destruct x; cbn in H; [ congruence | discriminate ].
    + eapply IH; eauto.
Qed.

Lemma valid_name_inv (name : string) :
  valid_name name = true -> name <> "" /\ Py.str_in "/" name = false.
Proof.
  unfold valid_name. intros H. apply andb_true_iff in H as [ H1 H2 ].
  apply negb_true_iff in H1, H2. split; [ | exact H2 ].
  apply String.eqb_neq. exact H1.
Qed.

Lemma valid_name_not_absolute (name : string) :
  valid_name name = true -> Py.startswith name "/" = false.
Proof.
  intros H. apply valid_name_inv in H as [ Hne Hs ].
  destruct name as [ | c name ]; [ reflexivity | ].
  unfold Py.startswith. rewrite prefix_slash.
  apply slash_free_cons in Hs. tauto.
Qed.

(** ** Paths *)

Lemma join_valid (a name : string) :
  valid_name name = true -> OsPath.join a name = base a ++ name.
Proof.
  intros H. unfold OsPath.join, base.
  rewrite (valid_name_not_absolute _ H).
  destruct (String.eqb a "" || Py.endswith a "/"); [ reflexivity | ].
  rewrite append_assoc. reflexivity.
Qed.

Lemma base_join (a name : string) :
  valid_name name = true ->
  base (OsPath.join a name) = base a ++ name ++ "/".
Proof.
  intros H. rewrite (join_valid _ _ H).
  destruct (valid_name_inv _ H) as [ Hne Hs ].
  unfold base at 1.
  assert (H1 : String.eqb (base a ++ name) "" = false).
  { apply String.eqb_neq. intros Heq.
    destruct (base a); cbn in Heq; [ contradiction | discriminate ]. }
  assert (H2 : Py.endswith (base a ++ name) "/" = false).
  { destruct (Py.endswith (base a ++ name) "/") eqn:He; [ | reflexivity ].
    apply endswith_inv in He as (x & Hx). symmetry in Hx.
    apply ends_with_slash in Hx; [ congruence | exact Hne ]. }
  rewrite H1, H2. cbn. apply append_assoc.
Qed.

(** ** Segments of a path *)

Lemma split_slash_nonempty (s : string) : Py.split_slash s <> [].
Proof.
  destruct s as [ | c s ]; cbn; [ discriminate | ].
  destruct (Ascii.eqb c "/"); [ discriminate | ].
  destruct (Py.split_slash s); discriminate.
Qed.

Lemma split_slash_app (a b : string) :
  Py.split_slash (a ++ String "/" b)
  = (Py.split_slash a ++ Py.split_slash b)%list.
Proof.
  induction a as [ | c a IH ]; [ reflexivity | ].
  cbn [append Py.split_slash]. rewrite IH.
  destruct (Ascii.eqb c "/"); [ reflexivity | ].
  pose proof (split_slash_nonempty a) as Hne.
  destruct (Py.split_slash a); [ contradiction | reflexivity ].
Qed.

Lemma split_slash_free (s : string) :
  Py.str_in "/" s = false -> Py.split_slash s = [s].
Proof.
  induction s as [ | c s IH ]; intros H; [ reflexivity | ].
  apply slash_free_cons in H as [ Hc Hs ].
  cbn. rewrite Hc, (IH Hs). reflexivity.
Qed.

(** The first segment of a text is a prefix of it. *)
Lemma split_slash_head (s seg : string) (segs : list string) :
  Py.split_slash s = seg :: segs -> prefix seg s = true.
Proof.
  revert seg segs. induction s as [ | c s IH ]; intros seg segs H; cbn in H.
  - injection H as <- _. reflexivity.
  - destruct (Ascii.eqb c "/").
    + injection H as <- _. reflexivity.
    + destruct (Py.split_slash s) as [ | seg' segs' ] eqn:Hs;
        injection H as <- _; cbn.
      * destruct (ascii_dec c c); [ destruct s; reflexivity | contradiction ].
      * destruct (ascii_dec c c); [ | contradiction ].
        eapply IH. reflexivity.
Qed.

(** A segment of a path is a piece of its text. *)
Lemma segment_in_text (seg s : string) :
  In seg (Py.split_slash s) -> Py.str_in seg s = true.
Proof.
  induction s as [ | c s IH ]; cbn [Py.split_slash].
  - intros [ <- | [] ]. reflexivity.
  - destruct (Ascii.eqb c "/").
    + intros [ <- | H ]; [ reflexivity | ]. apply str_in_cons, IH, H.
    + destruct (Py.split_slash s) as [ | seg' segs' ] eqn:Hs.
      * exfalso. exact (split_slash_nonempty s Hs).
      * intros [ <- | H ].
        -- rewrite str_in_unfold.
           pose proof (split_slash_head s seg' segs' Hs) as Hp.
           cbn. destruct (ascii_dec c c); [ rewrite Hp | contradiction ].
           reflexivity.
        -- apply str_in_cons, IH. right. exact H.
Qed.

(** The segments of [join root name] are segments of [root], or [name]. *)
Lemma join_segments (root name seg : string) :
  valid_name name = true ->
  In seg (Py.split_slash (OsPath.join root name)) ->
  seg = name \/ In seg (Py.split_slash root).
Proof.
  intros Hv. destruct (valid_name_inv _ Hv) as [ _ Hs ].
  unfold OsPath.join. rewrite (valid_name_not_absolute _ Hv).
  destruct (String.eqb_spec root "") as [ -> | Hne ]; cbn [orb].
  - cbn [append]. rewrite (split_slash_free _ Hs).
    intros [ <- | [] ]. left. reflexivity.
  - destruct (Py.endswith root "/") eqn:He.
    + apply endswith_inv in He as (a & ->).
      rewrite append_assoc. cbn [append].
      rewrite !split_slash_app, (split_slash_free _ Hs). cbn.
      intros H. apply in_app_or in H as [ H | [ <- | [] ] ].
      * right. apply in_or_app. left. exact H.
      * left. reflexivity.
    + cbn [append]. rewrite split_slash_app, (split_slash_free _ Hs).
      intros H. apply in_app_or in H as [ H | [ <- | [] ] ]; auto.
Qed.

(** ** Traces *)

Lemma posts_app (a b : list event) : posts (a ++ b) = (posts a ++ posts b)%list.
Proof. apply flat_map_app. Qed.

Lemma sleeps_app (a b : list event) : sleeps (a ++ b) = (sleeps a ++ sleeps b)%list.
Proof. apply flat_map_app. Qed.

Lemma llm_calls_app (a b : list event) :
  llm_calls (a ++ b) = (llm_calls a ++ llm_calls b)%list.
Proof. apply flat_map_app. Qed.

Lemma calls_app (a b : list event) : calls (a ++ b) = (calls a ++ calls b)%list.
Proof. apply flat_map_app. Qed.

Lemma commands_run_app (a b : list event) :
  commands_run (a ++ b) = (commands_run a ++ commands_run b)%list.
Proof. apply flat_map_app. Qed.

Lemma files_written_app (a b : list event) :
  files_written (a ++ b) = (files_written a ++ files_written b)%list.
Proof. apply flat_map_app. Qed.

Create Rewrite HintDb trace_db.

Lemma llm_calls_nil (evs : list event) : calls evs = [] -> llm_calls evs = [].
Proof.
  induction evs as [ | ev evs IH ]; [ reflexivity | ].
  destruct ev; cbn; try exact IH. discriminate.
Qed.

#[local] Hint Rewrite posts_app sleeps_app llm_calls_app calls_app
  commands_run_app files_written_app : trace_db.

(** ** The model client *)

Section ModelClient.

Variable E : environment.

(** One attempt sends exactly one request, whatever comes of it. *)
Lemma send_request_trace (body : payload) (w : world) :
  trace (snd (send_request E body w))
    = (trace w ++ [EvPost OLLAMA_API_URL body 60])%list
  /\ requests_sent (snd (send_request E body w)) = S (requests_sent w)
  /\ directories (snd (send_request E body w)) = directories w
  /\ file_store (snd (send_request E body w)) = file_store w.
Proof.
  unfold send_request, bind, requests_post.
  destruct (http E (requests_sent w) OLLAMA_API_URL body) as [r | e]; cbn;
    [ | repeat split ].
  unfold raise_for_status.
  destruct ((400 <=? status_code r)%Z && (status_code r <? 500)%Z); cbn;
    [ repeat split | ].
  destruct ((500 <=? status_code r)%Z && (status_code r <? 600)%Z); cbn;
    [ repeat split | ].
  unfold response_json.
  destruct (resp_json r) as [v | e]; cbn; [ | repeat split ].
  unfold subscript.
  destruct v; cbn; try (repeat split; fail).
  destruct (dict_get items "response"); cbn; repeat split.
Qed.

(** A refused request makes the attempt raise that very refusal. *)
Lemma send_request_refused (body : payload) (w : world) :
  refused (http E (requests_sent w) OLLAMA_API_URL body) ->
  exists e, is_ConnectionError e = true
            /\ fst (send_request E body w) = Raise e.
Proof.
  intros (e & He & Hc). exists e. split; [exact Hc | ].
  unfold send_request, bind, requests_post. rewrite He. reflexivity.
Qed.

Lemma range_nonpositive (n : Z) : (n <= 0)%Z -> Py.range n = [].
Proof.
  intros Hn. unfold Py.range.
  replace (Z.to_nat n) with 0%nat by lia. reflexivity.
Qed.


(** C9.  For every prompt and model, [call_llm] with [max_retries <= 0]
    returns [None] and leaves the world as it was: no request is sent, no
    delay occurs, nothing is printed and no error is raised. *)
Theorem call_llm_no_attempt :
  forall (prompt model : string) (max_retries : Z) (w : world),
    (max_retries <= 0)%Z ->
    call_llm E prompt model max_retries w = (Ok PyNone, w).
Proof.
  intros prompt model max_retries w Hn.
  unfold call_llm. rewrite (range_nonpositive _ Hn). reflexivity.
Qed.


(** C7 (amended).  Whenever an attempt raises an exception that is neither
    a connection error nor a timeout, [call_llm] fails on that very attempt
    with "LLM API error: " followed by the text of the cause; that attempt's
    request is the only thing that happened (no retry, no delay, no
    message).  A response whose status is 4xx or 5xx is such a failure. *)
Theorem call_llm_other_failure :
  forall (body : payload) (max_retries attempt : Z) (rest : list Z) (w : world),
    (forall e,
        fst (send_request E body w) = Raise e ->
        is_ConnectionError e = false ->
        is_Timeout e = false ->
        exists w',
          call_llm_loop E body max_retries (attempt :: rest) w
            = (Raise (api_error e), w')
          /\ trace w' = (trace w ++ [EvPost OLLAMA_API_URL body 60])%list)
    /\
    (forall r,
        http E (requests_sent w) OLLAMA_API_URL body = Ok r ->
        (400 <= status_code r < 600)%Z ->
        exists e w',
          exc_type e = HTTPError
          /\ call_llm_loop E body max_retries (attempt :: rest) w
             = (Raise (api_error e), w')
          /\ trace w' = (trace w ++ [EvPost OLLAMA_API_URL body 60])%list).
Proof.
  intros body max_retries attempt rest w.
  assert (Hgen : forall e,
             fst (send_request E body w) = Raise e ->
             is_ConnectionError e = false ->
             is_Timeout e = false ->
             exists w',
               call_llm_loop E body max_retries (attempt :: rest) w
                 = (Raise (api_error e), w')
               /\ trace w' = (trace w ++ [EvPost OLLAMA_API_URL body 60])%list).
  { intros e Hres Hc Ht.
    pose proof (send_request_trace body w) as (Htr & _).
    cbn [call_llm_loop]. unfold try_except.
    destruct (send_request E body w) as [r w1]. cbn in Hres, Htr. subst r.
    rewrite Hc, Ht. exists w1. split; [ reflexivity | exact Htr ]. }
  split; [ exact Hgen | ].
  intros r Hr Hstatus.
  assert (Hraise : exists e, exc_type e = HTTPError
                             /\ fst (send_request E body w) = Raise e).
  { unfold send_request, bind, requests_post. rewrite Hr.
    unfold raise_for_status.
    destruct ((400 <=? status_code r)%Z && (status_code r <? 500)%Z) eqn:H4.
    - eexists. split; [ | reflexivity ]. reflexivity.
    - destruct ((500 <=? status_code r)%Z && (status_code r <? 600)%Z) eqn:H5.
      + eexists. split; [ | reflexivity ]. reflexivity.
      + exfalso.
        apply andb_false_iff in H4. apply andb_false_iff in H5.
        rewrite !Z.leb_gt, !Z.ltb_ge in *. lia. }
  destruct Hraise as (e & Hty & He).
  destruct (Hgen e He) as (w' & Hrun & Htr).
  - unfold is_ConnectionError. rewrite Hty. reflexivity.
  - unfold is_Timeout. rewrite Hty. reflexivity.
  - exists e, w'. auto.
Qed.

End ModelClient.

(** ** The build adapter *)

Section BuildAdapter.

Variable E : environment.

(** Evaluates a computation of the build adapter along every path the
    environment allows. *)
Ltac run_cases :=
  repeat
    (cbn [fst snd trace requests_sent directories file_store
          stdout stderr returncode exc_stderr exc_type andb negb] in *;
     match goal with
     | |- context [if existsb ?f ?l then _ else _] =>
         let H := fresh "Hdir" in destruct (existsb f l) eqn:H
     | |- context [match mkdir_error E ?p with _ => _ end] =>
         let H := fresh "Hmk" in destruct (mkdir_error E p) eqn:H
     | |- context [match exec E ?a ?c with _ => _ end] =>
         let H := fresh "Hexec" in destruct (exec E a c) eqn:H
     | |- context [if (?c =? 0)%Z then _ else _] =>
         let H := fresh "Hcode" in destruct (c =? 0)%Z eqn:H
     | |- context [if negb (?c =? 0)%Z then _ else _] =>
         let H := fresh "Hcode" in destruct (c =? 0)%Z eqn:H
     | |- context [if Py.utf8_valid ?b then _ else _] =>
         let H := fresh "Hutf" in destruct (Py.utf8_valid b) eqn:H
     | |- context [match exc_type ?e with _ => _ end] =>
         let H := fresh "Hty" in destruct (exc_type e) eqn:H
     | |- context [match exc_stderr ?e with _ => _ end] =>
         let H := fresh "Herr" in destruct (exc_stderr e) eqn:H
     end);
  cbn [fst snd trace requests_sent directories file_store
       stdout stderr returncode exc_stderr exc_type andb negb] in *.

Ltac close_case :=
  repeat match goal with
         | H : Exited _ _ _ = Exited _ _ _ |- _ => inversion H; subst; clear H
         | H : Exited _ _ _ = NotStarted _ |- _ => discriminate H
         | H : NotStarted _ = Exited _ _ _ |- _ => discriminate H
         | H : exec E ?a ?c = _, H' : exec E ?a ?c = _ |- _ =>
             rewrite H in H'
         | H : _ \/ _ |- _ => destruct H
         end;
  cbn in *; try congruence.

Ltac unfold_adapter :=
  unfold build_project, run_tests, run_coverage, subprocess_run, os_makedirs,
    bytes_decode, try_except, bind, emit, ret, raise, is_CalledProcessError,
    new_exn, is_dir in *.

(** What [build_project] does to the world: it starts by making the build
    directory, then runs [cmake] commands only, calls no function of the
    driver, sends nothing and touches no file; and the build directory is
    there afterwards whenever the operating system allowed its creation. *)
Lemma build_project_effect (project_dir build_dir : string) (w : world) :
  exists evs,
    trace (snd (build_project E project_dir build_dir w))
      = (trace w ++ EvMakedirs build_dir true :: evs)%list
    /\ calls evs = []
    /\ Forall is_cmake (commands_run evs)
    /\ posts evs = []
    /\ requests_sent (snd (build_project E project_dir build_dir w))
       = requests_sent w
    /\ file_store (snd (build_project E project_dir build_dir w)) = file_store w
    /\ (can_makedirs E w build_dir ->
        is_dir (snd (build_project E project_dir build_dir w)) build_dir = true).
Proof.
  unfold_adapter. unfold can_makedirs, is_dir.
  run_cases;
    rewrite <- ?app_assoc; cbn [app];
    eexists; (split; [ reflexivity | ]);
    cbn; unfold is_cmake;
    repeat split; auto;
    try (intros [ Hd | Hd ]; try congruence);
    try (rewrite String.eqb_refl; reflexivity);
    try (unfold is_dir in *; cbn in *; congruence).
Qed.

(** The answer of [build_project] depends on the world only through the
    directories that exist. *)
Lemma build_project_frame (project_dir build_dir : string) (w1 w2 : world) :
  directories w1 = directories w2 ->
  fst (build_project E project_dir build_dir w1)
    = fst (build_project E project_dir build_dir w2).
Proof.
  intros Hd. unfold_adapter. unfold is_dir. cbn. rewrite Hd.
  run_cases; reflexivity.
Qed.

(** C5 (amended).  For every project and build directory, when the build
    directory can be made: if the configure step exits non-zero,
    [build_project] returns failure with the captured error output of the
    configure step, and nothing else; if the configure step exits with
    status 0 and the build step exits non-zero, it returns failure with the
    captured error output of the build step, and nothing else; if both
    exit with status 0, it returns success with the standard output of the
    build step alone (what the configure step printed is not part of it).
    In each case the tools concerned start and the output returned is valid
    UTF-8. *)
Theorem build_project_result :
  forall (project_dir build_dir : string) (w : world),
    can_makedirs E w build_dir ->
    (forall c1 o1 e1,
        exec E ["cmake"; project_dir] build_dir = Exited c1 o1 e1 ->
        c1 <> 0%Z ->
        Py.utf8_valid e1 = true ->
        fst (build_project E project_dir build_dir w) = Ok (false, e1))
    /\
    (forall o1 e1 c2 o2 e2,
        exec E ["cmake"; project_dir] build_dir = Exited 0 o1 e1 ->
        exec E ["cmake"; "--build"; "."] build_dir = Exited c2 o2 e2 ->
        c2 <> 0%Z ->
        Py.utf8_valid e2 = true ->
        fst (build_project E project_dir build_dir w) = Ok (false, e2))
    /\
    (forall o1 e1 o2 e2,
        exec E ["cmake"; project_dir] build_dir = Exited 0 o1 e1 ->
        exec E ["cmake"; "--build"; "."] build_dir = Exited 0 o2 e2 ->
        Py.utf8_valid o2 = true ->
        fst (build_project E project_dir build_dir w) = Ok (true, o2)).
Proof.
  intros project_dir build_dir w Hmk.
  unfold can_makedirs in Hmk.
  split; [ | split ].
  - intros c1 o1 e1 H1 Hc U1. apply Z.eqb_neq in Hc.
    unfold_adapter. run_cases; close_case.
  - intros o1 e1 c2 o2 e2 H1 H2 Hc U2. apply Z.eqb_neq in Hc.
    unfold_adapter. run_cases; close_case.
  - intros o1 e1 o2 e2 H1 H2 U2.
    unfold_adapter. run_cases; close_case.
Qed.

(** C8.  For every build directory, once the two coverage tools can be
    started, [run_coverage] returns [os.path.join(build_dir,
    "coverage/index.html")] whatever their exit statuses are: a non-zero
    exit of the capture step or of the report step is not an error for the
    caller. *)
Theorem run_coverage_returns_path :
  forall (build_dir : string) (w : world) (c1 c2 : Z) (o1 e1 o2 e2 : string),
    exec E ["lcov"; "--capture"; "--directory"; "."; "--output-file";
            "coverage.info"] build_dir = Exited c1 o1 e1 ->
    exec E ["genhtml"; "coverage.info"; "--output-directory"; "coverage"]
         build_dir = Exited c2 o2 e2 ->
    fst (run_coverage E build_dir w)
      = Ok (OsPath.join build_dir "coverage/index.html").
Proof.
  intros build_dir w c1 c2 o1 e1 o2 e2 H1 H2.
  unfold_adapter. cbn. rewrite H1. cbn. rewrite H2. reflexivity.
Qed.

(** C10.  Whenever the operating system lets the build directory be made,
    every call of [build_project] begins by making it, before any tool is
    started, and the directory exists when the call is over, whether the
    call returns success, returns failure, or raises. *)
Theorem build_project_makes_build_dir :
  forall (project_dir build_dir : string) (w : world),
    can_makedirs E w build_dir ->
    is_dir (snd (build_project E project_dir build_dir w)) build_dir = true
    /\ exists evs,
         trace (snd (build_project E project_dir build_dir w))
           = (trace w ++ EvMakedirs build_dir true :: evs)%list.
Proof.
  intros project_dir build_dir w Hmk.
  destruct (build_project_effect project_dir build_dir w)
    as (evs & Htr & _ & _ & _ & _ & _ & Hdir).
  split; [ exact (Hdir Hmk) | exists evs; exact Htr ].
Qed.

End BuildAdapter.

(** ** Running the monad *)

Lemma bind_ok {A B : Type} (m : M A) (k : A -> M B) (w : world) (a : A) :
  fst (m w) = Ok a -> bind m k w = k a (snd (m w)).
Proof. unfold bind. destruct (m w) as [r w']. cbn. intros ->. reflexivity. Qed.

Lemma bind_raise {A B : Type} (m : M A) (k : A -> M B) (w : world) (e : exn) :
  fst (m w) = Raise e -> bind m k w = (Raise e, snd (m w)).
Proof. unfold bind. destruct (m w) as [r w']. cbn. intros ->. reflexivity. Qed.

Lemma bind_emit {B : Type} (ev : event) (k : unit -> M B) (w : world) :
  bind (emit ev) k w
    = k tt (mk_world (trace w ++ [ev]) (requests_sent w)
                     (directories w) (file_store w)).
Proof. reflexivity. Qed.

Lemma try_ok {A : Type} (m : M A) (h : exn -> M A) (w : world) (a : A) :
  fst (m w) = Ok a -> try_except m h w = (Ok a, snd (m w)).
Proof.
  unfold try_except. destruct (m w) as [r w']. cbn. intros ->. reflexivity.
Qed.

Lemma try_raise {A : Type} (m : M A) (h : exn -> M A) (w : world) (e : exn) :
  fst (m w) = Raise e -> try_except m h w = h e (snd (m w)).
Proof.
  unfold try_except. destruct (m w) as [r w']. cbn. intros ->. reflexivity.
Qed.

(** ** The driver *)

Section Driver.

Variable E : environment.

(** What [read_file] answers depends on the world only through the files. *)
Lemma read_file_frame (path : string) (w1 w2 : world) :
  file_store w1 = file_store w2 ->
  fst (read_file E path w1) = fst (read_file E path w2).
Proof.
  intros Hs. unfold read_file, bind, emit, raise, bytes_decode, ret. cbn.
  destruct (open_error E path "r"); [ reflexivity | ].
  cbn. rewrite Hs.
  destruct (store_get (file_store w2) path) as [ bytes | ]; [ | reflexivity ].
  destruct (Py.utf8_valid bytes); reflexivity.
Qed.

(** [read_file] opens the file for reading and does nothing else. *)
Lemma read_file_effect (path : string) (w : world) :
  snd (read_file E path w)
    = mk_world (trace w ++ [EvOpen path "r"]) (requests_sent w)
               (directories w) (file_store w).
Proof.
  unfold read_file, bind, emit, raise, bytes_decode, ret. cbn.
  destruct (open_error E path "r"); [ reflexivity | ].
  cbn.
  destruct (store_get (file_store w) path) as [ bytes | ]; [ | reflexivity ].
  destruct (Py.utf8_valid bytes); reflexivity.
Qed.

(** What [run_tests] answers does not depend on the world. *)
Lemma run_tests_frame (build_dir : string) (w1 w2 : world) :
  fst (run_tests E build_dir w1) = fst (run_tests E build_dir w2).
Proof.
  unfold run_tests, subprocess_run, bind, emit, raise, bytes_decode, ret. cbn.
  destruct (exec E ["ctest"; "--output-on-failure"] build_dir); [ | reflexivity ].
  cbn. destruct (Py.utf8_valid out); [ | reflexivity ].
  cbn. destruct (Py.utf8_valid err); reflexivity.
Qed.

(** [run_tests] starts the test runner and does nothing else. *)
Lemma run_tests_effect (build_dir : string) (w : world) :
  snd (run_tests E build_dir w)
    = mk_world (trace w ++ [EvRun ["ctest"; "--output-on-failure"] build_dir
                                  false true])
               (requests_sent w) (directories w) (file_store w).
Proof.
  unfold run_tests, subprocess_run, bind, emit, raise, bytes_decode, ret. cbn.
  destruct (exec E ["ctest"; "--output-on-failure"] build_dir); [ | reflexivity ].
  cbn. destruct (Py.utf8_valid out); [ | reflexivity ].
  cbn. destruct (Py.utf8_valid err); reflexivity.
Qed.

(** The retry loop only sends requests, prints and sleeps: it calls no
    function of the driver, starts no command and touches no file. *)
Lemma call_llm_loop_effect (body : payload) (max_retries : Z) :
  forall (attempts : list Z) (w : world),
  exists evs,
    trace (snd (call_llm_loop E body max_retries attempts w))
      = (trace w ++ evs)%list
    /\ calls evs = []
    /\ commands_run evs = []
    /\ files_written evs = []
    /\ directories (snd (call_llm_loop E body max_retries attempts w))
       = directories w
    /\ file_store (snd (call_llm_loop E body max_retries attempts w))
       = file_store w.
Proof.
  induction attempts as [ | attempt rest IH ]; intros w.
  - exists []. cbn. rewrite app_nil_r. repeat split.
  - cbn [call_llm_loop]. unfold try_except.
    pose proof (send_request_trace E body w) as (Ht & _ & Hd & Hf).
    destruct (send_request E body w) as [ [ v | e ] w1 ]; cbn in Ht, Hd, Hf.
    + exists [EvPost OLLAMA_API_URL body 60]. cbn. repeat split; assumption.
    + assert (Hretry : forall msg s,
                 exists evs,
                   trace (snd ((print msg ;; time_sleep s ;;
                                call_llm_loop E body max_retries rest) w1))
                     = (trace w ++ evs)%list
                   /\ calls evs = []
                   /\ commands_run evs = []
                   /\ files_written evs = []
                   /\ directories (snd ((print msg ;; time_sleep s ;;
                                call_llm_loop E body max_retries rest) w1))
                      = directories w
                   /\ file_store (snd ((print msg ;; time_sleep s ;;
                                call_llm_loop E body max_retries rest) w1))
                      = file_store w).
      { intros msg s. unfold print, time_sleep. rewrite !bind_emit.
        cbn [trace requests_sent directories file_store].
        match goal with
        | |- context [call_llm_loop E body max_retries rest ?w2] =>
            destruct (IH w2) as (evs & Het & Hc & Hr & Hw & Hdd & Hff)
        end.
        cbn [trace directories file_store] in Het, Hdd, Hff.
        exists (EvPost OLLAMA_API_URL body 60 :: EvPrint msg :: EvSleep s :: evs).
        rewrite Het, Hdd, Hff, Ht. rewrite <- !app_assoc. cbn.
        repeat split; assumption. }
      assert (Hstop : forall e',
                 exists evs,
                   trace (snd (@raise pyvalue e' w1)) = (trace w ++ evs)%list
                   /\ calls evs = []
                   /\ commands_run evs = []
                   /\ files_written evs = []
                   /\ directories (snd (@raise pyvalue e' w1)) = directories w
                   /\ file_store (snd (@raise pyvalue e' w1)) = file_store w).
      { intros e'. exists [EvPost OLLAMA_API_URL body 60]. cbn.
        repeat split; assumption. }
      destruct (is_ConnectionError e); [ | destruct (is_Timeout e) ];
        try destruct (attempt <? max_retries - 1)%Z;
        first [ apply Hretry | apply Hstop ].
Qed.

Lemma call_llm_effect (prompt model : string) (max_retries : Z) (w : world) :
  exists evs,
    trace (snd (call_llm E prompt model max_retries w)) = (trace w ++ evs)%list
    /\ calls evs = []
    /\ commands_run evs = []
    /\ files_written evs = []
    /\ directories (snd (call_llm E prompt model max_retries w)) = directories w
    /\ file_store (snd (call_llm E prompt model max_retries w)) = file_store w.
Proof. apply call_llm_loop_effect. Qed.

(** ** Naming of the generated tests *)

Lemma test_file_of_iff (test_dir a b : string) :
  test_file_of test_dir a = test_file_of test_dir b
  <-> OsPath.basename a = OsPath.basename b.
Proof.
  unfold test_file_of, OsPath.join.
  change (Py.startswith ("test_" ++ OsPath.basename a) "/") with false.
  change (Py.startswith ("test_" ++ OsPath.basename b) "/") with false.
  split.
  - destruct (String.eqb test_dir "" || Py.endswith test_dir "/"); intros H;
      apply (append_inv_head test_dir) in H;
      [ | apply (append_inv_head "/") in H ];
      apply (append_inv_head "test_") in H; exact H.
  - intros ->. reflexivity.
Qed.

(** [write_file] opens the file for writing, whatever comes of it. *)
Lemma write_file_effect (path : string) (content : pyvalue) (w : world) :
  trace (snd (write_file E path content w))
    = (trace w ++ [EvOpen path "w"])%list.
Proof.
  unfold write_file, bind, emit, raise, set_file. cbn.
  destruct (open_error E path "w"); [ reflexivity | ].
  destruct content; try reflexivity.
  cbn. destruct (Py.utf8_valid s); reflexivity.
Qed.

(** One turn of the loop of step 1 never fails, and opens at most one file
    for writing: the test file of the source file at hand. *)
Lemma generate_one_effect (yaml_dir test_dir cpp_file : string) (w : world) :
  exists evs,
    generate_one E yaml_dir test_dir cpp_file w
      = (Ok tt, snd (generate_one E yaml_dir test_dir cpp_file w))
    /\ trace (snd (generate_one E yaml_dir test_dir cpp_file w))
       = (trace w ++ evs)%list
    /\ (files_written evs = []
        \/ files_written evs = [test_file_of test_dir cpp_file]).
Proof.
  unfold generate_one.
  unfold call, print, bind, try_except, emit, ret.
  cbn [fst snd trace requests_sent directories file_store].
  match goal with
  | |- context [read_file E cpp_file ?w1] =>
      pose proof (read_file_effect cpp_file w1) as Hr1;
      destruct (read_file E cpp_file w1) as [ [ code | e1 ] w2 ]
  end; cbn [snd] in Hr1; subst w2;
    cbn [fst snd trace requests_sent directories file_store].
  2: { eexists. split; [ reflexivity | ].
       cbn [snd trace]. rewrite <- !app_assoc.
       split; [ reflexivity | ]. left. reflexivity. }
  match goal with
  | |- context [read_file E ?p ?w1] =>
      pose proof (read_file_effect p w1) as Hr2;
      destruct (read_file E p w1) as [ [ yaml | e2 ] w3 ]
  end; cbn [snd] in Hr2; subst w3;
    cbn [fst snd trace requests_sent directories file_store].
  2: { eexists. split; [ reflexivity | ].
       cbn [snd trace]. rewrite <- !app_assoc.
       split; [ reflexivity | ]. left. reflexivity. }
  match goal with
  | |- context [call_llm E ?pr ?m ?r ?w1] =>
      destruct (call_llm_effect pr m r w1)
        as (levs & Hltr & _ & _ & Hlw & _ & _);
      destruct (call_llm E pr m r w1) as [ [ test_code | e3 ] w4 ]
  end; cbn [fst snd trace requests_sent directories file_store] in *.
  2: { eexists. split; [ reflexivity | ].
       cbn [snd trace]. rewrite Hltr, <- !app_assoc.
       split; [ reflexivity | ].
       left. autorewrite with trace_db. rewrite Hlw. reflexivity. }
  match goal with
  | |- context [write_file E ?p ?c ?w1] =>
      pose proof (write_file_effect p c w1) as Hwr;
      destruct (write_file E p c w1) as [ [ [] | e4 ] w5 ]
  end; cbn [fst snd trace requests_sent directories file_store] in *.
  all: eexists; (split; [ reflexivity | ]);
    cbn [snd trace]; rewrite Hwr, Hltr, <- !app_assoc;
    (split; [ reflexivity | ]);
    right; autorewrite with trace_db; rewrite Hlw; reflexivity.
Qed.

(** Step 1 opens for writing only test files of the source files it is
    given, and never fails as a whole. *)
Lemma main_generate_writes (yaml_dir test_dir : string) :
  forall (cpp_files : list string) (w : world),
  exists evs,
    fst (main_generate E yaml_dir test_dir cpp_files w) = Ok tt
    /\ trace (snd (main_generate E yaml_dir test_dir cpp_files w))
       = (trace w ++ evs)%list
    /\ incl (files_written evs) (map (test_file_of test_dir) cpp_files).
Proof.
  unfold main_generate.
  induction cpp_files as [ | cpp_file rest IH ]; intros w.
  - exists []. cbn. rewrite app_nil_r. repeat split. apply incl_nil_l.
  - destruct (generate_one_effect yaml_dir test_dir cpp_file w)
      as (evs1 & Hrun & Htr1 & Hw1).
    cbn [for_each].
    rewrite (bind_ok _ _ w tt) by (rewrite Hrun; reflexivity).
    destruct (IH (snd (generate_one E yaml_dir test_dir cpp_file w)))
      as (evs2 & Hok & Htr2 & Hw2).
    exists (evs1 ++ evs2)%list.
    split; [ exact Hok | ].
    split; [ rewrite Htr2, Htr1, app_assoc; reflexivity | ].
    autorewrite with trace_db. cbn [map].
    apply incl_app.
    + destruct Hw1 as [ -> | -> ]; [ apply incl_nil_l | ].
      intros p [ <- | [] ]. left. reflexivity.
    + apply incl_tl. exact Hw2.
Qed.

End Driver.

(** ** Discovery *)

Lemma dirtree_induction (P : dirtree -> Prop) :
  (forall files subdirs,
      Forall (fun d => P (snd d)) subdirs -> P (Dir files subdirs)) ->
  forall t, P t.
Proof.
  intros step. fix self 1. intros [ files subdirs ]. apply step.
  induction subdirs as [ | d subdirs IH ]; constructor; [ apply self | exact IH ].
Qed.

Lemma flat_map_flat_map {A B C : Type} (g : B -> list C) (h : A -> list B)
      (l : list A) :
  flat_map g (flat_map h l) = flat_map (fun x => flat_map g (h x)) l.
Proof.
  induction l as [ | x l IH ]; [ reflexivity | ].
  cbn. rewrite flat_map_app, IH. reflexivity.
Qed.

Lemma fold_left_appending {A B : Type} (step : list B -> A -> list B)
      (g : A -> list B) :
  (forall acc x, step acc x = (acc ++ g x)%list) ->
  forall l acc, fold_left step l acc = (acc ++ flat_map g l)%list.
Proof.
  intros Hstep. induction l as [ | x l IH ]; intros acc; cbn.
  - rewrite app_nil_r. reflexivity.
  - rewrite IH, Hstep, <- app_assoc. reflexivity.
Qed.

(** What one directory contributes to the result of discovery. *)
Lemma collect_inner_loop (root : string) (files acc : list string) :
  fold_left
    (fun (cpp_files : list string) (file : string) =>
       if Py.endswith file ".cc" || Py.endswith file ".cpp"
       then (cpp_files ++ [OsPath.join root file])%list
       else cpp_files)
    files acc
  = (acc ++ map (OsPath.join root) (filter is_cpp files))%list.
Proof.
  revert acc. induction files as [ | file files IH ]; intros acc; cbn.
  - rewrite app_nil_r. reflexivity.
  - rewrite IH. unfold is_cpp at 2.
    destruct (Py.endswith file ".cc" || Py.endswith file ".cpp"); cbn.
    + rewrite <- app_assoc. reflexivity.
    + reflexivity.
Qed.

(** Discovery, one directory after the other. *)
Lemma collect_by_directory (project_dir : string) (t : dirtree) :
  collect_cpp_files project_dir t
  = flat_map (fun entry : string * list string * list string =>
                let '(root, _, files) := entry in
                if skipped root then []
                else map (OsPath.join root) (filter is_cpp files))
             (os_walk project_dir t).
Proof.
  unfold collect_cpp_files.
  rewrite fold_left_appending
    with (g := fun entry : string * list string * list string =>
                 let '(root, _, files) := entry in
                 if skipped root then []
                 else map (OsPath.join root) (filter is_cpp files)).
  - reflexivity.
  - intros acc [ [ root dirs ] files ]. unfold skipped.
    destruct (Py.str_in "third_party" root).
    + rewrite app_nil_r. reflexivity.
    + apply collect_inner_loop.
Qed.

(** Discovery, following the tree. *)
Lemma collect_Dir (project_dir : string) (files : list string)
      (subdirs : list (string * dirtree)) :
  collect_cpp_files project_dir (Dir files subdirs)
  = ((if skipped project_dir then []
      else map (OsPath.join project_dir) (filter is_cpp files))
       ++ flat_map (fun d => collect_cpp_files (OsPath.join project_dir (fst d))
                                               (snd d)) subdirs)%list.
Proof.
  rewrite collect_by_directory. cbn [os_walk flat_map]. f_equal.
  rewrite flat_map_flat_map. apply flat_map_ext. intros d.
  rewrite collect_by_directory. reflexivity.
Qed.

Lemma all_paths_Dir (project_dir : string) (files : list string)
      (subdirs : list (string * dirtree)) :
  all_paths project_dir (Dir files subdirs)
  = (map (OsPath.join project_dir) files
       ++ flat_map (fun d => all_paths (OsPath.join project_dir (fst d)) (snd d))
                   subdirs)%list.
Proof.
  unfold all_paths. cbn [os_walk flat_map]. f_equal.
  rewrite flat_map_flat_map. reflexivity.
Qed.

Lemma well_formed_inv (files : list string) (subdirs : list (string * dirtree)) :
  well_formed (Dir files subdirs) = true ->
  (forall f, In f files -> valid_name f = true)
  /\ distinct files = true
  /\ (forall d, In d subdirs -> valid_name (fst d) = true)
  /\ distinct (map fst subdirs) = true
  /\ (forall d, In d subdirs -> well_formed (snd d) = true).
Proof.
  cbn [well_formed]. rewrite !andb_true_iff, !forallb_forall.
  intros [ [ [ [ H1 H2 ] H3 ] H4 ] H5 ].
  repeat split; auto.
  intros d Hd. apply H3, in_map, Hd.
Qed.

Lemma distinct_NoDup (names : list string) :
  distinct names = true -> NoDup names.
Proof.
  induction names as [ | name rest IH ]; cbn; [ constructor | ].
  rewrite andb_true_iff, negb_true_iff. intros [ Hn Hd ].
  constructor; [ | auto ].
  intros Hin.
  assert (existsb (String.eqb name) rest = true); [ | congruence ].
  apply existsb_exists. exists name. split; [ exact Hin | apply String.eqb_refl ].
Qed.

(** Every entry of the result is a recognised file name joined to a
    directory that is not skipped. *)
Lemma collect_inv (t : dirtree) :
  forall project_dir p,
    well_formed t = true ->
    In p (collect_cpp_files project_dir t) ->
    exists root file,
      p = OsPath.join root file
      /\ skipped root = false
      /\ is_cpp file = true
      /\ valid_name file = true.
Proof.
  induction t as [ files subdirs IH ] using dirtree_induction.
  intros project_dir p Hwf Hin.
  apply well_formed_inv in Hwf as (Hfiles & _ & _ & _ & Hsubs).
  rewrite collect_Dir in Hin. apply in_app_or in Hin as [ Hin | Hin ].
  - destruct (skipped project_dir) eqn:Hskip; [ contradiction | ].
    apply in_map_iff in Hin as (file & <- & Hf).
    apply filter_In in Hf as [ Hf Hcpp ].
    exists project_dir, file. auto.
  - apply in_flat_map in Hin as (d & Hd & Hin).
    rewrite Forall_forall in IH. eapply IH; eauto.
Qed.

(** C2.  For every file under the project directory whose path has a
    segment equal to "third_party" (a directory of that name anywhere
    above it, at any depth, or in the path of the project directory
    itself), [collect_cpp_files] does not include that file. *)
Theorem collect_excludes_third_party :
  forall (project_dir : string) (t : dirtree) (dirs : list string)
         (file : string),
    well_formed t = true ->
    file_in t dirs file ->
    In "third_party" (Py.split_slash (file_path project_dir dirs file)) ->
    ~ In (file_path project_dir dirs file) (collect_cpp_files project_dir t).
Proof.
  intros project_dir t dirs file Hwf _ Hseg Hin.
  destruct (collect_inv t project_dir _ Hwf Hin)
    as (root & name & Heq & Hskip & Hcpp & Hvalid).
  rewrite Heq in Hseg.
  apply (join_segments _ _ _ Hvalid) in Hseg as [ <- | Hseg ].
  - discriminate Hcpp.
  - apply segment_in_text in Hseg. unfold skipped in Hskip. congruence.
Qed.

Lemma map_flat_map {A B C : Type} (f : B -> C) (g : A -> list B) (l : list A) :
  map f (flat_map g l) = flat_map (fun x => map f (g x)) l.
Proof.
  induction l as [ | x l IH ]; [ reflexivity | ].
  cbn. rewrite map_app, IH. reflexivity.
Qed.

Lemma flat_map_ext_in {A B : Type} (f g : A -> list B) (l : list A) :
  (forall x, In x l -> f x = g x) -> flat_map f l = flat_map g l.
Proof.
  induction l as [ | x l IH ]; intros H; [ reflexivity | ].
  cbn. rewrite (H x (or_introl eq_refl)), IH; [ reflexivity | ].
  intros y Hy. apply H. right. exact Hy.
Qed.

(** Below a well-formed tree, the paths that [os.walk] lists are the
    relative paths of the files, each after the path of the top. *)
Lemma all_paths_rel (t : dirtree) :
  forall project_dir,
    well_formed t = true ->
    all_paths project_dir t = map (append (base project_dir)) (all_rel t).
Proof.
  induction t as [ files subdirs IH ] using dirtree_induction.
  intros project_dir Hwf.
  apply well_formed_inv in Hwf as (Hfiles & _ & Hnames & _ & Hsubs).
  rewrite all_paths_Dir. cbn [all_rel]. rewrite map_app, map_flat_map.
  f_equal.
  - apply map_ext_in. intros f Hf. apply join_valid, Hfiles, Hf.
  - apply flat_map_ext_in. intros d Hd.
    rewrite Forall_forall in IH. rewrite (IH d Hd _ (Hsubs d Hd)).
    rewrite map_map. apply map_ext. intros rel.
    rewrite (base_join _ _ (Hnames d Hd)), !append_assoc. reflexivity.
Qed.

Lemma has_slash (a x : string) : Py.str_in "/" (a ++ "/" ++ x) = true.
Proof. apply str_in_app_r, (str_in_prefix "/" x). Qed.

(** A text has one decomposition only into a name, ["/"], and a rest. *)
Lemma first_segment_unique (a a' x y : string) :
  Py.str_in "/" a = false ->
  Py.str_in "/" a' = false ->
  a ++ "/" ++ x = a' ++ "/" ++ y ->
  a = a' /\ x = y.
Proof.
  intros Ha Ha' H.
  assert (Hs : Py.split_slash (a ++ "/" ++ x) = Py.split_slash (a' ++ "/" ++ y))
    by (rewrite H; reflexivity).
  cbn [append] in Hs.
  rewrite !split_slash_app, (split_slash_free _ Ha), (split_slash_free _ Ha') in Hs.
  injection Hs as Heq _. subst a'.
  split; [ reflexivity | ].
  apply append_inv_head in H. cbn in H. congruence.
Qed.

Lemma existsb_eqb_false (name : string) (names : list string) :
  existsb (String.eqb name) names = false -> ~ In name names.
Proof.
  intros H Hin.
  assert (existsb (String.eqb name) names = true); [ | congruence ].
  apply existsb_exists. exists name. split; [ exact Hin | apply String.eqb_refl ].
Qed.

(** The files of a well-formed tree have pairwise distinct relative paths. *)
Lemma all_rel_NoDup (t : dirtree) :
  well_formed t = true -> NoDup (all_rel t).
Proof.
  induction t as [ files subdirs IH ] using dirtree_induction.
  intros Hwf.
  apply well_formed_inv in Hwf as (Hfiles & Hdf & Hnames & Hds & Hsubs).
  cbn [all_rel]. apply NoDup_app.
  - apply distinct_NoDup, Hdf.
  - clear Hfiles Hdf.
    induction subdirs as [ | d subdirs IHs ]; [ constructor | ].
    cbn [flat_map]. cbn [map distinct] in Hds.
    apply andb_true_iff in Hds as [ Hd Hds ]. apply negb_true_iff in Hd.
    apply Forall_cons_iff in IH as [ IHd IH ].
    assert (Hvd : valid_name (fst d) = true) by (apply Hnames; left; reflexivity).
    apply NoDup_app.
    + apply NoDup_map_NoDup_ForallPairs.
      * intros x y _ _ Hxy.
        apply append_inv_head in Hxy. apply (append_inv_head "/") in Hxy.
        exact Hxy.
      * apply IHd, Hsubs. left. reflexivity.
    + apply IHs; auto.
      * intros d' Hd'. apply Hnames. right. exact Hd'.
      * intros d' Hd'. apply Hsubs. right. exact Hd'.
    + intros p Hp Hq.
      apply in_map_iff in Hp as (rel & <- & _).
      apply in_flat_map in Hq as (d' & Hd' & Hq).
      apply in_map_iff in Hq as (rel' & Heq & _).
      apply first_segment_unique in Heq as [ Heq _ ].
      * apply (existsb_eqb_false _ _ Hd). rewrite <- Heq.
        apply in_map, Hd'.
      * apply valid_name_inv, Hnames. right. exact Hd'.
      * apply valid_name_inv, Hvd.
  - intros p Hp Hq.
    apply in_flat_map in Hq as (d & Hd & Hq).
    apply in_map_iff in Hq as (rel & <- & _).
    apply Hfiles, valid_name_inv in Hp as [ _ Hp ].
    rewrite has_slash in Hp. discriminate.
Qed.

Lemma all_paths_NoDup (project_dir : string) (t : dirtree) :
  well_formed t = true -> NoDup (all_paths project_dir t).
Proof.
  intros Hwf. rewrite (all_paths_rel t _ Hwf).
  apply NoDup_map_NoDup_ForallPairs.
  - intros x y _ _ Hxy. eapply append_inv_head. exact Hxy.
  - apply all_rel_NoDup, Hwf.
Qed.

Lemma count_occ_flat_map_le {A : Type} (f g : A -> list string) (p : string)
      (l : list A) :
  (forall x, count_occ string_dec (g x) p <= count_occ string_dec (f x) p) ->
  count_occ string_dec (flat_map g l) p <= count_occ string_dec (flat_map f l) p.
Proof.
  intros H. induction l as [ | x l IH ]; cbn; [ lia | ].
  rewrite !count_occ_app. specialize (H x). lia.
Qed.

Lemma count_occ_map_filter_le (f : string -> string) (keep : string -> bool)
      (p : string) (l : list string) :
  count_occ string_dec (map f (filter keep l)) p
  <= count_occ string_dec (map f l) p.
Proof.
  induction l as [ | x l IH ]; cbn; [ lia | ].
  destruct (keep x); cbn; destruct (string_dec (f x) p); lia.
Qed.

(** Discovery lists no path more often than [os.walk] does. *)
Lemma collect_count_le (project_dir : string) (t : dirtree) (p : string) :
  count_occ string_dec (collect_cpp_files project_dir t) p
  <= count_occ string_dec (all_paths project_dir t) p.
Proof.
  rewrite collect_by_directory. unfold all_paths.
  apply count_occ_flat_map_le. intros [ [ root dirs ] files ].
  destruct (skipped root); [ cbn; lia | apply count_occ_map_filter_le ].
Qed.

(** A recognised file of a directory that is not skipped is found. *)
Lemma collect_includes (t : dirtree) (dirs : list string) (file : string) :
  file_in t dirs file ->
  forall project_dir,
    is_cpp file = true ->
    skipped (root_of project_dir dirs) = false ->
    In (file_path project_dir dirs file) (collect_cpp_files project_dir t).
Proof.
  induction 1 as [ files subdirs file Hf | files subdirs d sub dirs file Hd _ IH ];
    intros project_dir Hcpp Hskip; rewrite collect_Dir; apply in_or_app.
  - left. unfold root_of in Hskip. cbn [fold_left] in Hskip. rewrite Hskip.
    apply in_map. apply filter_In. auto.
  - right. apply in_flat_map. exists (d, sub). split; [ exact Hd | ].
    apply IH; assumption.
Qed.

(** C3 (amended).  For every file under the project directory whose name
    ends in ".cc" or ".cpp" and whose directory has a path (as [os.walk]
    gives it, the project directory included) in which the text
    "third_party" does not occur, [collect_cpp_files] includes exactly one
    entry for that file. *)
Theorem collect_includes_once :
  forall (project_dir : string) (t : dirtree) (dirs : list string)
         (file : string),
    well_formed t = true ->
    file_in t dirs file ->
    is_cpp file = true ->
    skipped (root_of project_dir dirs) = false ->
    count_occ string_dec (collect_cpp_files project_dir t)
              (file_path project_dir dirs file) = 1.
Proof.
  intros project_dir t dirs file Hwf Hin Hcpp Hskip.
  pose proof (collect_includes t dirs file Hin project_dir Hcpp Hskip) as Hfound.
  apply (count_occ_In string_dec) in Hfound.
  pose proof (collect_count_le project_dir t (file_path project_dir dirs file))
    as Hle.
  pose proof (proj1 (NoDup_count_occ string_dec _)
                    (all_paths_NoDup project_dir t Hwf)
                    (file_path project_dir dirs file)) as Hone.
  lia.
Qed.

(* ================================================================== *)
(** * The properties on concrete inputs *)
(* ================================================================== *)

(** ** Where the stated properties fail *)


(** C3 as stated fails for a directory whose name contains the text
    "third_party" without being "third_party": "c.cpp" has a recognised
    suffix and no segment of its path is "third_party", yet discovery
    has no entry for it. *)
Lemma text_in_directory_name_excludes :
  well_formed sample_project = true
  /\ file_in sample_project ["third_party_old"] "c.cpp"
  /\ is_cpp "c.cpp" = true
  /\ ~ In "third_party"
          (Py.split_slash (file_path "proj" ["third_party_old"] "c.cpp"))
  /\ count_occ string_dec (collect_cpp_files "proj" sample_project)
               (file_path "proj" ["third_party_old"] "c.cpp") = 0.
Proof.
  split; [ reflexivity | ]. split; [ | split; [ reflexivity | split ] ].
  - eapply file_below with (sub := Dir ["c.cpp"] []).
    + cbn. auto.
    + apply file_here. cbn. auto.
  - vm_compute. intros [ H | [ H | [ H | [] ] ] ]; discriminate H.
  - vm_compute. reflexivity.
Qed.

(** C4 as stated fails for two source files of the same name in different
    directories: discovery returns both, they are distinct, and step 1
    writes both tests to the same file, of which the second write
    replaces the first. *)
Lemma same_base_name_same_test_file :
  collect_cpp_files "proj" twin_project = ["proj/a/util.cc"; "proj/b/util.cc"]
  /\ "proj/a/util.cc" <> "proj/b/util.cc"
  /\ test_file_of "generated_tests" "proj/a/util.cc"
     = test_file_of "generated_tests" "proj/b/util.cc"
  /\ files_written
       (trace (snd (main_generate calm "yaml_prompts" "generated_tests"
                      (collect_cpp_files "proj" twin_project) twin_world)))
     = ["generated_tests/test_util.cc"; "generated_tests/test_util.cc"]
  /\ store_get
       (file_store (snd (main_generate calm "yaml_prompts" "generated_tests"
                           (collect_cpp_files "proj" twin_project) twin_world)))
       "generated_tests/test_util.cc"
     = Some "// test 1".
Proof.
  split; [ vm_compute; reflexivity | ].
  split; [ discriminate | ].
  split; [ vm_compute; reflexivity | ].
  split; vm_compute; reflexivity.
Qed.

(** C5 as stated fails when both steps succeed: the answer is the
    standard output of the build step, in which the output of the configure
    step does not occur. *)
Lemma build_success_output_is_not_combined :
  exec talkative_build ["cmake"; "proj"] "build"
    = Exited 0 "-- Configuring done" ""
  /\ exec talkative_build ["cmake"; "--build"; "."] "build"
     = Exited 0 "[100%] Built target tests" "warning: W"
  /\ fst (build_project talkative_build "proj" "build" empty_world)
     = Ok (true, "[100%] Built target tests")
  /\ Py.str_in "-- Configuring done" "[100%] Built target tests" = false.
Proof. repeat split; vm_compute; reflexivity. Qed.

(** C7 as stated fails for a status that is neither 2xx, 4xx nor 5xx: a
    300 answer whose body is a JSON object with a completion is not a
    failure, [call_llm] returns the completion after this one request. *)
Lemma non_2xx_status_can_succeed :
  (exists r,
      http multiple_choices_service 0 OLLAMA_API_URL
           (mk_payload default_model "p" false) = Ok r
      /\ status_code r = 300%Z
      /\ ~ (200 <= status_code r < 300)%Z)
  /\ call_llm multiple_choices_service "p" default_model 3 empty_world
     = (Ok (PyStr "// one of many"),
        mk_world [EvPost OLLAMA_API_URL (mk_payload default_model "p" false) 60]
                 1 [] []).
Proof.
  split.
  - eexists. split; [ reflexivity | ]. split; [ reflexivity | ]. cbn. lia.
  - vm_compute. reflexivity.
Qed.

(** The directory test looks at directories only: a source file whose own
    name contains the text "third_party" is kept when its directory is. *)
Lemma file_name_with_text_is_kept :
  collect_cpp_files "proj" (Dir ["third_party_api.cpp"] [])
    = ["proj/third_party_api.cpp"]
  /\ Py.str_in "third_party" "proj/third_party_api.cpp" = true
  /\ ~ In "third_party" (Py.split_slash "proj/third_party_api.cpp").
Proof.
  split; [ reflexivity | split; [ reflexivity | ] ].
  vm_compute. intros [ H | [ H | [] ] ]; discriminate H.
Qed.

(** ** The proved properties at work *)

(** With [max_retries = -1] and a service that is down, nothing happens. *)
Lemma call_llm_no_attempt_witness :
  (-1 <= 0)%Z
  /\ call_llm refusing_service "p" default_model (-1) empty_world
     = (Ok PyNone, empty_world).
Proof.
  split; [ lia | ].
  apply (call_llm_no_attempt refusing_service "p" default_model (-1) empty_world).
  lia.
Defined.


(** A body without completion on the second attempt, and a 500 on the
    first: both end the call at once. *)
Lemma call_llm_other_failure_witness :
  (exists w',
      call_llm_loop key_error_service (mk_payload default_model "p" false) 3
                    [1%Z; 2%Z] empty_world
        = (Raise (api_error (new_exn KeyError "'response'")), w')
      /\ trace w'
         = (trace empty_world
              ++ [EvPost OLLAMA_API_URL (mk_payload default_model "p" false) 60])%list)
  /\
  (exists e w',
      exc_type e = HTTPError
      /\ call_llm_loop broken_service (mk_payload default_model "p" false) 3
                       [0%Z; 1%Z; 2%Z] empty_world
         = (Raise (api_error e), w')
      /\ trace w'
         = (trace empty_world
              ++ [EvPost OLLAMA_API_URL (mk_payload default_model "p" false) 60])%list).
Proof.
  split.
  - apply (proj1 (call_llm_other_failure key_error_service
                    (mk_payload default_model "p" false) 3 1 [2%Z]
                    empty_world)); reflexivity.
  - eapply (proj2 (call_llm_other_failure broken_service
                     (mk_payload default_model "p" false) 3 0 [1%Z; 2%Z]
                     empty_world)).
    + reflexivity.
    + cbn. lia.
Defined.

(** A failing configure step, a failing build step, and a build that
    succeeds. *)
Lemma build_project_result_witness :
  fst (build_project broken_configure "proj" "build" empty_world)
  = Ok (false, "CMake Error: no CMakeLists.txt")
  /\ fst (build_project broken_build "proj" "build" empty_world)
     = Ok (false, "error: X")
  /\ fst (build_project talkative_build "proj" "build" empty_world)
     = Ok (true, "[100%] Built target tests").
Proof.
  split; [ | split ].
  - apply (proj1 (build_project_result broken_configure "proj" "build"
                    empty_world (or_intror eq_refl))
                 1%Z "" "CMake Error: no CMakeLists.txt").
    + reflexivity.
    + discriminate.
    + reflexivity.
  - apply (proj1 (proj2 (build_project_result broken_build "proj" "build"
                           empty_world (or_intror eq_refl)))
                 "" "" 2%Z "[ 50%] Building" "error: X").
    + reflexivity.
    + reflexivity.
    + discriminate.
    + reflexivity.
  - apply (proj2 (proj2 (build_project_result talkative_build "proj" "build"
                           empty_world (or_intror eq_refl)))
                 "-- Configuring done" "" "[100%] Built target tests"
                 "warning: W").
    + reflexivity.
    + reflexivity.
    + reflexivity.
Defined.

(** Both coverage tools exit with status 1; the path is returned all the
    same. *)
Lemma run_coverage_returns_path_witness :
  fst (run_coverage failing_tests "build" empty_world)
  = Ok "build/coverage/index.html".
Proof.
  apply (run_coverage_returns_path failing_tests "build" empty_world
           1 1 "" "no data" "" "no data"); reflexivity.
Defined.

(** The build fails; the build directory is there. *)
Lemma build_project_makes_build_dir_witness :
  is_dir (snd (build_project broken_build "proj" "build" empty_world)) "build"
  = true
  /\ exists evs,
       trace (snd (build_project broken_build "proj" "build" empty_world))
       = (trace empty_world ++ EvMakedirs "build" true :: evs)%list.
Proof.
  apply (build_project_makes_build_dir broken_build "proj" "build" empty_world).
  right. reflexivity.
Defined.

(** A source file two levels below a directory named third_party. *)
Lemma collect_excludes_third_party_witness :
  In "third_party"
     (Py.split_slash (file_path "proj" ["third_party"; "deep"] "z.cc"))
  /\ ~ In (file_path "proj" ["third_party"; "deep"] "z.cc")
          (collect_cpp_files "proj" sample_project).
Proof.
  assert (Hseg : In "third_party"
                    (Py.split_slash
                       (file_path "proj" ["third_party"; "deep"] "z.cc"))).
  { vm_compute. right. left. reflexivity. }
  split; [ exact Hseg | ].
  apply (collect_excludes_third_party "proj" sample_project
           ["third_party"; "deep"] "z.cc").
  - reflexivity.
  - eapply file_below with (sub := Dir ["a.cpp"] [("deep", Dir ["z.cc"] [])]).
    + cbn. auto.
    + eapply file_below with (sub := Dir ["z.cc"] []).
      * cbn. auto.
      * apply file_here. cbn. auto.
  - exact Hseg.
Defined.

(** A source file of an ordinary sub-directory. *)
Lemma collect_includes_once_witness :
  count_occ string_dec (collect_cpp_files "proj" sample_project)
            (file_path "proj" ["lib"] "b.cc") = 1.
Proof.
  apply (collect_includes_once "proj" sample_project ["lib"] "b.cc").
  - reflexivity.
  - eapply file_below with (sub := Dir ["b.cc"] []).
    + cbn. auto.
    + apply file_here. cbn. auto.
  - reflexivity.
  - reflexivity.
Defined.

(* ================================================================== *)
(** * The pipeline in more detail *)
(* ================================================================== *)

Lemma printed_app (a b : list event) :
  printed (a ++ b) = (printed a ++ printed b)%list.
Proof. apply flat_map_app. Qed.

Lemma files_read_app (a b : list event) :
  files_read (a ++ b) = (files_read a ++ files_read b)%list.
Proof. apply flat_map_app. Qed.

#[local] Hint Rewrite printed_app files_read_app : trace_db.

(** ** The model client, continued *)

Section ModelClientMore.

Variable E : environment.


Lemma status_not_error (s : Z) :
  ((400 <=? s) && (s <? 600))%Z = false ->
  ((400 <=? s) && (s <? 500))%Z = false
  /\ ((500 <=? s) && (s <? 600))%Z = false.
Proof.
  intros H. apply andb_false_iff in H.
  rewrite Z.leb_gt, Z.ltb_ge in H.
  split; apply andb_false_iff; rewrite Z.leb_gt, Z.ltb_ge; lia.
Qed.

Lemma send_request_answered (body : payload) (w : world) (v : pyvalue) :
  answered (http E (requests_sent w) OLLAMA_API_URL body) v ->
  fst (send_request E body w) = Ok v.
Proof.
  intros (resp & items & Hr & Hs & Hj & Hd).
  apply status_not_error in Hs as [ H4 H5 ].
  unfold send_request, bind, requests_post, raise_for_status, response_json,
    subscript.
  rewrite Hr. cbn. rewrite H4, H5. cbn. rewrite Hj. cbn. rewrite Hd.
  reflexivity.
Qed.

Lemma send_request_ok_inv (body : payload) (w : world) (v : pyvalue) :
  fst (send_request E body w) = Ok v ->
  answered (http E (requests_sent w) OLLAMA_API_URL body) v.
Proof.
  unfold send_request, bind, requests_post, raise_for_status, response_json,
    subscript, answered.
  destruct (http E (requests_sent w) OLLAMA_API_URL body) as [ resp | e ];
    cbn; [ | discriminate ].
  destruct ((400 <=? status_code resp)%Z && (status_code resp <? 500)%Z) eqn:H4;
    cbn; [ discriminate | ].
  destruct ((500 <=? status_code resp)%Z && (status_code resp <? 600)%Z) eqn:H5;
    cbn; [ discriminate | ].
  destruct (resp_json resp) as [ decoded | e ] eqn:Hj; cbn; [ | discriminate ].
  destruct decoded; cbn; try discriminate.
  destruct (dict_get items "response") as [ x | ] eqn:Hd; cbn; [ | discriminate ].
  intros Hv. injection Hv as <-.
  exists resp, items. repeat split; try assumption.
  apply andb_false_iff in H4. apply andb_false_iff in H5.
  apply andb_false_iff. rewrite Z.leb_gt, Z.ltb_ge in *. lia.
Qed.



(** The loop when the service refuses [k] requests and answers the next. *)
Lemma call_llm_loop_recovers (body : payload) (max_retries : Z) (v : pyvalue) :
  forall (k len a : nat) (w : world),
    (k < len)%nat ->
    Z.of_nat (a + len) = max_retries ->
    (forall i, (i < k)%nat ->
               refused (http E (requests_sent w + i) OLLAMA_API_URL body)) ->
    answered (http E (requests_sent w + k) OLLAMA_API_URL body) v ->
    exists w',
      call_llm_loop E body max_retries (map Z.of_nat (seq a len)) w = (Ok v, w')
      /\ posts (trace w') = (posts (trace w) ++ repeat body (S k))%list
      /\ sleeps (trace w') = (sleeps (trace w) ++ repeat 2%Z k)%list.
Proof.
  induction k as [ | k IH ]; intros len a w Hlen Hmax Href Hans;
    (destruct len as [ | len ]; [ lia | ]);
    cbn [seq map call_llm_loop]; unfold try_except;
    pose proof (send_request_trace E body w) as (Htr & Hn & _).
  - rewrite Nat.add_0_r in Hans.
    pose proof (send_request_answered body w v Hans) as Hres.
    destruct (send_request E body w) as [r w1]. cbn in Hres, Htr. subst r.
    exists w1. rewrite Htr. autorewrite with trace_db. cbn.
    rewrite app_nil_r. repeat split.
  - assert (H0 : refused (http E (requests_sent w) OLLAMA_API_URL body)).
    { rewrite <- (Nat.add_0_r (requests_sent w)). apply Href. lia. }
    destruct (send_request_refused E body w H0) as (e & Hc & Hres).
    destruct (send_request E body w) as [r w1]. cbn in Hres, Htr, Hn. subst r.
    rewrite Hc.
    replace (Z.of_nat a <? max_retries - 1)%Z with true
      by (symmetry; apply Z.ltb_lt; lia).
    unfold bind, print, time_sleep, emit. cbn [fst snd].
    match goal with
    | |- context [call_llm_loop E body max_retries _ ?w2] =>
        destruct (IH len (S a) w2) as (w' & Hrun & Hp & Hs)
    end.
    + lia.
    + lia.
    + intros i Hi. cbn [requests_sent]. rewrite Hn.
      replace (S (requests_sent w) + i)%nat with (requests_sent w + S i)%nat
        by lia.
      apply Href. lia.
    + cbn [requests_sent]. rewrite Hn.
      replace (S (requests_sent w) + k)%nat with (requests_sent w + S k)%nat
        by lia.
      exact Hans.
    + exists w'. rewrite Hrun. split; [ reflexivity | ].
      cbn [trace] in Hp, Hs. rewrite Hp, Hs, Htr.
      autorewrite with trace_db. cbn.
      rewrite !app_nil_r, <- !app_assoc. cbn. split; reflexivity.
Qed.

(** X2.  If the first [k] requests of a call are refused and the next one
    is answered with a completion, with [k < max_retries], [call_llm]
    returns that completion as it is (whatever kind of value it is), after
    [k + 1] requests and [k] delays of 2: one delay before each retry, none
    when the first request is answered. *)
Theorem call_llm_recovers :
  forall (prompt model : string) (max_retries : Z) (k : nat) (v : pyvalue)
         (w : world),
    (Z.of_nat k < max_retries)%Z ->
    (forall i, (i < k)%nat ->
               refused (http E (requests_sent w + i) OLLAMA_API_URL
                             (mk_payload model prompt false))) ->
    answered (http E (requests_sent w + k) OLLAMA_API_URL
                   (mk_payload model prompt false)) v ->
    exists w',
      call_llm E prompt model max_retries w = (Ok v, w')
      /\ posts (trace w')
         = (posts (trace w) ++ repeat (mk_payload model prompt false) (S k))%list
      /\ sleeps (trace w') = (sleeps (trace w) ++ repeat 2%Z k)%list.
Proof.
  intros prompt model max_retries k v w Hk Href Hans.
  unfold call_llm. cbv zeta. unfold Py.range.
  apply (call_llm_loop_recovers _ max_retries v k (Z.to_nat max_retries) 0 w);
    try assumption; lia.
Qed.

(** What one call of the loop of [call_llm] does, from attempt number [a]
    on with [len] attempts left, whatever the service answers. *)
Lemma call_llm_loop_bound (body : payload) (max_retries : Z) :
  forall (len a : nat) (w : world),
    Z.of_nat (a + len) = max_retries ->
    exists evs,
      trace (snd (call_llm_loop E body max_retries (map Z.of_nat (seq a len)) w))
        = (trace w ++ evs)%list
      /\ (length (posts evs) <= len)%nat
      /\ ((0 < len)%nat -> (1 <= length (posts evs))%nat)
      /\ Forall (eq body) (posts evs)
      /\ length (sleeps evs) = (length (posts evs) - 1)%nat
      /\ Forall (fun s => s = 1%Z \/ s = 2%Z) (sleeps evs).
Proof.
  induction len as [ | len IH ]; intros a w Hmax.
  - exists []. cbn. rewrite app_nil_r. repeat split; auto; lia.
  - cbn [seq map call_llm_loop]. unfold try_except.
    pose proof (send_request_trace E body w) as (Htr & _).
    destruct (send_request E body w) as [ [ v | e ] w1 ]; cbn in Htr.
    + exists [EvPost OLLAMA_API_URL body 60]. cbn.
      repeat split; auto; lia.
    + assert (Hstop : forall e',
                 exists evs,
                   trace (snd (@raise pyvalue e' w1)) = (trace w ++ evs)%list
                   /\ (length (posts evs) <= S len)%nat
                   /\ ((0 < S len)%nat -> (1 <= length (posts evs))%nat)
                   /\ Forall (eq body) (posts evs)
                   /\ length (sleeps evs) = (length (posts evs) - 1)%nat
                   /\ Forall (fun s => s = 1%Z \/ s = 2%Z) (sleeps evs)).
      { intros e'. exists [EvPost OLLAMA_API_URL body 60]. cbn.
        repeat split; auto; lia. }
      assert (Hretry : forall msg s,
                 (s = 1%Z \/ s = 2%Z) ->
                 (0 < len)%nat ->
                 exists evs,
                   trace (snd ((print msg ;; time_sleep s ;;
                                call_llm_loop E body max_retries
                                  (map Z.of_nat (seq (S a) len))) w1))
                     = (trace w ++ evs)%list
                   /\ (length (posts evs) <= S len)%nat
                   /\ ((0 < S len)%nat -> (1 <= length (posts evs))%nat)
                   /\ Forall (eq body) (posts evs)
                   /\ length (sleeps evs) = (length (posts evs) - 1)%nat
                   /\ Forall (fun s => s = 1%Z \/ s = 2%Z) (sleeps evs)).
      { intros msg s Hs Hlen. unfold print, time_sleep. rewrite !bind_emit.
        cbn [trace requests_sent directories file_store].
        match goal with
        | |- context [call_llm_loop E body max_retries _ ?w2] =>
            destruct (IH (S a) w2 ltac:(lia))
              as (evs & Het & Hle & Hge & Hb & Hsl & Hsv)
        end.
        cbn [trace] in Het. specialize (Hge Hlen).
        exists (EvPost OLLAMA_API_URL body 60 :: EvPrint msg :: EvSleep s :: evs).
        rewrite Het, Htr, <- !app_assoc. unfold posts, sleeps in *. cbn.
        split; [ reflexivity | ].
        split; [ lia | ]. split; [ lia | ].
        split; [ constructor; auto | ].
        split; [ lia | constructor; auto ]. }
      destruct (is_ConnectionError e); [ | destruct (is_Timeout e) ];
        try (destruct (Z.ltb_spec (Z.of_nat a) (max_retries - 1)));
        first [ apply Hretry; [ auto | lia ] | apply Hstop ].
Qed.


(** Whatever the loop raises is one of the three errors of [call_llm]. *)
Lemma call_llm_loop_errors (body : payload) (max_retries : Z) :
  forall (attempts : list Z) (w : world) (e : exn),
    fst (call_llm_loop E body max_retries attempts w) = Raise e ->
    is_call_llm_error e.
Proof.
  induction attempts as [ | attempt rest IH ]; intros w e; [ discriminate | ].
  cbn [call_llm_loop]. unfold try_except.
  destruct (send_request E body w) as [ [ v | e0 ] w1 ]; [ discriminate | ].
  assert (Hretry : forall msg s,
             fst ((print msg ;; time_sleep s ;;
                   call_llm_loop E body max_retries rest) w1) = Raise e ->
             is_call_llm_error e).
  { intros msg s. unfold print, time_sleep. rewrite !bind_emit. apply IH. }
  destruct (is_ConnectionError e0); [ | destruct (is_Timeout e0) ];
    try destruct (attempt <? max_retries - 1)%Z;
    try (apply Hretry);
    cbn; intros H; injection H as <-; (split; [ reflexivity | ]);
    first [ left; reflexivity
          | right; left; reflexivity
          | right; right; exists e0; reflexivity ].
Qed.

(** X4.  Whatever the service does, an error of [call_llm] is a plain
    [Exception] that the function built itself: "Failed to connect to
    Ollama...", "LLM request timed out", or "LLM API error: " followed by the
    text of a cause.  No exception of the HTTP library, of the JSON decoder
    or of the look-up of the completion reaches the caller as it is. *)
Theorem call_llm_raises_its_own_errors :
  forall (prompt model : string) (max_retries : Z) (w : world) (e : exn),
    fst (call_llm E prompt model max_retries w) = Raise e ->
    is_call_llm_error e.
Proof.
  intros prompt model max_retries w e. unfold call_llm. cbv zeta.
  apply call_llm_loop_errors.
Qed.

(** What the loop returns, with at least one attempt to make, is the
    completion of one of its requests. *)
Lemma call_llm_loop_returns (body : payload) (max_retries : Z) (v : pyvalue) :
  forall (len a : nat) (w : world),
    (0 < len)%nat ->
    Z.of_nat (a + len) = max_retries ->
    fst (call_llm_loop E body max_retries (map Z.of_nat (seq a len)) w) = Ok v ->
    exists n,
      (requests_sent w <= n < requests_sent w + len)%nat
      /\ answered (http E n OLLAMA_API_URL body) v.
Proof.
  induction len as [ | len IH ]; intros a w Hlen Hmax; [ lia | ].
  cbn [seq map call_llm_loop]. unfold try_except.
  pose proof (send_request_ok_inv body w) as Hinv.
  pose proof (send_request_trace E body w) as (_ & Hn & _).
  destruct (send_request E body w) as [ [ v0 | e0 ] w1 ]; cbn in Hinv, Hn.
  - cbn. intros H. injection H as <-.
    exists (requests_sent w). split; [ lia | apply Hinv; reflexivity ].
  - assert (Hretry : forall msg s,
               (0 < len)%nat ->
               fst ((print msg ;; time_sleep s ;;
                     call_llm_loop E body max_retries
                       (map Z.of_nat (seq (S a) len))) w1) = Ok v ->
               exists n,
                 (requests_sent w <= n < requests_sent w + S len)%nat
                 /\ answered (http E n OLLAMA_API_URL body) v).
    { intros msg s Hl. unfold print, time_sleep. rewrite !bind_emit.
      cbn [trace requests_sent directories file_store].
      intros H. apply IH in H as (n & Hrange & Hans); [ | lia | lia ].
      cbn [requests_sent] in Hrange. exists n. split; [ lia | exact Hans ]. }
    destruct (is_ConnectionError e0); [ | destruct (is_Timeout e0) ];
      try (destruct (Z.ltb_spec (Z.of_nat a) (max_retries - 1)));
      first [ apply Hretry; lia | cbn; discriminate ].
Qed.

(** X5.  With [max_retries >= 1], what [call_llm] returns is always the
    value found under "response" in the JSON object of an answer to one of
    the requests of this call, whose status was neither 4xx nor 5xx: the
    function never returns a made-up value, and in particular never falls
    off its end. *)
Theorem call_llm_returns_a_completion :
  forall (prompt model : string) (max_retries : Z) (w : world) (v : pyvalue),
    (1 <= max_retries)%Z ->
    fst (call_llm E prompt model max_retries w) = Ok v ->
    exists n,
      (Z.of_nat (requests_sent w) <= Z.of_nat n
       < Z.of_nat (requests_sent w) + max_retries)%Z
      /\ answered (http E n OLLAMA_API_URL (mk_payload model prompt false)) v.
Proof.
  intros prompt model max_retries w v Hn. unfold call_llm. cbv zeta.
  unfold Py.range. intros H.
  apply call_llm_loop_returns in H as (n & Hrange & Hans); try lia.
  exists n. split; [ lia | exact Hans ].
Qed.

End ModelClientMore.

(** ** The build adapter, continued *)

Section BuildAdapterMore.

Variable E : environment.

Ltac adapter_cases :=
  unfold can_makedirs in *;
  unfold build_project, run_tests, run_coverage, subprocess_run, os_makedirs,
    bytes_decode, try_except, bind, emit, ret, raise, is_CalledProcessError,
    new_exn, is_dir in *;
  repeat
    (cbn [fst snd trace requests_sent directories file_store
          stdout stderr returncode exc_stderr exc_type andb negb] in *;
     match goal with
     | |- context [if existsb ?f ?l then _ else _] =>
         let H := fresh "Hdir" in destruct (existsb f l) eqn:H
     | |- context [match mkdir_error E ?p with _ => _ end] =>
         let H := fresh "Hmk" in destruct (mkdir_error E p) eqn:H
     | |- context [match exec E ?a ?c with _ => _ end] =>
         let H := fresh "Hexec" in destruct (exec E a c) eqn:H
     | |- context [if (?c =? 0)%Z then _ else _] =>
         let H := fresh "Hcode" in destruct (c =? 0)%Z eqn:H
     | |- context [if negb (?c =? 0)%Z then _ else _] =>
         let H := fresh "Hcode" in destruct (c =? 0)%Z eqn:H
     | |- context [if Py.utf8_valid ?b then _ else _] =>
         let H := fresh "Hutf" in destruct (Py.utf8_valid b) eqn:H
     | |- context [match exc_type ?e with _ => _ end] =>
         let H := fresh "Hty" in destruct (exc_type e) eqn:H
     | |- context [match exc_stderr ?e with _ => _ end] =>
         let H := fresh "Herr" in destruct (exc_stderr e) eqn:H
     end);
  cbn [fst snd trace requests_sent directories file_store
       stdout stderr returncode exc_stderr exc_type andb negb] in *;
  repeat match goal with
         | H : Exited _ _ _ = Exited _ _ _ |- _ => inversion H; subst; clear H
         | H : NotStarted _ = NotStarted _ |- _ => inversion H; subst; clear H
         | H : Exited _ _ _ = NotStarted _ |- _ => discriminate H
         | H : NotStarted _ = Exited _ _ _ |- _ => discriminate H
         | H : Some _ = None |- _ => discriminate H
         | H : None = Some _ |- _ => discriminate H
         | H : Some _ = Some _ |- _ => inversion H; subst; clear H
         | H : exec E ?a ?c = _, H' : exec E ?a ?c = _ |- _ =>
             rewrite H in H'
         | H : mkdir_error E ?p = _, H' : mkdir_error E ?p = _ |- _ =>
             rewrite H in H'
         | H : exc_type ?e = _,
           H' : context [match exc_type ?e with _ => _ end] |- _ =>
             rewrite H in H'
         | H : _ \/ _ |- _ => destruct H
         | H : _ /\ _ |- _ => destruct H
         end;
  cbn in *; try congruence.

(** X6.  When the test runner starts and its output is valid UTF-8,
    [run_tests] never raises: success is exactly "the exit status is 0", and
    the log is the standard output followed by the error output, whatever
    the exit status. *)
Theorem run_tests_result :
  forall (build_dir : string) (w : world) (code : Z) (out err : string),
    exec E ["ctest"; "--output-on-failure"] build_dir = Exited code out err ->
    Py.utf8_valid out = true ->
    Py.utf8_valid err = true ->
    fst (run_tests E build_dir w) = Ok ((code =? 0)%Z, out ++ err).
Proof.
  intros build_dir w code out err H1 U1 U2.
  adapter_cases.
Qed.

(** X7.  When the configure step exits non-zero, the build step is not
    started: the only command of the call is the configure command. *)
Theorem build_project_stops_after_configure :
  forall (project_dir build_dir : string) (w : world) (c1 : Z) (o1 e1 : string),
    can_makedirs E w build_dir ->
    exec E ["cmake"; project_dir] build_dir = Exited c1 o1 e1 ->
    c1 <> 0%Z ->
    commands_run (trace (snd (build_project E project_dir build_dir w)))
    = (commands_run (trace w) ++ [["cmake"; project_dir]])%list.
Proof.
  intros project_dir build_dir w c1 o1 e1 Hmk H1 Hc. apply Z.eqb_neq in Hc.
  adapter_cases;
    autorewrite with trace_db; cbn; rewrite ?app_nil_r; reflexivity.
Qed.

(** X8.  A tool that cannot be started is not a build failure: when the
    configure command, or after a successful configure step the build
    command, raises an error that is not a [CalledProcessError],
    [build_project] raises that very error instead of returning. *)
Theorem build_project_propagates_launch_errors :
  forall (project_dir build_dir : string) (w : world) (e : exn),
    can_makedirs E w build_dir ->
    is_CalledProcessError e = false ->
    (exec E ["cmake"; project_dir] build_dir = NotStarted e ->
     fst (build_project E project_dir build_dir w) = Raise e)
    /\
    (forall o1 e1,
        exec E ["cmake"; project_dir] build_dir = Exited 0 o1 e1 ->
        exec E ["cmake"; "--build"; "."] build_dir = NotStarted e ->
        fst (build_project E project_dir build_dir w) = Raise e).
Proof.
  intros project_dir build_dir w e Hmk Hne. split.
  - intros H1. adapter_cases.
  - intros o1 e1 H1 H2. adapter_cases.
Qed.

(** X9.  When the build directory is not there and cannot be made,
    [build_project] raises the error of [os.makedirs] and starts no
    command. *)
Theorem build_project_needs_build_dir :
  forall (project_dir build_dir : string) (w : world) (e : exn),
    is_dir w build_dir = false ->
    mkdir_error E build_dir = Some e ->
    fst (build_project E project_dir build_dir w) = Raise e
    /\ commands_run (trace (snd (build_project E project_dir build_dir w)))
       = commands_run (trace w).
Proof.
  intros project_dir build_dir w e Hd Hmk.
  adapter_cases.
  split; [ reflexivity | ].
  autorewrite with trace_db. cbn. rewrite app_nil_r. reflexivity.
Qed.

(** X10.  When the failing step of the build printed error output that is
    not valid UTF-8, [build_project] does not return failure: decoding the
    output raises a [UnicodeDecodeError], which leaves the function. *)
Theorem build_project_undecodable_log :
  forall (project_dir build_dir : string) (w : world) (c1 : Z) (o1 e1 : string),
    can_makedirs E w build_dir ->
    exec E ["cmake"; project_dir] build_dir = Exited c1 o1 e1 ->
    c1 <> 0%Z ->
    Py.utf8_valid e1 = false ->
    fst (build_project E project_dir build_dir w)
    = Raise (new_exn UnicodeDecodeError (codec_error E e1)).
Proof.
  intros project_dir build_dir w c1 o1 e1 Hmk H1 Hc U1. apply Z.eqb_neq in Hc.
  adapter_cases.
Qed.

(** X11.  [run_coverage] is best effort in this sense: once the capture
    tool starts, the report tool is started after it whatever the exit
    status of the capture, and these two are the only commands. *)
Theorem run_coverage_runs_both_tools :
  forall (build_dir : string) (w : world) (c1 : Z) (o1 e1 : string),
    exec E ["lcov"; "--capture"; "--directory"; "."; "--output-file";
            "coverage.info"] build_dir = Exited c1 o1 e1 ->
    commands_run (trace (snd (run_coverage E build_dir w)))
    = (commands_run (trace w)
         ++ [["lcov"; "--capture"; "--directory"; "."; "--output-file";
              "coverage.info"];
             ["genhtml"; "coverage.info"; "--output-directory"; "coverage"]])%list.
Proof.
  intros build_dir w c1 o1 e1 H1.
  adapter_cases;
    autorewrite with trace_db; cbn; rewrite ?app_nil_r, <- ?app_assoc;
    reflexivity.
Qed.

(** X12.  When the capture tool cannot be started, [run_coverage] raises
    that error, returns no path, and does not start the report tool. *)
Theorem run_coverage_needs_its_tools :
  forall (build_dir : string) (w : world) (e : exn),
    exec E ["lcov"; "--capture"; "--directory"; "."; "--output-file";
            "coverage.info"] build_dir = NotStarted e ->
    fst (run_coverage E build_dir w) = Raise e
    /\ commands_run (trace (snd (run_coverage E build_dir w)))
       = (commands_run (trace w)
            ++ [["lcov"; "--capture"; "--directory"; "."; "--output-file";
                 "coverage.info"]])%list.
Proof.
  intros build_dir w e H1.
  adapter_cases.
  split; [ reflexivity | ].
  autorewrite with trace_db. cbn. rewrite ?app_nil_r. reflexivity.
Qed.

(** The build adapter prints nothing: its three functions leave the
    console, the driver's call marks and the requests alone. *)
Lemma build_project_silent (project_dir build_dir : string) (w : world) :
  printed (trace (snd (build_project E project_dir build_dir w)))
  = printed (trace w).
Proof.
  adapter_cases; autorewrite with trace_db; cbn; rewrite ?app_nil_r; reflexivity.
Qed.

Lemma run_tests_silent (build_dir : string) (w : world) :
  printed (trace (snd (run_tests E build_dir w))) = printed (trace w)
  /\ calls (trace (snd (run_tests E build_dir w))) = calls (trace w)
  /\ posts (trace (snd (run_tests E build_dir w))) = posts (trace w).
Proof.
  adapter_cases; autorewrite with trace_db; cbn; rewrite ?app_nil_r;
    repeat split.
Qed.

Lemma run_coverage_silent (build_dir : string) (w : world) :
  printed (trace (snd (run_coverage E build_dir w))) = printed (trace w)
  /\ calls (trace (snd (run_coverage E build_dir w))) = calls (trace w)
  /\ posts (trace (snd (run_coverage E build_dir w))) = posts (trace w).
Proof.
  adapter_cases; autorewrite with trace_db; cbn; rewrite ?app_nil_r;
    repeat split.
Qed.

(** What [run_coverage] answers does not depend on the world. *)
Lemma run_coverage_frame (build_dir : string) (w1 w2 : world) :
  fst (run_coverage E build_dir w1) = fst (run_coverage E build_dir w2).
Proof. adapter_cases. Qed.

End BuildAdapterMore.

(** ** Files *)

Lemma store_get_put_same (files : list (string * string)) (path bytes : string) :
  store_get (store_put files path bytes) path = Some bytes.
Proof.
  induction files as [ | [ p old ] files IH ]; cbn.
  - rewrite String.eqb_refl. reflexivity.
  - destruct (String.eqb p path) eqn:Hp; cbn; rewrite Hp; auto.
Qed.

Lemma store_get_put_other (files : list (string * string))
      (path other bytes : string) :
  other <> path ->
  store_get (store_put files path bytes) other = store_get files other.
Proof.
  intros Hne. induction files as [ | [ p old ] files IH ]; cbn.
  - destruct (String.eqb_spec path other); [ congruence | reflexivity ].
  - destruct (String.eqb_spec p path) as [ -> | Hp ]; cbn.
    + destruct (String.eqb_spec path other); [ congruence | reflexivity ].
    + destruct (String.eqb p other); auto.
Qed.

Lemma universal_newlines_without_cr (s : string) :
  no_carriage_return s = true -> Py.universal_newlines false s = s.
Proof.
  induction s as [ | c s IH ]; cbn; [ reflexivity | ].
  rewrite andb_true_iff, negb_true_iff. intros [ Hc Hs ].
  rewrite Hc, andb_false_r, (IH Hs). reflexivity.
Qed.

Section Files.

Variable E : environment.

(** What [write_file] does with a text that has an encoding, when the file
    can be opened. *)
Lemma write_file_text (path s : string) (w : world) :
  open_error E path "w" = None ->
  Py.utf8_valid s = true ->
  fst (write_file E path (PyStr s) w) = Ok tt
  /\ trace (snd (write_file E path (PyStr s) w))
     = (trace w ++ [EvOpen path "w"])%list
  /\ requests_sent (snd (write_file E path (PyStr s) w)) = requests_sent w
  /\ (forall other,
         store_get (file_store (snd (write_file E path (PyStr s) w))) other
         = if String.eqb other path then Some s
           else store_get (file_store w) other).
Proof.
  intros Ho Hu. unfold write_file, bind, emit, set_file. rewrite Ho. cbn.
  rewrite Hu. cbn.
  repeat split. intros other.
  destruct (String.eqb_spec other path) as [ -> | Hne ].
  - apply store_get_put_same.
  - rewrite !store_get_put_other by assumption. reflexivity.
Qed.

(** What [write_file] does with a text that has no encoding: the file was
    emptied when it was opened, and nothing is written to it. *)
Lemma write_file_unencodable (path s : string) (w : world) :
  open_error E path "w" = None ->
  Py.utf8_valid s = false ->
  fst (write_file E path (PyStr s) w)
  = Raise (new_exn UnicodeEncodeError (encode_error E s))
  /\ trace (snd (write_file E path (PyStr s) w))
     = (trace w ++ [EvOpen path "w"])%list
  /\ requests_sent (snd (write_file E path (PyStr s) w)) = requests_sent w
  /\ (forall other,
         store_get (file_store (snd (write_file E path (PyStr s) w))) other
         = if String.eqb other path then Some ""
           else store_get (file_store w) other).
Proof.
  intros Ho Hu. unfold write_file, bind, emit, set_file, raise. rewrite Ho. cbn.
  rewrite Hu. cbn.
  repeat split. intros other.
  destruct (String.eqb_spec other path) as [ -> | Hne ].
  - apply store_get_put_same.
  - rewrite store_get_put_other by assumption. reflexivity.
Qed.

(** [write_file] touches no file but its own, whatever comes of it. *)
Lemma write_file_store_other (path other : string) (content : pyvalue)
      (w : world) :
  other <> path ->
  store_get (file_store (snd (write_file E path content w))) other
  = store_get (file_store w) other.
Proof.
  intros Hne. unfold write_file, bind, emit, set_file, raise. cbn.
  destruct (open_error E path "w"); [ reflexivity | ].
  destruct content; cbn; try (apply store_get_put_other; assumption).
  destruct (Py.utf8_valid s); cbn;
    rewrite ?store_get_put_other by assumption; reflexivity.
Qed.

(** What [read_file] answers for a path depends on the world only through
    what the file of that path holds. *)
Lemma read_file_local (path : string) (w1 w2 : world) :
  store_get (file_store w1) path = store_get (file_store w2) path ->
  fst (read_file E path w1) = fst (read_file E path w2).
Proof.
  intros Hs. unfold read_file, bind, emit, raise, bytes_decode, ret. cbn.
  destruct (open_error E path "r"); [ reflexivity | ].
  cbn. rewrite Hs.
  destruct (store_get (file_store w2) path) as [ bytes | ]; [ | reflexivity ].
  destruct (Py.utf8_valid bytes); reflexivity.
Qed.

(** What [read_file] answers for a file that is there. *)
Lemma read_file_text (path bytes : string) (w : world) :
  open_error E path "r" = None ->
  store_get (file_store w) path = Some bytes ->
  Py.utf8_valid bytes = true ->
  fst (read_file E path w) = Ok (Py.universal_newlines false bytes).
Proof.
  intros Ho Hs Hu. unfold read_file, bind, emit, bytes_decode, ret.
  rewrite Ho. cbn. rewrite Hs, Hu. reflexivity.
Qed.

(** X13.  Round trip: a text written with [write_file] and read back with
    [read_file] from the same path comes back with its line ends
    normalised (carriage returns become line feeds); a valid text without
    carriage returns comes back exactly as it was written, whatever the
    file held before. *)
Theorem write_then_read :
  forall (path s : string) (w : world),
    open_error E path "w" = None ->
    open_error E path "r" = None ->
    Py.utf8_valid s = true ->
    fst (read_file E path (snd (write_file E path (PyStr s) w)))
    = Ok (Py.universal_newlines false s)
    /\ (no_carriage_return s = true ->
        fst (read_file E path (snd (write_file E path (PyStr s) w))) = Ok s).
Proof.
  intros path s w Hw Hr Hu.
  destruct (write_file_text path s w Hw Hu) as (_ & _ & _ & Hstore).
  assert (Hread : fst (read_file E path (snd (write_file E path (PyStr s) w)))
                  = Ok (Py.universal_newlines false s)).
  { apply read_file_text; try assumption.
    rewrite Hstore, String.eqb_refl. reflexivity. }
  split; [ exact Hread | ].
  intros Hcr. rewrite Hread, (universal_newlines_without_cr s Hcr). reflexivity.
Qed.

(** X14.  Writing a value that is not a text (such as the [None] that
    [call_llm] returns when it makes no attempt, or a number found where the
    completion should be) fails with a [TypeError], but only after the file
    was opened for writing: the file is left empty, whatever it held. *)
Theorem write_file_rejects_non_text :
  forall (path : string) (content : pyvalue) (w : world),
    open_error E path "w" = None ->
    (forall s, content <> PyStr s) ->
    (exists e, fst (write_file E path content w) = Raise e
               /\ exc_type e = TypeError)
    /\ store_get (file_store (snd (write_file E path content w))) path
       = Some "".
Proof.
  intros path content w Ho Hc.
  unfold write_file, bind, emit, set_file, raise. rewrite Ho. cbn.
  destruct content; cbn;
    try (split; [ eexists; split; reflexivity | apply store_get_put_same ]).
  exfalso. eapply Hc. reflexivity.
Qed.

(** A file that cannot be opened for writing is not touched. *)
Lemma write_file_refused (path : string) (content : pyvalue) (w : world)
      (e : exn) :
  open_error E path "w" = Some e ->
  fst (write_file E path content w) = Raise e
  /\ file_store (snd (write_file E path content w)) = file_store w.
Proof.
  intros Ho. unfold write_file, bind, emit, raise. rewrite Ho. cbn. auto.
Qed.

End Files.

(** ** The driver, continued *)

Section DriverMore.

Variable E : environment.

Lemma send_request_frame (body : payload) (w1 w2 : world) :
  requests_sent w1 = requests_sent w2 ->
  fst (send_request E body w1) = fst (send_request E body w2).
Proof.
  intros Hn. unfold send_request, bind, requests_post. rewrite Hn.
  destruct (http E (requests_sent w2) OLLAMA_API_URL body) as [ r | e ]; cbn;
    [ | reflexivity ].
  unfold raise_for_status.
  destruct ((400 <=? status_code r)%Z && (status_code r <? 500)%Z); cbn;
    [ reflexivity | ].
  destruct ((500 <=? status_code r)%Z && (status_code r <? 600)%Z); cbn;
    [ reflexivity | ].
  unfold response_json.
  destruct (resp_json r) as [ v | e ]; cbn; [ | reflexivity ].
  unfold subscript. destruct v; cbn; try reflexivity.
  destruct (dict_get items "response"); reflexivity.
Qed.

(** What [call_llm] answers depends on the world only through the number of
    requests sent so far. *)
Lemma call_llm_loop_frame (body : payload) (max_retries : Z) :
  forall (attempts : list Z) (w1 w2 : world),
    requests_sent w1 = requests_sent w2 ->
    fst (call_llm_loop E body max_retries attempts w1)
    = fst (call_llm_loop E body max_retries attempts w2).
Proof.
  induction attempts as [ | attempt rest IH ]; intros w1 w2 Hn; [ reflexivity | ].
  cbn [call_llm_loop]. unfold try_except.
  pose proof (send_request_frame body w1 w2 Hn) as Hf.
  pose proof (send_request_trace E body w1) as (_ & Hn1 & _).
  pose proof (send_request_trace E body w2) as (_ & Hn2 & _).
  destruct (send_request E body w1) as [ r1 w1' ].
  destruct (send_request E body w2) as [ r2 w2' ].
  cbn in Hf, Hn1, Hn2. subst r2.
  destruct r1 as [ v | e ]; [ reflexivity | ].
  assert (Hretry : forall msg s,
             fst ((print msg ;; time_sleep s ;;
                   call_llm_loop E body max_retries rest) w1')
             = fst ((print msg ;; time_sleep s ;;
                     call_llm_loop E body max_retries rest) w2')).
  { intros msg s. unfold print, time_sleep. rewrite !bind_emit.
    apply IH. cbn. congruence. }
  destruct (is_ConnectionError e); [ | destruct (is_Timeout e) ];
    try destruct (attempt <? max_retries - 1)%Z;
    first [ apply Hretry | reflexivity ].
Qed.

Lemma call_llm_frame (prompt model : string) (max_retries : Z) (w1 w2 : world) :
  requests_sent w1 = requests_sent w2 ->
  fst (call_llm E prompt model max_retries w1)
  = fst (call_llm E prompt model max_retries w2).
Proof. apply call_llm_loop_frame. Qed.

(** One call of [call_llm] as the driver makes it, with the default model
    and three attempts. *)
Lemma call_llm_default_effect (prompt : string) (w : world) :
  exists evs,
    trace (snd (call_llm E prompt default_model default_max_retries w))
      = (trace w ++ evs)%list
    /\ calls evs = []
    /\ commands_run evs = []
    /\ files_written evs = []
    /\ (length (posts evs) <= 3)%nat
    /\ directories (snd (call_llm E prompt default_model default_max_retries w))
       = directories w
    /\ file_store (snd (call_llm E prompt default_model default_max_retries w))
       = file_store w.
Proof.
  destruct (call_llm_effect E prompt default_model default_max_retries w)
    as (evs & Htr & Hc & Hr & Hw & Hd & Hf).
  destruct (call_llm_loop_bound E (mk_payload default_model prompt false)
              default_max_retries 3 0 w eq_refl)
    as (evs' & Htr' & Hle & _).
  change (call_llm_loop E (mk_payload default_model prompt false)
            default_max_retries (map Z.of_nat (seq 0 3)) w)
    with (call_llm E prompt default_model default_max_retries w) in Htr'.
  rewrite Htr in Htr'. apply app_inv_head in Htr'. subst evs'.
  exists evs. repeat split; assumption.
Qed.

(** Steps through one turn of a loop of the driver: a [try] block that
    reads a file, reads a template, asks the model and writes the answer. *)
Ltac loop_turn :=
  unfold call, print, bind, try_except, emit, ret;
  cbn [fst snd trace requests_sent directories file_store];
  match goal with
  | |- context [read_file E ?p ?w1] =>
      let H := fresh "Hr1" in
      pose proof (read_file_effect E p w1) as H;
      destruct (read_file E p w1) as [ [ ? | ? ] ? ];
      cbn [snd] in H; subst;
      cbn [fst snd trace requests_sent directories file_store]
  end;
  [ match goal with
    | |- context [read_file E ?p ?w1] =>
        let H := fresh "Hr2" in
        pose proof (read_file_effect E p w1) as H;
        destruct (read_file E p w1) as [ [ ? | ? ] ? ];
        cbn [snd] in H; subst;
        cbn [fst snd trace requests_sent directories file_store]
    end;
    [ match goal with
      | |- context [call_llm E ?pr ?m ?r ?w1] =>
          let evs := fresh "levs" in
          let Htr := fresh "Hltr" in
          let Hc := fresh "Hlc" in
          let Hw := fresh "Hlw" in
          let Hp := fresh "Hlp" in
          let Hf := fresh "Hlf" in
          destruct (call_llm_default_effect pr w1)
            as (evs & Htr & Hc & _ & Hw & Hp & _ & Hf);
          destruct (call_llm E pr m r w1) as [ [ ? | ? ] ? ];
          cbn [fst snd trace requests_sent directories file_store] in *
      end;
      [ match goal with
        | |- context [write_file E ?p ?c ?w1] =>
            let H := fresh "Hwr" in
            pose proof (write_file_effect E p c w1) as H;
            destruct (write_file E p c w1) as [ [ [] | ? ] ? ];
            cbn [fst snd trace requests_sent directories file_store] in *
        end
      | ]
    | ]
  | ].

(** One turn of the loop of step 1, counted. *)
Lemma generate_one_counts (yaml_dir test_dir cpp_file : string) (w : world) :
  exists evs,
    fst (generate_one E yaml_dir test_dir cpp_file w) = Ok tt
    /\ trace (snd (generate_one E yaml_dir test_dir cpp_file w))
       = (trace w ++ evs)%list
    /\ (length (files_written evs) <= length (llm_calls evs))%nat
    /\ (length (llm_calls evs) <= 1)%nat
    /\ (length (posts evs) <= 3)%nat.
Proof.
  unfold generate_one. loop_turn.
  all: eexists; (split; [ reflexivity | ]); cbn [snd trace];
    rewrite ?Hwr, ?Hltr, <- ?app_assoc; (split; [ reflexivity | ]);
    autorewrite with trace_db;
    rewrite ?Hlw, ?(llm_calls_nil _ Hlc); cbn;
    rewrite ?length_app; cbn; repeat split; lia.
Qed.

(** X15.  Step 1 never fails as a whole, whatever goes wrong with single
    files; it calls the model at most once per source file, sends at most
    three requests per source file, and opens a test file for writing only
    after a call to the model. *)
Theorem main_generate_effort :
  forall (yaml_dir test_dir : string) (cpp_files : list string) (w : world),
  exists evs,
    fst (main_generate E yaml_dir test_dir cpp_files w) = Ok tt
    /\ trace (snd (main_generate E yaml_dir test_dir cpp_files w))
       = (trace w ++ evs)%list
    /\ (length (files_written evs) <= length (llm_calls evs))%nat
    /\ (length (llm_calls evs) <= length cpp_files)%nat
    /\ (length (posts evs) <= 3 * length cpp_files)%nat.
Proof.
  intros yaml_dir test_dir. unfold main_generate.
  induction cpp_files as [ | cpp_file rest IH ]; intros w.
  - exists []. cbn. rewrite app_nil_r. repeat split; lia.
  - destruct (generate_one_counts yaml_dir test_dir cpp_file w)
      as (evs1 & Hok1 & Htr1 & Hw1 & Hc1 & Hp1).
    cbn [for_each]. rewrite (bind_ok _ _ w tt Hok1).
    destruct (IH (snd (generate_one E yaml_dir test_dir cpp_file w)))
      as (evs2 & Hok2 & Htr2 & Hw2 & Hc2 & Hp2).
    exists (evs1 ++ evs2)%list.
    split; [ exact Hok2 | ].
    split; [ rewrite Htr2, Htr1, app_assoc; reflexivity | ].
    autorewrite with trace_db. rewrite !length_app. cbn [length].
    repeat split; lia.
Qed.

(** X16.  A source file that cannot be read is skipped: the turn prints
    the error with the name of the file and ends normally, without reading
    the template, calling the model or writing anything. *)
Theorem generate_one_skips_unreadable :
  forall (yaml_dir test_dir cpp_file : string) (w : world) (e : exn),
    fst (read_file E cpp_file w) = Raise e ->
    generate_one E yaml_dir test_dir cpp_file w
    = (Ok tt,
       mk_world
         (trace w
            ++ [EvPrint (Py.nl ++ "Processing: " ++ cpp_file);
                EvOpen cpp_file "r";
                EvPrint ("❌ Error processing " ++ cpp_file ++ ": " ++ exc_str e)])
         (requests_sent w) (directories w) (file_store w)).
Proof.
  intros yaml_dir test_dir cpp_file w e Hread.
  unfold generate_one, call, print, bind, try_except, emit, ret.
  cbn [fst snd trace requests_sent directories file_store].
  match goal with
  | |- context [read_file E cpp_file ?w1] =>
      pose proof (read_file_frame E cpp_file w1 w eq_refl) as Hf;
      pose proof (read_file_effect E cpp_file w1) as He;
      destruct (read_file E cpp_file w1) as [ r w2 ]
  end.
  cbn [fst snd trace requests_sent directories file_store] in Hf, He.
  rewrite Hread in Hf. subst r w2.
  cbn [fst snd trace requests_sent directories file_store].
  rewrite <- !app_assoc. reflexivity.
Qed.

(** Steps through a turn of a loop of the driver whose two reads and whose
    call to the model have known answers [Hread], [Hyaml] and [Hllm] in the
    world the turn starts from. *)
Ltac known_turn w0 Hread Hyaml Hllm :=
  unfold call, print, bind, try_except, emit, ret;
  cbn [fst snd trace requests_sent directories file_store];
  match goal with
  | |- context [read_file E ?p ?w1] =>
      let Hf := fresh "Hf" in
      let He := fresh "He" in
      pose proof (read_file_frame E p w1 w0 eq_refl) as Hf;
      pose proof (read_file_effect E p w1) as He;
      destruct (read_file E p w1) as [ ? ? ];
      cbn [fst snd trace requests_sent directories file_store] in Hf, He;
      rewrite Hread in Hf; subst;
      cbn [fst snd trace requests_sent directories file_store]
  end;
  match goal with
  | |- context [read_file E ?p ?w1] =>
      let Hf := fresh "Hf" in
      let He := fresh "He" in
      pose proof (read_file_frame E p w1 w0 eq_refl) as Hf;
      pose proof (read_file_effect E p w1) as He;
      destruct (read_file E p w1) as [ ? ? ];
      cbn [fst snd trace requests_sent directories file_store] in Hf, He;
      rewrite Hyaml in Hf; subst;
      cbn [fst snd trace requests_sent directories file_store]
  end;
  match goal with
  | |- context [call_llm E ?pr ?m ?r ?w1] =>
      let Hf := fresh "Hf" in
      pose proof (call_llm_frame pr m r w1 w0 eq_refl) as Hf;
      destruct (call_llm_default_effect pr w1)
        as (levs & Hltr & Hlc & _ & Hlw & Hlp & _ & Hlf);
      destruct (call_llm E pr m r w1) as [ ? wl ];
      cbn [fst snd trace requests_sent directories file_store] in Hf, Hltr, Hlf;
      rewrite Hllm in Hf; subst;
      cbn [fst snd trace requests_sent directories file_store]
  end.

(** X17.  When the source file and the template are read, the model
    returns a text and the test file can be opened, the turn ends normally,
    and what the test file holds then depends on the text alone: the text,
    untouched, when it can be encoded; nothing at all, with the encoding
    error printed, when it cannot (a text with a lone surrogate), since the
    file was emptied when it was opened. *)
Theorem generate_one_stores_the_answer :
  forall (yaml_dir test_dir cpp_file : string) (w : world)
         (code yaml_prompt text : string),
    fst (read_file E cpp_file w) = Ok code ->
    fst (read_file E (OsPath.join yaml_dir "initial.yaml") w) = Ok yaml_prompt ->
    fst (call_llm E
           (yaml_prompt ++ Py.nl ++ Py.nl ++ "C++ Source File:" ++ Py.nl ++ code)
           default_model default_max_retries w) = Ok (PyStr text) ->
    open_error E (test_file_of test_dir cpp_file) "w" = None ->
    fst (generate_one E yaml_dir test_dir cpp_file w) = Ok tt
    /\ (Py.utf8_valid text = true ->
        store_get (file_store (snd (generate_one E yaml_dir test_dir cpp_file w)))
                  (test_file_of test_dir cpp_file)
        = Some text)
    /\ (Py.utf8_valid text = false ->
        store_get (file_store (snd (generate_one E yaml_dir test_dir cpp_file w)))
                  (test_file_of test_dir cpp_file)
        = Some ""
        /\ In ("❌ Error processing " ++ cpp_file ++ ": " ++ encode_error E text)
              (printed (trace (snd (generate_one E yaml_dir test_dir cpp_file w))))).
Proof.
  intros yaml_dir test_dir cpp_file w code yaml_prompt text Hread Hyaml Hllm Ho.
  unfold generate_one. known_turn w Hread Hyaml Hllm.
  destruct (Py.utf8_valid text) eqn:Hu.
  - match goal with
    | |- context [write_file E ?p ?c ?w1] =>
        destruct (write_file_text E p text w1 Ho Hu) as (Hok & _ & _ & Hst);
        destruct (write_file E p c w1) as [ r ww ]
    end.
    cbn [fst snd] in Hok, Hst. subst r.
    cbn [fst snd trace requests_sent directories file_store].
    split; [ reflexivity | ].
    split; [ intros _ | discriminate ].
    rewrite Hst, String.eqb_refl. reflexivity.
  - match goal with
    | |- context [write_file E ?p ?c ?w1] =>
        destruct (write_file_unencodable E p text w1 Ho Hu)
          as (Hraise & _ & _ & Hst);
        destruct (write_file E p c w1) as [ r ww ]
    end.
    cbn [fst snd] in Hraise, Hst. subst r.
    cbn [fst snd trace requests_sent directories file_store].
    split; [ reflexivity | ].
    split; [ discriminate | intros _ ].
    split; [ rewrite Hst, String.eqb_refl; reflexivity | ].
    autorewrite with trace_db. apply in_or_app. right. left. reflexivity.
Qed.






(** X19.  Refinement works in place.  When the test file and the template
    are read: if the model fails, the turn ends normally with the error
    printed and leaves every file as it was, so the test stays as step 1
    generated it; if the model returns a text and the file can be opened,
    the turn ends normally too, and the very file that was read holds that
    text when the text can be encoded, and is left empty, with the encoding
    error printed, when it cannot: the test that was there is lost. *)
Theorem refine_one_in_place :
  forall (yaml_dir test_dir test_file : string) (w : world)
         (test_code yaml_prompt : string),
    fst (read_file E (OsPath.join test_dir test_file) w) = Ok test_code ->
    fst (read_file E (OsPath.join yaml_dir "refine.yaml") w) = Ok yaml_prompt ->
    (forall e,
        fst (call_llm E
               (yaml_prompt ++ Py.nl ++ Py.nl ++ "Test File:" ++ Py.nl ++ test_code)
               default_model default_max_retries w) = Raise e ->
        fst (refine_one E yaml_dir test_dir test_file w) = Ok tt
        /\ file_store (snd (refine_one E yaml_dir test_dir test_file w))
           = file_store w
        /\ files_written (trace (snd (refine_one E yaml_dir test_dir test_file w)))
           = files_written (trace w)
        /\ In ("❌ Error refining " ++ test_file ++ ": " ++ exc_str e)
              (printed (trace (snd (refine_one E yaml_dir test_dir test_file w)))))
    /\
    (forall text,
        fst (call_llm E
               (yaml_prompt ++ Py.nl ++ Py.nl ++ "Test File:" ++ Py.nl ++ test_code)
               default_model default_max_retries w) = Ok (PyStr text) ->
        open_error E (OsPath.join test_dir test_file) "w" = None ->
        fst (refine_one E yaml_dir test_dir test_file w) = Ok tt
        /\ (Py.utf8_valid text = true ->
            store_get (file_store (snd (refine_one E yaml_dir test_dir test_file w)))
                      (OsPath.join test_dir test_file)
            = Some text)
        /\ (Py.utf8_valid text = false ->
            store_get (file_store (snd (refine_one E yaml_dir test_dir test_file w)))
                      (OsPath.join test_dir test_file)
            = Some ""
            /\ In ("❌ Error refining " ++ test_file ++ ": " ++ encode_error E text)
                  (printed (trace (snd (refine_one E yaml_dir test_dir test_file
                                          w)))))).
Proof.
  intros yaml_dir test_dir test_file w test_code yaml_prompt Hread Hyaml.
  split.
  - intros e Hllm. unfold refine_one. known_turn w Hread Hyaml Hllm.
    split; [ reflexivity | ]. split; [ exact Hlf | ].
    rewrite Hltr. autorewrite with trace_db. rewrite Hlw. cbn.
    rewrite !app_nil_r. split; [ reflexivity | ].
    apply in_or_app. right. left. reflexivity.
  - intros text Hllm Ho. unfold refine_one. known_turn w Hread Hyaml Hllm.
    destruct (Py.utf8_valid text) eqn:Hu.
    + match goal with
      | |- context [write_file E ?p ?c ?w1] =>
          destruct (write_file_text E p text w1 Ho Hu) as (Hok & _ & _ & Hst);
          destruct (write_file E p c w1) as [ r ww ]
      end.
      cbn [fst snd] in Hok, Hst. subst r.
      cbn [fst snd trace requests_sent directories file_store].
      split; [ reflexivity | ].
      split; [ intros _ | discriminate ].
      rewrite Hst, String.eqb_refl. reflexivity.
    + match goal with
      | |- context [write_file E ?p ?c ?w1] =>
          destruct (write_file_unencodable E p text w1 Ho Hu)
            as (Hraise & _ & _ & Hst);
          destruct (write_file E p c w1) as [ r ww ]
      end.
      cbn [fst snd] in Hraise, Hst. subst r.
      cbn [fst snd trace requests_sent directories file_store].
      split; [ reflexivity | ].
      split; [ discriminate | intros _ ].
      split; [ rewrite Hst, String.eqb_refl; reflexivity | ].
      autorewrite with trace_db. apply in_or_app. right. left. reflexivity.
Qed.

(** Steps into steps 3 and 4 of [main] up to the answer of
    [build_project], known by [Hbuild] in the world [w0]. *)
Ltac enter_build w0 Hbuild :=
  unfold main_build_and_test, call, print, bind, try_except, emit;
  cbn [fst snd trace requests_sent directories file_store];
  match goal with
  | |- context [build_project E ?pd ?bd ?w1] =>
      let Hb := fresh "Hb" in
      pose proof (build_project_frame E pd bd w1 w0 eq_refl) as Hb;
      pose proof (build_project_silent E pd bd w1) as Hbp;
      destruct (build_project_effect E pd bd w1)
        as (bevs & Hbtr & Hbcalls & Hbcmds & Hbposts & Hbreq & Hbfs & _);
      destruct (build_project E pd bd w1) as [ rb wb ];
      cbn [fst snd trace requests_sent directories file_store]
        in Hb, Hbp, Hbtr, Hbreq, Hbfs;
      rewrite Hbuild in Hb; subst rb;
      change (EvMakedirs bd true :: bevs)
        with ([EvMakedirs bd true] ++ bevs)%list in Hbtr;
      cbn [negb fst snd trace requests_sent directories file_store]
  end.

(** X20.  When the build succeeds and the tests pass, the driver calls
    [build_project], [run_tests] and [run_coverage], in this order, and never
    the model; and whatever [run_coverage] does, the run ends normally: the
    path it returns is printed, or the error it raises is caught and
    printed. *)
Theorem tests_pass_then_coverage :
  forall (project_dir build_dir yaml_dir : string) (w : world)
         (build_log test_log : string),
    fst (build_project E project_dir build_dir w) = Ok (true, build_log) ->
    fst (run_tests E build_dir w) = Ok (true, test_log) ->
    exists w',
      main_build_and_test E project_dir build_dir yaml_dir w = (Ok tt, w')
      /\ calls (trace w')
         = (calls (trace w) ++ ["build_project"; "run_tests"; "run_coverage"])%list
      /\ posts (trace w') = posts (trace w)
      /\ printed (trace w')
         = (printed (trace w)
              ++ [(Py.nl ++ "🔨 Step 3: Building project with generated tests...")%string;
                  "✅ Build successful!";
                  (Py.nl ++ "🧪 Step 4: Running tests and generating coverage...")%string;
                  "✅ Tests passed!";
                  match fst (run_coverage E build_dir w) with
                  | Ok path => ("📊 Coverage report generated at: " ++ path)%string
                  | Raise e => ("❌ Error generating coverage: " ++ exc_str e)%string
                  end;
                  (Py.nl ++ "🎉 Pipeline completed!")%string])%list.
Proof.
  intros project_dir build_dir yaml_dir w build_log test_log Hbuild Htest.
  enter_build w Hbuild.
  match goal with
  | |- context [run_tests E build_dir ?w2] =>
      pose proof (run_tests_frame E build_dir w2 w) as Hr;
      pose proof (run_tests_effect E build_dir w2) as Hre;
      destruct (run_tests E build_dir w2) as [ rr wr ]
  end.
  cbn [fst snd trace requests_sent directories file_store] in Hr, Hre.
  rewrite Htest in Hr. subst rr wr.
  cbn [fst snd trace requests_sent directories file_store].
  match goal with
  | |- context [run_coverage E build_dir ?w3] =>
      pose proof (run_coverage_frame E build_dir w3 w) as Hc;
      destruct (run_coverage_silent E build_dir w3) as (Hcp & Hcc & Hcq);
      destruct (run_coverage E build_dir w3) as [ rc wc ]
  end.
  cbn [fst snd trace requests_sent directories file_store] in Hc, Hcp, Hcc, Hcq.
  rewrite <- Hc.
  destruct rc as [ path | e ];
    cbn [fst snd trace requests_sent directories file_store];
    eexists; (split; [ reflexivity | ]); cbn [trace];
    autorewrite with trace_db; rewrite Hcp, Hcc, Hcq;
    autorewrite with trace_db; rewrite Hbp, Hbtr;
    autorewrite with trace_db;
    rewrite Hbcalls, Hbposts; cbn; rewrite ?app_nil_r, <- ?app_assoc; cbn;
    repeat split; reflexivity.
Qed.

(** X21.  An error that leaves [build_project] (a tool that cannot be
    started, a build directory that cannot be made, output that cannot be
    decoded) or, after a successful build, [run_tests], is not caught by the
    driver: it ends the run, and the model is not called. *)
Theorem build_errors_end_the_run :
  forall (project_dir build_dir yaml_dir : string) (w : world) (e : exn),
    (fst (build_project E project_dir build_dir w) = Raise e ->
     fst (main_build_and_test E project_dir build_dir yaml_dir w) = Raise e
     /\ calls (trace (snd (main_build_and_test E project_dir build_dir yaml_dir w)))
        = (calls (trace w) ++ ["build_project"])%list)
    /\
    (forall build_log,
        fst (build_project E project_dir build_dir w) = Ok (true, build_log) ->
        fst (run_tests E build_dir w) = Raise e ->
        fst (main_build_and_test E project_dir build_dir yaml_dir w) = Raise e
        /\ calls (trace (snd (main_build_and_test E project_dir build_dir
                                yaml_dir w)))
           = (calls (trace w) ++ ["build_project"; "run_tests"])%list).
Proof.
  intros project_dir build_dir yaml_dir w e. split.
  - intros Hbuild. enter_build w Hbuild.
    split; [ reflexivity | ].
    rewrite Hbtr. autorewrite with trace_db. rewrite Hbcalls. cbn.
    rewrite ?app_nil_r, <- ?app_assoc. reflexivity.
  - intros build_log Hbuild Htest. enter_build w Hbuild.
    match goal with
    | |- context [run_tests E build_dir ?w2] =>
        pose proof (run_tests_frame E build_dir w2 w) as Hr;
        pose proof (run_tests_effect E build_dir w2) as Hre;
        destruct (run_tests E build_dir w2) as [ rr wr ]
    end.
    cbn [fst snd trace requests_sent directories file_store] in Hr, Hre.
    rewrite Htest in Hr. subst rr wr.
    cbn [fst snd trace requests_sent directories file_store].
    split; [ reflexivity | ].
    autorewrite with trace_db. rewrite Hbtr. autorewrite with trace_db.
    rewrite Hbcalls. cbn. rewrite ?app_nil_r, <- ?app_assoc. reflexivity.
Qed.

(** X22.  When the build fails and the build-fix template cannot be read,
    the model is not called and nothing is sent: the error of the read is
    caught and printed, and the run ends normally. *)
Theorem build_fix_needs_its_template :
  forall (project_dir build_dir yaml_dir : string) (w : world)
         (build_log : string) (e : exn),
    fst (build_project E project_dir build_dir w) = Ok (false, build_log) ->
    fst (read_file E (OsPath.join yaml_dir "fix_build.yaml") w) = Raise e ->
    exists w',
      main_build_and_test E project_dir build_dir yaml_dir w = (Ok tt, w')
      /\ calls (trace w') = (calls (trace w) ++ ["build_project"])%list
      /\ posts (trace w') = posts (trace w)
      /\ printed (trace w')
         = (printed (trace w)
              ++ [(Py.nl ++ "🔨 Step 3: Building project with generated tests...")%string;
                  "❌ Build failed. Attempting to fix issues...";
                  ("Build log:" ++ Py.nl ++ build_log)%string;
                  ("❌ Error during build fix attempt: " ++ exc_str e)%string;
                  (Py.nl ++ "🎉 Pipeline completed!")%string])%list.
Proof.
  intros project_dir build_dir yaml_dir w build_log e Hbuild Hread.
  enter_build w Hbuild.
  match goal with
  | |- context [read_file E ?p ?w2] =>
      pose proof (read_file_frame E p w2 w Hbfs) as Hr;
      pose proof (read_file_effect E p w2) as Hre;
      destruct (read_file E p w2) as [ rr wr ]
  end.
  cbn [fst snd trace requests_sent directories file_store] in Hr, Hre.
  rewrite Hread in Hr. subst rr wr.
  cbn [fst snd trace requests_sent directories file_store].
  eexists. split; [ reflexivity | ]. cbn [trace].
  autorewrite with trace_db. rewrite Hbp, Hbtr. autorewrite with trace_db.
  rewrite Hbcalls, Hbposts. cbn. rewrite ?app_nil_r, <- ?app_assoc. cbn.
  repeat split; reflexivity.
Qed.

(** ** Build failure and test failure *)

(** The call of the model that the driver makes sends at least one request
    and at most three, each with the prompt it was given. *)
Lemma call_llm_default_posts (prompt : string) (w : world) :
  exists n,
    (1 <= n <= 3)%nat
    /\ posts (trace (snd (call_llm E prompt default_model default_max_retries w)))
       = (posts (trace w)
            ++ repeat (mk_payload default_model prompt false) n)%list.
Proof.
  destruct (call_llm_loop_bound E (mk_payload default_model prompt false)
              default_max_retries 3 0 w eq_refl)
    as (evs & Htr & Hle & Hge & Hb & _).
  change (call_llm_loop E (mk_payload default_model prompt false)
            default_max_retries (map Z.of_nat (seq 0 3)) w)
    with (call_llm E prompt default_model default_max_retries w) in Htr.
  exists (length (posts evs)).
  split; [ split; [ apply Hge; lia | exact Hle ] | ].
  rewrite Htr, posts_app. f_equal.
  clear - Hb. induction Hb as [ | x l <- _ IH ]; cbn; congruence.
Qed.

(** What one call of [call_llm] adds to the trace depends on the world only
    through the number of requests sent so far. *)
Lemma call_llm_loop_events (body : payload) (max_retries : Z) :
  forall (attempts : list Z) (w1 w2 : world),
    requests_sent w1 = requests_sent w2 ->
    exists evs,
      trace (snd (call_llm_loop E body max_retries attempts w1))
        = (trace w1 ++ evs)%list
      /\ trace (snd (call_llm_loop E body max_retries attempts w2))
         = (trace w2 ++ evs)%list.
Proof.
  induction attempts as [ | attempt rest IH ]; intros w1 w2 Hn.
  - exists []. cbn. rewrite !app_nil_r. split; reflexivity.
  - cbn [call_llm_loop]. unfold try_except.
    pose proof (send_request_frame body w1 w2 Hn) as Hf.
    pose proof (send_request_trace E body w1) as (Ht1 & Hn1 & _).
    pose proof (send_request_trace E body w2) as (Ht2 & Hn2 & _).
    destruct (send_request E body w1) as [ r1 w1' ].
    destruct (send_request E body w2) as [ r2 w2' ].
    cbn in Hf, Ht1, Hn1, Ht2, Hn2. subst r2.
    assert (Hstop : exists evs,
               trace w1' = (trace w1 ++ evs)%list
               /\ trace w2' = (trace w2 ++ evs)%list).
    { exists [EvPost OLLAMA_API_URL body 60]. split; assumption. }
    destruct r1 as [ v | e ]; [ exact Hstop | ].
    assert (Hretry : forall msg s,
               exists evs,
                 trace (snd ((print msg ;; time_sleep s ;;
                              call_llm_loop E body max_retries rest) w1'))
                   = (trace w1 ++ evs)%list
                 /\ trace (snd ((print msg ;; time_sleep s ;;
                                 call_llm_loop E body max_retries rest) w2'))
                    = (trace w2 ++ evs)%list).
    { intros msg s. unfold print, time_sleep. rewrite !bind_emit.
      cbn [trace requests_sent directories file_store].
      match goal with
      | |- context [call_llm_loop E body max_retries rest ?wa] =>
          match goal with
          | |- context [trace (snd (call_llm_loop E body max_retries rest ?wb))
                        = (trace w2 ++ _)%list] =>
              destruct (IH wa wb) as (evs & Ha & Hb);
              [ cbn; congruence | ]
          end
      end.
      cbn [trace] in Ha, Hb.
      exists (EvPost OLLAMA_API_URL body 60 :: EvPrint msg :: EvSleep s :: evs).
      rewrite Ha, Hb, Ht1, Ht2, <- !app_assoc. split; reflexivity. }
    destruct (is_ConnectionError e); [ | destruct (is_Timeout e) ];
      try destruct (attempt <? max_retries - 1)%Z;
      first [ apply Hretry | exact Hstop ].
Qed.

Lemma call_llm_events (prompt model : string) (max_retries : Z) (w1 w2 : world) :
  requests_sent w1 = requests_sent w2 ->
  exists evs,
    trace (snd (call_llm E prompt model max_retries w1)) = (trace w1 ++ evs)%list
    /\ trace (snd (call_llm E prompt model max_retries w2))
       = (trace w2 ++ evs)%list.
Proof. apply call_llm_loop_events. Qed.

(** Finds a line among the lines printed. *)
Ltac find_line :=
  cbn;
  first [ left; reflexivity
        | right; find_line
        | apply in_or_app; right; find_line ].

(** C6.  In steps 3 and 4 of [main]: if [build_project] answers failure
    with a build log, and the build-fix template can be read, the driver
    calls [call_llm] exactly once, with a prompt that contains the build
    log, and that call reaches the service: at least one request and at
    most three are sent, each carrying that prompt, they are the requests
    of one call of [call_llm] with that prompt and no more, and what the
    call comes to (an answer, or an error) is what the driver reports; the
    driver
    calls neither [run_tests] nor [run_coverage], and starts no command but
    those of the build.  If [build_project] answers success but [run_tests]
    answers failure, the driver calls [build_project] and [run_tests] only:
    [run_coverage] is never called, no command is started after the test
    runner, nothing is sent to the service, and the test log is printed. *)
Theorem build_failure_and_test_failure :
  forall (project_dir build_dir yaml_dir : string) (w : world),
    (forall build_log yaml_prompt,
        fst (build_project E project_dir build_dir w) = Ok (false, build_log) ->
        fst (read_file E (OsPath.join yaml_dir "fix_build.yaml") w)
          = Ok yaml_prompt ->
        let prompt :=
          yaml_prompt ++ Py.nl ++ Py.nl ++ "Build Log:" ++ Py.nl ++ build_log in
        exists w' cmds n,
          main_build_and_test E project_dir build_dir yaml_dir w = (Ok tt, w')
          /\ llm_calls (trace w') = (llm_calls (trace w) ++ [prompt])%list
          /\ Py.str_in build_log prompt = true
          /\ calls (trace w')
             = (calls (trace w) ++ ["build_project"; "call_llm"])%list
          /\ commands_run (trace w') = (commands_run (trace w) ++ cmds)%list
          /\ Forall is_cmake cmds
          /\ (1 <= n <= 3)%nat
          /\ posts (trace w')
             = (posts (trace w)
                  ++ repeat (mk_payload default_model prompt false) n)%list
          /\ Forall (fun body => Py.str_in build_log (p_prompt body) = true)
                    (repeat (mk_payload default_model prompt false) n)
          /\ In (match fst (call_llm E prompt default_model default_max_retries
                              w) with
                 | Ok _ =>
                     "🔧 LLM provided fix suggestions. Manual review may be needed."
                 | Raise e => "❌ Error during build fix attempt: " ++ exc_str e
                 end)
                (printed (trace w'))
          /\ exists sent,
               trace (snd (call_llm E prompt default_model default_max_retries
                             w))
                 = (trace w ++ sent)%list
               /\ posts (trace w') = (posts (trace w) ++ posts sent)%list)
    /\
    (forall build_log test_log,
        fst (build_project E project_dir build_dir w) = Ok (true, build_log) ->
        fst (run_tests E build_dir w) = Ok (false, test_log) ->
        exists w' cmds,
          main_build_and_test E project_dir build_dir yaml_dir w = (Ok tt, w')
          /\ calls (trace w')
             = (calls (trace w) ++ ["build_project"; "run_tests"])%list
          /\ commands_run (trace w')
             = (commands_run (trace w) ++ cmds
                  ++ [["ctest"; "--output-on-failure"]])%list
          /\ Forall is_cmake cmds
          /\ posts (trace w') = posts (trace w)
          /\ In ("Test log:" ++ Py.nl ++ test_log) (printed (trace w'))).
Proof.
  intros project_dir build_dir yaml_dir w. split.
  - intros build_log yaml_prompt Hbuild Hread prompt.
    assert (Hin : Py.str_in build_log prompt = true).
    { unfold prompt. repeat apply str_in_app_r. apply str_in_refl. }
    enter_build w Hbuild.
    match goal with
    | |- context [read_file E ?p ?w2] =>
        pose proof (read_file_frame E p w2 w Hbfs) as Hr;
        pose proof (read_file_effect E p w2) as Hre;
        destruct (read_file E p w2) as [ rr wr ]
    end.
    cbn [fst snd trace requests_sent directories file_store] in Hr, Hre.
    rewrite Hread in Hr. subst rr wr.
    fold prompt.
    cbn [fst snd trace requests_sent directories file_store].
    match goal with
    | |- context [call_llm E prompt ?m ?r ?w3] =>
        pose proof (call_llm_frame prompt m r w3 w Hbreq) as Hlfr;
        destruct (call_llm_default_posts prompt w3) as (n & Hn & Hlposts);
        destruct (call_llm_events prompt m r w3 w Hbreq)
          as (levs & Hltr & Hlsame);
        destruct (call_llm_effect E prompt m r w3)
          as (levs' & Hltr' & Hlcalls & Hlcmds & _);
        rewrite Hltr in Hltr'; apply app_inv_head in Hltr'; subst levs';
        destruct (call_llm E prompt m r w3) as [ rl wl ]
    end.
    cbn [fst snd trace requests_sent directories file_store] in Hlfr, Hlposts, Hltr.
    rewrite Hltr, posts_app in Hlposts. apply app_inv_head in Hlposts.
    rewrite <- Hlfr.
    exists (mk_world
              ((trace wl
                  ++ [EvPrint
                        match rl with
                        | Ok _ =>
                            "🔧 LLM provided fix suggestions. Manual review may be needed."
                        | Raise e =>
                            "❌ Error during build fix attempt: " ++ exc_str e
                        end])
                 ++ [EvPrint (Py.nl ++ "🎉 Pipeline completed!")])
              (requests_sent wl) (directories wl) (file_store wl)),
      (commands_run bevs), n.
    split; [ destruct rl; reflexivity | ].
    cbn [trace]. rewrite Hltr, Hbtr. autorewrite with trace_db.
    rewrite Hbcalls, Hbposts, Hlcalls, Hlcmds, Hlposts,
      (llm_calls_nil _ Hbcalls), (llm_calls_nil _ Hlcalls).
    set (cmds := commands_run bevs) in *.
    cbn. rewrite ?app_nil_r, <- ?app_assoc. cbn.
    repeat (split; [ first [ reflexivity | assumption ] | ]).
    split; [ | split ].
    + apply Forall_forall. intros body Hb. apply repeat_spec in Hb. subst body.
      exact Hin.
    + find_line.
    + exists levs. split; [ exact Hlsame | ]. rewrite Hlposts. reflexivity.
  - intros build_log test_log Hbuild Htest.
    enter_build w Hbuild.
    match goal with
    | |- context [run_tests E build_dir ?w2] =>
        pose proof (run_tests_frame E build_dir w2 w) as Hr;
        pose proof (run_tests_effect E build_dir w2) as Hre;
        destruct (run_tests E build_dir w2) as [ rr wr ]
    end.
    cbn [fst snd trace requests_sent directories file_store] in Hr, Hre.
    rewrite Htest in Hr. subst rr wr.
    cbn [fst snd trace requests_sent directories file_store].
    eexists. exists (commands_run bevs). split; [ reflexivity | ].
    cbn [trace]. rewrite Hbtr. autorewrite with trace_db.
    rewrite Hbcalls, Hbposts.
    set (cmds := commands_run bevs) in *.
    cbn. rewrite ?app_nil_r, <- ?app_assoc. cbn.
    repeat (split; [ first [ reflexivity | assumption ] | ]).
    find_line.
Qed.

(** ** Where the generated tests go *)

(** The call of the model when the service answers its first request. *)
Lemma call_llm_answered_at_once (prompt model : string) (max_retries : Z)
      (w : world) (v : pyvalue) :
  (1 <= max_retries)%Z ->
  answered (http E (requests_sent w) OLLAMA_API_URL
                 (mk_payload model prompt false)) v ->
  call_llm E prompt model max_retries w
  = (Ok v,
     mk_world (trace w ++ [EvPost OLLAMA_API_URL (mk_payload model prompt false) 60])
              (S (requests_sent w)) (directories w) (file_store w)).
Proof.
  intros Hn Hans. unfold call_llm. cbv zeta. unfold Py.range.
  destruct (Z.to_nat max_retries) as [ | len ] eqn:Hlen; [ lia | ].
  cbn [seq map call_llm_loop]. unfold try_except.
  pose proof (send_request_answered E _ w v Hans) as Hres.
  pose proof (send_request_trace E (mk_payload model prompt false) w)
    as (Ht & Hr & Hd & Hf).
  destruct (send_request E (mk_payload model prompt false) w)
    as [ r [ t n d f ] ].
  cbn in Hres, Ht, Hr, Hd, Hf. subst. reflexivity.
Qed.

(** One turn of the loop of step 1 leaves every file but the test file of
    its source file as it was, whatever happens in it. *)
Lemma generate_one_store_other (yaml_dir test_dir cpp_file path : string)
      (w : world) :
  path <> test_file_of test_dir cpp_file ->
  store_get (file_store (snd (generate_one E yaml_dir test_dir cpp_file w))) path
  = store_get (file_store w) path.
Proof.
  intros Hne. unfold generate_one.
  unfold call, print, bind, try_except, emit, ret.
  cbn [fst snd trace requests_sent directories file_store].
  match goal with
  | |- context [read_file E cpp_file ?w1] =>
      pose proof (read_file_effect E cpp_file w1) as Hr1;
      destruct (read_file E cpp_file w1) as [ [ code | e1 ] w2 ]
  end; cbn [snd] in Hr1; subst w2;
    cbn [fst snd trace requests_sent directories file_store]; [ | reflexivity ].
  match goal with
  | |- context [read_file E ?p ?w1] =>
      pose proof (read_file_effect E p w1) as Hr2;
      destruct (read_file E p w1) as [ [ yaml | e2 ] w3 ]
  end; cbn [snd] in Hr2; subst w3;
    cbn [fst snd trace requests_sent directories file_store]; [ | reflexivity ].
  match goal with
  | |- context [call_llm E ?pr ?m ?r ?w1] =>
      destruct (call_llm_effect E pr m r w1) as (levs & _ & _ & _ & _ & _ & Hlf);
      destruct (call_llm E pr m r w1) as [ [ test_code | e3 ] w4 ]
  end; cbn [fst snd trace requests_sent directories file_store] in *;
    [ | rewrite Hlf; reflexivity ].
  match goal with
  | |- context [write_file E ?p ?c ?w1] =>
      pose proof (write_file_store_other E p path c w1 Hne) as Hws;
      destruct (write_file E p c w1) as [ [ [] | e4 ] w5 ]
  end; cbn [fst snd trace requests_sent directories file_store] in *;
    rewrite Hws, Hlf; reflexivity.
Qed.

(** Step 1 leaves every file that is not the test file of one of its
    source files as it was. *)
Lemma main_generate_store_other (yaml_dir test_dir path : string) :
  forall (cpp_files : list string) (w : world),
    ~ In path (map (test_file_of test_dir) cpp_files) ->
    store_get (file_store (snd (main_generate E yaml_dir test_dir cpp_files w)))
              path
    = store_get (file_store w) path.
Proof.
  unfold main_generate.
  induction cpp_files as [ | cpp_file rest IH ]; intros w Hn; [ reflexivity | ].
  cbn [for_each].
  destruct (generate_one_effect E yaml_dir test_dir cpp_file w)
    as (evs & Hrun & _).
  rewrite (bind_ok _ _ w tt) by (rewrite Hrun; reflexivity).
  cbn [map] in Hn.
  rewrite IH by (intros Hin; apply Hn; right; exact Hin).
  apply generate_one_store_other.
  intros ->. apply Hn. left. reflexivity.
Qed.

(** One turn of the loop of step 1 in which everything goes well. *)
Lemma generate_one_good (yaml_dir test_dir cpp_file : string) (w : world)
      (code yaml_prompt text : string) :
  fst (read_file E cpp_file w) = Ok code ->
  fst (read_file E (OsPath.join yaml_dir "initial.yaml") w) = Ok yaml_prompt ->
  answered (http E (requests_sent w) OLLAMA_API_URL
              (mk_payload default_model
                 (yaml_prompt ++ Py.nl ++ Py.nl ++ "C++ Source File:" ++ Py.nl
                    ++ code) false))
           (PyStr text) ->
  Py.utf8_valid text = true ->
  open_error E (test_file_of test_dir cpp_file) "w" = None ->
  fst (generate_one E yaml_dir test_dir cpp_file w) = Ok tt
  /\ files_written (trace (snd (generate_one E yaml_dir test_dir cpp_file w)))
     = (files_written (trace w) ++ [test_file_of test_dir cpp_file])%list
  /\ posts (trace (snd (generate_one E yaml_dir test_dir cpp_file w)))
     = (posts (trace w)
          ++ [mk_payload default_model
                (yaml_prompt ++ Py.nl ++ Py.nl ++ "C++ Source File:" ++ Py.nl
                   ++ code) false])%list
  /\ requests_sent (snd (generate_one E yaml_dir test_dir cpp_file w))
     = S (requests_sent w)
  /\ (forall other,
         store_get (file_store (snd (generate_one E yaml_dir test_dir cpp_file w)))
                   other
         = if String.eqb other (test_file_of test_dir cpp_file) then Some text
           else store_get (file_store w) other).
Proof.
  intros Hread Hyaml Hans Hu Ho.
  unfold generate_one, call, print, bind, try_except, emit, ret.
  cbn [fst snd trace requests_sent directories file_store].
  match goal with
  | |- context [read_file E cpp_file ?w1] =>
      pose proof (read_file_frame E cpp_file w1 w eq_refl) as Hf1;
      pose proof (read_file_effect E cpp_file w1) as He1;
      destruct (read_file E cpp_file w1) as [ r1 w2 ]
  end.
  cbn [fst snd trace requests_sent directories file_store] in Hf1, He1.
  rewrite Hread in Hf1. subst r1 w2.
  cbn [fst snd trace requests_sent directories file_store].
  match goal with
  | |- context [read_file E ?p ?w1] =>
      pose proof (read_file_frame E p w1 w eq_refl) as Hf2;
      pose proof (read_file_effect E p w1) as He2;
      destruct (read_file E p w1) as [ r2 w3 ]
  end.
  cbn [fst snd trace requests_sent directories file_store] in Hf2, He2.
  rewrite Hyaml in Hf2. subst r2 w3.
  cbn [fst snd trace requests_sent directories file_store].
  rewrite (call_llm_answered_at_once _ _ _ _ (PyStr text))
    by (first [ unfold default_max_retries; lia | exact Hans ]).
  cbn [fst snd trace requests_sent directories file_store].
  match goal with
  | |- context [write_file E ?p ?c ?w1] =>
      destruct (write_file_text E p text w1 Ho Hu) as (Hok & Htr & Hreq & Hst);
      destruct (write_file E p c w1) as [ r ww ]
  end.
  cbn [fst snd trace requests_sent directories file_store] in Hok, Htr, Hreq, Hst.
  subst r.
  cbn [fst snd trace requests_sent directories file_store].
  rewrite Htr, Hreq. autorewrite with trace_db. cbn.
  rewrite ?app_nil_r.
  repeat (split; [ reflexivity | ]). exact Hst.
Qed.

(** Step 1 when every turn goes well: [codes i] is the text of the [i]-th
    source file, [texts i] the completion for it. *)
Lemma main_generate_good (yaml_dir test_dir yaml_prompt : string) :
  forall (cpp_files : list string) (codes texts : nat -> string) (w : world),
    fst (read_file E (OsPath.join yaml_dir "initial.yaml") w) = Ok yaml_prompt ->
    (forall i f,
        nth_error cpp_files i = Some f ->
        fst (read_file E f w) = Ok (codes i)
        /\ open_error E (test_file_of test_dir f) "w" = None
        /\ answered (http E (requests_sent w + i) OLLAMA_API_URL
                       (mk_payload default_model
                          (yaml_prompt ++ Py.nl ++ Py.nl ++ "C++ Source File:"
                             ++ Py.nl ++ codes i) false))
                    (PyStr (texts i))
        /\ Py.utf8_valid (texts i) = true) ->
    (forall g,
        In g cpp_files ->
        test_file_of test_dir g <> OsPath.join yaml_dir "initial.yaml"
        /\ forall f, In f cpp_files -> test_file_of test_dir g <> f) ->
    files_written (trace (snd (main_generate E yaml_dir test_dir cpp_files w)))
    = (files_written (trace w) ++ map (test_file_of test_dir) cpp_files)%list
    /\ posts (trace (snd (main_generate E yaml_dir test_dir cpp_files w)))
       = (posts (trace w)
            ++ map (fun i =>
                      mk_payload default_model
                        (yaml_prompt ++ Py.nl ++ Py.nl ++ "C++ Source File:"
                           ++ Py.nl ++ codes i) false)
                   (seq 0 (length cpp_files)))%list
    /\ (forall i f,
           nth_error cpp_files i = Some f ->
           (forall j g,
               (i < j)%nat -> nth_error cpp_files j = Some g ->
               OsPath.basename g <> OsPath.basename f) ->
           store_get
             (file_store (snd (main_generate E yaml_dir test_dir cpp_files w)))
             (test_file_of test_dir f)
           = Some (texts i)).
Proof.
  induction cpp_files as [ | f0 rest IH ]; intros codes texts w Hyaml Hall Hsep.
  - cbn. rewrite !app_nil_r. repeat split. intros [ | i ] f; discriminate.
  - destruct (Hall 0%nat f0 eq_refl) as (Hread0 & Hopen0 & Hans0 & Hvalid0).
    rewrite Nat.add_0_r in Hans0.
    destruct (generate_one_good yaml_dir test_dir f0 w (codes 0%nat) yaml_prompt
                (texts 0%nat) Hread0 Hyaml Hans0 Hvalid0 Hopen0)
      as (Hok & Hfw & Hposts & Hreq & Hstore).
    assert (Hrun : main_generate E yaml_dir test_dir (f0 :: rest) w
                   = main_generate E yaml_dir test_dir rest
                       (snd (generate_one E yaml_dir test_dir f0 w))).
    { unfold main_generate. cbn [for_each]. rewrite (bind_ok _ _ w tt Hok).
      reflexivity. }
    rewrite Hrun.
    set (w1 := snd (generate_one E yaml_dir test_dir f0 w)) in *.
    assert (Hkeep : forall path,
               path <> test_file_of test_dir f0 ->
               store_get (file_store w1) path = store_get (file_store w) path).
    { intros path Hne. rewrite Hstore.
      destruct (String.eqb_spec path (test_file_of test_dir f0));
        [ contradiction | reflexivity ]. }
    destruct (IH (fun i => codes (S i)) (fun i => texts (S i)) w1)
      as (Hfw' & Hposts' & Hstore').
    + rewrite <- Hyaml. apply read_file_local, Hkeep.
      intros Heq. apply (proj1 (Hsep f0 (or_introl eq_refl))). auto.
    + intros i f Hnth.
      destruct (Hall (S i) f Hnth) as (Hr & Ho & Ha & Hv).
      split; [ | split; [ exact Ho | split; [ | exact Hv ] ] ].
      * rewrite <- Hr. apply read_file_local, Hkeep.
        intros Heq.
        apply (proj2 (Hsep f0 (or_introl eq_refl)) f).
        -- right. eapply nth_error_In. exact Hnth.
        -- auto.
      * rewrite Hreq.
        replace (S (requests_sent w) + i)%nat with (requests_sent w + S i)%nat
          by lia.
        exact Ha.
    + intros g Hg. destruct (Hsep g (or_intror Hg)) as (Hy & Hf).
      split; [ exact Hy | ]. intros f Hin. apply Hf. right. exact Hin.
    + split; [ | split ].
      * rewrite Hfw', Hfw, <- app_assoc. reflexivity.
      * rewrite Hposts', Hposts, <- app_assoc. cbn [length seq map app].
        rewrite <- seq_shift, map_map. reflexivity.
      * intros [ | i ] f Hnth Hlast.
        -- cbn in Hnth. injection Hnth as <-.
           rewrite main_generate_store_other.
           ++ rewrite Hstore, String.eqb_refl. reflexivity.
           ++ intros Hin. apply in_map_iff in Hin as (g & Heq & Hg).
              apply In_nth_error in Hg as (j & Hj).
              apply (Hlast (S j) g); [ lia | exact Hj | ].
              apply test_file_of_iff in Heq. exact Heq.
        -- apply Hstore'; [ exact Hnth | ].
           intros j g Hij Hj. apply (Hlast (S j) g); [ lia | exact Hj ].
Qed.

(** A loop over a list that is given in two parts. *)
Lemma for_each_app {A : Type} (body : A -> M unit) (xs ys : list A) :
  forall w,
    for_each (xs ++ ys) body w = (for_each xs body ;; for_each ys body) w.
Proof.
  induction xs as [ | x xs IH ]; intros w; cbn [for_each app].
  - reflexivity.
  - unfold bind in *. destruct (body x w) as [ [ [] | e ] w' ];
      [ apply IH | reflexivity ].
Qed.

(** Step 1 up to a source file, the turn of that file, and the rest. *)
Lemma main_generate_split (yaml_dir test_dir : string)
      (before after : list string) (cpp_file : string) (w : world) :
  main_generate E yaml_dir test_dir (before ++ cpp_file :: after) w
  = main_generate E yaml_dir test_dir after
      (snd (generate_one E yaml_dir test_dir cpp_file
              (snd (main_generate E yaml_dir test_dir before w)))).
Proof.
  destruct (main_generate_writes E yaml_dir test_dir before w)
    as (evs & Hok & _).
  unfold main_generate in *. rewrite for_each_app.
  rewrite (bind_ok _ _ w tt Hok). cbn [for_each].
  match goal with
  | |- context [generate_one E yaml_dir test_dir cpp_file ?w1] =>
      destruct (generate_one_effect E yaml_dir test_dir cpp_file w1)
        as (evs1 & Hrun & _);
      rewrite (bind_ok _ _ w1 tt) by (rewrite Hrun; reflexivity)
  end.
  reflexivity.
Qed.

(** One turn of the loop of step 1 whose reads and whose call to the model
    have known answers, the answer of the model being a text that can be
    encoded. *)
Lemma generate_one_text (yaml_dir test_dir cpp_file : string) (w : world)
      (code yaml_prompt text : string) :
  fst (read_file E cpp_file w) = Ok code ->
  fst (read_file E (OsPath.join yaml_dir "initial.yaml") w) = Ok yaml_prompt ->
  fst (call_llm E
         (yaml_prompt ++ Py.nl ++ Py.nl ++ "C++ Source File:" ++ Py.nl ++ code)
         default_model default_max_retries w) = Ok (PyStr text) ->
  Py.utf8_valid text = true ->
  open_error E (test_file_of test_dir cpp_file) "w" = None ->
  store_get (file_store (snd (generate_one E yaml_dir test_dir cpp_file w)))
            (test_file_of test_dir cpp_file)
  = Some text.
Proof.
  intros Hread Hyaml Hllm Hu Ho.
  unfold generate_one. known_turn w Hread Hyaml Hllm.
  match goal with
  | |- context [write_file E ?p ?c ?w1] =>
      destruct (write_file_text E p text w1 Ho Hu) as (Hok & _ & _ & Hst);
      destruct (write_file E p c w1) as [ r ww ]
  end.
  cbn [fst snd] in Hok, Hst. subst r.
  cbn [fst snd trace requests_sent directories file_store].
  rewrite Hst, String.eqb_refl. reflexivity.
Qed.

(** C4 (amended).  The test of a source file is written to the file named
    by the fixed prefix "test_" and the base name of the source file, in the
    output directory.  Two source files have the same test file exactly
    when they have the same base name.  Whatever happens, step 1 opens for
    writing only test files of the source files it is given, and leaves
    every other file as it was.  When every turn goes well (the template
    and the sources are read, the service answers the request made for each
    source with a text, no test file is a source or the template), step 1
    sends one request per source file, in order, with the text of that
    file, and writes the answers in that order, each to the test file of
    its source: in the end a test file holds the answer for the last source
    file of that base name, what was written for an earlier one being
    overwritten.  And whatever happened to the source files before it, a
    source file whose own turn goes well has its answer in its test file at
    the end of step 1, unless a source file of the same base name comes
    after it. *)
Theorem generated_tests_by_base_name :
  forall (yaml_dir test_dir : string) (cpp_files : list string) (w : world),
    (forall cpp_file,
        test_file_of test_dir cpp_file
        = OsPath.join test_dir ("test_" ++ OsPath.basename cpp_file))
    /\
    (forall a b,
        test_file_of test_dir a = test_file_of test_dir b
        <-> OsPath.basename a = OsPath.basename b)
    /\
    (exists evs,
        fst (main_generate E yaml_dir test_dir cpp_files w) = Ok tt
        /\ trace (snd (main_generate E yaml_dir test_dir cpp_files w))
           = (trace w ++ evs)%list
        /\ incl (files_written evs) (map (test_file_of test_dir) cpp_files)
        /\ forall path,
             ~ In path (map (test_file_of test_dir) cpp_files) ->
             store_get
               (file_store (snd (main_generate E yaml_dir test_dir cpp_files w)))
               path
             = store_get (file_store w) path)
    /\
    (forall (yaml_prompt : string) (codes texts : nat -> string),
        fst (read_file E (OsPath.join yaml_dir "initial.yaml") w)
          = Ok yaml_prompt ->
        (forall i f,
            nth_error cpp_files i = Some f ->
            fst (read_file E f w) = Ok (codes i)
            /\ open_error E (test_file_of test_dir f) "w" = None
            /\ answered (http E (requests_sent w + i) OLLAMA_API_URL
                           (mk_payload default_model
                              (yaml_prompt ++ Py.nl ++ Py.nl
                                 ++ "C++ Source File:" ++ Py.nl ++ codes i)
                              false))
                        (PyStr (texts i))
            /\ Py.utf8_valid (texts i) = true) ->
        (forall g,
            In g cpp_files ->
            test_file_of test_dir g <> OsPath.join yaml_dir "initial.yaml"
            /\ forall f, In f cpp_files -> test_file_of test_dir g <> f) ->
        files_written (trace (snd (main_generate E yaml_dir test_dir cpp_files w)))
        = (files_written (trace w) ++ map (test_file_of test_dir) cpp_files)%list
        /\ posts (trace (snd (main_generate E yaml_dir test_dir cpp_files w)))
           = (posts (trace w)
                ++ map (fun i =>
                          mk_payload default_model
                            (yaml_prompt ++ Py.nl ++ Py.nl ++ "C++ Source File:"
                               ++ Py.nl ++ codes i) false)
                       (seq 0 (length cpp_files)))%list
        /\ (forall i f,
               nth_error cpp_files i = Some f ->
               (forall j g,
                   (i < j)%nat -> nth_error cpp_files j = Some g ->
                   OsPath.basename g <> OsPath.basename f) ->
               store_get
                 (file_store
                    (snd (main_generate E yaml_dir test_dir cpp_files w)))
                 (test_file_of test_dir f)
               = Some (texts i)))
    /\
    (forall (before after : list string) (f code yaml_prompt text : string),
        cpp_files = (before ++ f :: after)%list ->
        let w1 := snd (main_generate E yaml_dir test_dir before w) in
        fst (read_file E f w1) = Ok code ->
        fst (read_file E (OsPath.join yaml_dir "initial.yaml") w1)
          = Ok yaml_prompt ->
        fst (call_llm E
               (yaml_prompt ++ Py.nl ++ Py.nl ++ "C++ Source File:" ++ Py.nl
                  ++ code)
               default_model default_max_retries w1) = Ok (PyStr text) ->
        Py.utf8_valid text = true ->
        open_error E (test_file_of test_dir f) "w" = None ->
        (forall g, In g after -> OsPath.basename g <> OsPath.basename f) ->
        store_get
          (file_store (snd (main_generate E yaml_dir test_dir cpp_files w)))
          (test_file_of test_dir f)
        = Some text).
Proof.
  intros yaml_dir test_dir cpp_files w.
  split; [ reflexivity | ].
  split; [ intros a b; apply test_file_of_iff | ].
  split; [ | split ].
  - destruct (main_generate_writes E yaml_dir test_dir cpp_files w)
      as (evs & Hok & Htr & Hw).
    exists evs. repeat (split; [ assumption | ]).
    intros path Hn. apply main_generate_store_other, Hn.
  - intros yaml_prompt codes texts. apply main_generate_good.
  - intros before after f code yaml_prompt text -> w1 Hread Hyaml Hllm Hu Ho
           Hlast.
    rewrite main_generate_split. fold w1.
    rewrite main_generate_store_other.
    + apply (generate_one_text yaml_dir test_dir f w1 code yaml_prompt text);
        assumption.
    + intros Hin. apply in_map_iff in Hin as (g & Heq & Hg).
      apply (Hlast g Hg). apply test_file_of_iff in Heq. exact Heq.
Qed.

End DriverMore.

(** ** Discovery, continued *)

Lemma endswith_refl (s : string) : Py.endswith s s = true.
Proof. rewrite endswith_unfold, String.eqb_refl. reflexivity. Qed.

Lemma endswith_app_l (a b suffix : string) :
  Py.endswith b suffix = true -> Py.endswith (a ++ b) suffix = true.
Proof.
  intros H. induction a as [ | c a IH ]; cbn [append]; [ exact H | ].
  rewrite endswith_unfold, IH.
  destruct (String.eqb (String c (a ++ b)) suffix); reflexivity.
Qed.

Lemma endswith_join (root file suffix : string) :
  Py.endswith file suffix = true ->
  Py.endswith (OsPath.join root file) suffix = true.
Proof.
  intros H. unfold OsPath.join.
  destruct (Py.startswith file "/"); [ exact H | ].
  destruct (String.eqb root "" || Py.endswith root "/").
  - apply endswith_app_l, H.
  - apply endswith_app_l, (endswith_app_l "/"), H.
Qed.

Lemma is_cpp_join (root file : string) :
  is_cpp file = true -> is_cpp (OsPath.join root file) = true.
Proof.
  unfold is_cpp. rewrite !orb_true_iff.
  intros [ H | H ]; [ left | right ]; apply endswith_join, H.
Qed.

(** X23.  Every path that discovery returns ends in ".cc" or ".cpp",
    whatever the tree looks like. *)
Theorem collect_only_recognised_suffixes :
  forall (project_dir : string) (t : dirtree) (p : string),
    In p (collect_cpp_files project_dir t) -> is_cpp p = true.
Proof.
  intros project_dir t p. rewrite collect_by_directory.
  intros Hin. apply in_flat_map in Hin as ([ [ root dirs ] files ] & _ & Hin).
  destruct (skipped root); [ contradiction | ].
  apply in_map_iff in Hin as (file & <- & Hf).
  apply filter_In in Hf as [ _ Hcpp ].
  apply is_cpp_join, Hcpp.
Qed.

(** X24.  On a well-formed tree discovery returns no path twice. *)
Theorem collect_has_no_duplicates :
  forall (project_dir : string) (t : dirtree),
    well_formed t = true -> NoDup (collect_cpp_files project_dir t).
Proof.
  intros project_dir t Hwf. apply (NoDup_count_occ string_dec). intros p.
  pose proof (collect_count_le project_dir t p) as Hle.
  pose proof (proj1 (NoDup_count_occ string_dec _)
                    (all_paths_NoDup project_dir t Hwf) p) as Hone.
  lia.
Qed.

(** Every entry of the result is the path of a file of the tree. *)
Lemma collect_found (t : dirtree) :
  forall project_dir p,
    In p (collect_cpp_files project_dir t) ->
    exists dirs file,
      file_in t dirs file
      /\ is_cpp file = true
      /\ skipped (root_of project_dir dirs) = false
      /\ p = file_path project_dir dirs file.
Proof.
  induction t as [ files subdirs IH ] using dirtree_induction.
  intros project_dir p Hin.
  rewrite collect_Dir in Hin. apply in_app_or in Hin as [ Hin | Hin ].
  - destruct (skipped project_dir) eqn:Hskip; [ contradiction | ].
    apply in_map_iff in Hin as (file & <- & Hf).
    apply filter_In in Hf as [ Hf Hcpp ].
    exists [], file. repeat split; auto. constructor. exact Hf.
  - apply in_flat_map in Hin as ([ d sub ] & Hd & Hin).
    rewrite Forall_forall in IH.
    destruct (IH (d, sub) Hd _ _ Hin) as (dirs & file & Hfile & Hcpp & Hskip & ->).
    exists (d :: dirs), file. repeat split; auto.
    econstructor; eauto.
Qed.

(** X25.  What discovery returns is exactly the set of the paths of the
    regular files of the tree whose name ends in ".cc" or ".cpp" and whose
    directory has a path without the text "third_party". *)
Theorem collect_exactly :
  forall (project_dir : string) (t : dirtree) (p : string),
    In p (collect_cpp_files project_dir t)
    <-> exists dirs file,
          file_in t dirs file
          /\ is_cpp file = true
          /\ skipped (root_of project_dir dirs) = false
          /\ p = file_path project_dir dirs file.
Proof.
  intros project_dir t p. split.
  - apply collect_found.
  - intros (dirs & file & Hfile & Hcpp & Hskip & ->).
    apply collect_includes; assumption.
Qed.

Lemma prefix_app_l (x a b : string) :
  prefix x a = true -> prefix x (a ++ b) = true.
Proof.
  revert a. induction x as [ | c x IH ]; intros a H.
  - destruct (a ++ b); reflexivity.
  - destruct a as [ | c' a ]; cbn in H; [ discriminate | ].
    cbn. destruct (ascii_dec c c'); [ apply IH, H | discriminate ].
Qed.

Lemma str_in_app_l (x a b : string) :
  Py.str_in x a = true -> Py.str_in x (a ++ b) = true.
Proof.
  induction a as [ | c a IH ]; rewrite str_in_unfold.
  - destruct (prefix x "") eqn:Hp; [ | discriminate ].
    intros _. destruct x; [ apply str_in_prefix | discriminate ].
  - destruct (prefix x (String c a)) eqn:Hp.
    + intros _. rewrite str_in_unfold, (prefix_app_l _ _ b Hp). reflexivity.
    + intros H. cbn [append]. apply str_in_cons, IH, H.
Qed.

Lemma skipped_join (root name : string) :
  valid_name name = true ->
  skipped root = true -> skipped (OsPath.join root name) = true.
Proof.
  intros Hv Hs. rewrite (join_valid _ _ Hv). unfold skipped, base in *.
  destruct (String.eqb root "" || Py.endswith root "/").
  - apply str_in_app_l, Hs.
  - apply str_in_app_l, str_in_app_l, Hs.
Qed.

(** X26.  Skipping goes all the way down: when the path of the project
    directory itself contains the text "third_party", discovery returns
    nothing at all, whatever the (well-formed) tree holds. *)
Theorem collect_nothing_below_third_party :
  forall (t : dirtree) (project_dir : string),
    well_formed t = true ->
    skipped project_dir = true ->
    collect_cpp_files project_dir t = [].
Proof.
  induction t as [ files subdirs IH ] using dirtree_induction.
  intros project_dir Hwf Hskip.
  apply well_formed_inv in Hwf as (_ & _ & Hnames & _ & Hsubs).
  rewrite collect_Dir, Hskip. cbn [app].
  rewrite Forall_forall in IH.
  induction subdirs as [ | d subdirs IHs ]; [ reflexivity | ].
  cbn [flat_map].
  rewrite (IH d (or_introl eq_refl)).
  - apply IHs.
    + intros x Hx. apply IH. right. exact Hx.
    + intros x Hx. apply Hnames. right. exact Hx.
    + intros x Hx. apply Hsubs. right. exact Hx.
  - apply Hsubs. left. reflexivity.
  - apply skipped_join; [ apply Hnames; left; reflexivity | exact Hskip ].
Qed.

(** ** From step 1 to step 2 *)

Lemma basename_slash_free (p : string) :
  Py.str_in "/" p = false -> OsPath.basename p = p.
Proof.
  destruct p as [ | c rest ]; [ reflexivity | ].
  intros H. apply slash_free_cons in H as [ Hc Hr ].
  cbn [OsPath.basename]. rewrite Hr, Hc. reflexivity.
Qed.

Lemma basename_endswith (p suffix : string) :
  Py.str_in "/" suffix = false ->
  Py.endswith p suffix = true ->
  Py.endswith (OsPath.basename p) suffix = true.
Proof.
  intros Hs. induction p as [ | c rest IH ]; [ auto | ].
  rewrite endswith_unfold.
  destruct (String.eqb_spec (String c rest) suffix) as [ Heq | Hne ].
  - intros _. rewrite Heq, (basename_slash_free _ Hs). apply endswith_refl.
  - intros H. cbn [OsPath.basename].
    destruct (Py.str_in "/" rest); [ apply IH, H | ].
    destruct (Ascii.eqb c "/"); [ exact H | ].
    rewrite endswith_unfold.
    destruct (String.eqb (String c rest) suffix); [ reflexivity | exact H ].
Qed.

(** X27.  The test that step 1 writes for a source file whose name ends in
    ".cc" or ".cpp" has a name, "test_" followed by the base name of the
    source file, and a path that end in ".cc" or ".cpp" too: the filter of
    step 2 on the entries of the output directory keeps it. *)
Theorem generated_test_is_refined :
  forall (test_dir cpp_file : string),
    is_cpp cpp_file = true ->
    is_cpp ("test_" ++ OsPath.basename cpp_file) = true
    /\ is_cpp (test_file_of test_dir cpp_file) = true.
Proof.
  intros test_dir cpp_file Hcpp.
  assert (Hname : is_cpp ("test_" ++ OsPath.basename cpp_file) = true).
  { unfold is_cpp in *. rewrite orb_true_iff in *.
    destruct Hcpp as [ H | H ]; [ left | right ];
      apply endswith_app_l, basename_endswith; auto. }
  split; [ exact Hname | ].
  unfold test_file_of. apply is_cpp_join, Hname.
Qed.

(* ================================================================== *)
(** * These properties on concrete inputs *)
(* ================================================================== *)


(** Two refusals, then an answer, within three attempts. *)
Lemma call_llm_recovers_witness :
  exists w',
    call_llm waking_service "p" default_model 3 empty_world
      = (Ok (PyStr "// ready"), w')
    /\ posts (trace w')
       = (posts (trace empty_world)
            ++ repeat (mk_payload default_model "p" false) 3)%list
    /\ sleeps (trace w') = (sleeps (trace empty_world) ++ repeat 2%Z 2)%list.
Proof.
  apply (call_llm_recovers waking_service "p" default_model 3 2
           (PyStr "// ready") empty_world).
  - lia.
  - intros i Hi. destruct i as [ | [ | i ] ]; [ | | lia ];
      eexists; split; reflexivity.
  - do 2 eexists.
    split; [ reflexivity | split; [ reflexivity | split; reflexivity ] ].
Defined.

(** The error of a call against a service that is down. *)
Lemma call_llm_raises_its_own_errors_witness :
  is_call_llm_error service_unreachable.
Proof.
  apply (call_llm_raises_its_own_errors refusing_service "p" default_model 3
           empty_world).
  vm_compute. reflexivity.
Defined.

(** The completion that a call returns was sent by the service. *)
Lemma call_llm_returns_a_completion_witness :
  exists n,
    (Z.of_nat (requests_sent empty_world) <= Z.of_nat n
     < Z.of_nat (requests_sent empty_world) + 3)%Z
    /\ answered (http calm n OLLAMA_API_URL (mk_payload default_model "p" false))
                (PyStr "// test 0").
Proof.
  apply (call_llm_returns_a_completion calm "p" default_model 3 empty_world).
  - lia.
  - vm_compute. reflexivity.
Defined.

(** A failing test run is an answer, not an error. *)
Lemma run_tests_result_witness :
  fst (run_tests failing_tests "build" empty_world)
  = Ok (false, "1 test failed").
Proof.
  apply (run_tests_result failing_tests "build" empty_world 8 "1 test failed" "");
    reflexivity.
Defined.

Lemma build_project_stops_after_configure_witness :
  commands_run
    (trace (snd (build_project broken_configure "proj" "build" empty_world)))
  = [["cmake"; "proj"]].
Proof.
  apply (build_project_stops_after_configure broken_configure "proj" "build"
           empty_world 1 "" "CMake Error: no CMakeLists.txt").
  - right. reflexivity.
  - reflexivity.
  - discriminate.
Defined.

(** [cmake] missing from the start, and [cmake] missing for the build. *)
Lemma build_project_propagates_launch_errors_witness :
  fst (build_project no_cmake "proj" "build" empty_world)
  = Raise (new_exn OSError "[Errno 2] No such file or directory: 'cmake'")
  /\ fst (build_project vanishing_cmake "proj" "build" empty_world)
     = Raise (new_exn OSError "[Errno 2] No such file or directory: 'cmake'").
Proof.
  split.
  - apply (proj1 (build_project_propagates_launch_errors no_cmake "proj" "build"
                    empty_world
                    (new_exn OSError "[Errno 2] No such file or directory: 'cmake'")
                    (or_intror eq_refl) eq_refl)).
    reflexivity.
  - apply (proj2 (build_project_propagates_launch_errors vanishing_cmake
                    "proj" "build" empty_world
                    (new_exn OSError "[Errno 2] No such file or directory: 'cmake'")
                    (or_intror eq_refl) eq_refl) "" "");
      reflexivity.
Defined.

Lemma build_project_needs_build_dir_witness :
  fst (build_project read_only_disk "proj" "build" empty_world)
  = Raise (new_exn OSError "[Errno 13] Permission denied: 'build'")
  /\ commands_run
       (trace (snd (build_project read_only_disk "proj" "build" empty_world)))
     = commands_run (trace empty_world).
Proof.
  apply (build_project_needs_build_dir read_only_disk "proj" "build" empty_world);
    reflexivity.
Defined.

Lemma build_project_undecodable_log_witness :
  fst (build_project garbled_configure "proj" "build" empty_world)
  = Raise (new_exn UnicodeDecodeError
             (codec_error garbled_configure (String "255" ""))).
Proof.
  apply (build_project_undecodable_log garbled_configure "proj" "build"
           empty_world 1 "" (String "255" "")).
  - right. reflexivity.
  - reflexivity.
  - discriminate.
  - reflexivity.
Defined.

Lemma run_coverage_runs_both_tools_witness :
  commands_run (trace (snd (run_coverage failing_tests "build" empty_world)))
  = [["lcov"; "--capture"; "--directory"; "."; "--output-file"; "coverage.info"];
     ["genhtml"; "coverage.info"; "--output-directory"; "coverage"]].
Proof.
  apply (run_coverage_runs_both_tools failing_tests "build" empty_world
           1 "" "no data").
  reflexivity.
Defined.

Lemma run_coverage_needs_its_tools_witness :
  fst (run_coverage no_lcov "build" empty_world)
  = Raise (new_exn OSError "[Errno 2] No such file or directory: 'lcov'")
  /\ commands_run (trace (snd (run_coverage no_lcov "build" empty_world)))
     = (commands_run (trace empty_world)
          ++ [["lcov"; "--capture"; "--directory"; "."; "--output-file";
               "coverage.info"]])%list.
Proof.
  apply (run_coverage_needs_its_tools no_lcov "build" empty_world).
  reflexivity.
Defined.

(** A test written over an older one and read back. *)
Lemma write_then_read_witness :
  fst (read_file calm "generated_tests/test_util.cc"
         (snd (write_file calm "generated_tests/test_util.cc"
                 (PyStr "TEST(Util, A) {}") generated_world)))
  = Ok "TEST(Util, A) {}".
Proof.
  apply (proj2 (write_then_read calm "generated_tests/test_util.cc"
                  "TEST(Util, A) {}" generated_world eq_refl eq_refl eq_refl)).
  reflexivity.
Defined.

(** Writing [None] over a generated test empties it. *)
Lemma write_file_rejects_non_text_witness :
  (exists e,
      fst (write_file calm "generated_tests/test_util.cc" PyNone generated_world)
      = Raise e
      /\ exc_type e = TypeError)
  /\ store_get
       (file_store (snd (write_file calm "generated_tests/test_util.cc" PyNone
                           generated_world)))
       "generated_tests/test_util.cc"
     = Some "".
Proof.
  apply (write_file_rejects_non_text calm "generated_tests/test_util.cc" PyNone
           generated_world).
  - reflexivity.
  - discriminate.
Defined.

(** A discovered file that has disappeared from the disk. *)
Lemma generate_one_skips_unreadable_witness :
  fst (generate_one calm "yaml_prompts" "generated_tests" "proj/missing.cc"
         twin_world) = Ok tt
  /\ file_store (snd (generate_one calm "yaml_prompts" "generated_tests"
                        "proj/missing.cc" twin_world))
     = file_store twin_world.
Proof.
  rewrite (generate_one_skips_unreadable calm "yaml_prompts" "generated_tests"
             "proj/missing.cc" twin_world
             (new_exn OSError
                "[Errno 2] No such file or directory: 'proj/missing.cc'")
             eq_refl).
  split; reflexivity.
Defined.

Lemma generate_one_stores_the_answer_witness :
  store_get
    (file_store (snd (generate_one calm "yaml_prompts" "generated_tests"
                        "proj/a/util.cc" twin_world)))
    (test_file_of "generated_tests" "proj/a/util.cc")
  = Some "// test 0"
  /\ store_get
       (file_store (snd (generate_one surrogate_service "yaml_prompts"
                           "generated_tests" "proj/a/util.cc" twin_world)))
       (test_file_of "generated_tests" "proj/a/util.cc")
     = Some "".
Proof.
  split.
  - refine (proj1 (proj2 (generate_one_stores_the_answer calm "yaml_prompts"
                            "generated_tests" "proj/a/util.cc" twin_world
                            "int a() { return 1; }" "Write unit tests."
                            "// test 0" _ _ _ _)) _);
      vm_compute; reflexivity.
  - refine (proj1 (proj2 (proj2 (generate_one_stores_the_answer
                                   surrogate_service "yaml_prompts"
                                   "generated_tests" "proj/a/util.cc" twin_world
                                   "int a() { return 1; }" "Write unit tests."
                                   lone_surrogate _ _ _ _)) _));
      vm_compute; reflexivity.
Defined.

(** Refining a generated test with the service down, with the service up,
    and with a service that answers with a text that cannot be encoded. *)
Lemma refine_one_in_place_witness :
  (fst (refine_one refusing_service "yaml_prompts" "generated_tests"
          "test_util.cc" generated_world) = Ok tt
   /\ file_store (snd (refine_one refusing_service "yaml_prompts"
                         "generated_tests" "test_util.cc" generated_world))
      = file_store generated_world)
  /\ store_get
       (file_store (snd (refine_one calm "yaml_prompts" "generated_tests"
                           "test_util.cc" generated_world)))
       "generated_tests/test_util.cc"
     = Some "// test 0"
  /\ store_get
       (file_store (snd (refine_one surrogate_service "yaml_prompts"
                           "generated_tests" "test_util.cc" generated_world)))
       "generated_tests/test_util.cc"
     = Some "".
Proof.
  split; [ | split ].
  - destruct (proj1 (refine_one_in_place refusing_service "yaml_prompts"
                       "generated_tests" "test_util.cc" generated_world
                       "// test 1" "Refine these tests." eq_refl eq_refl)
                    service_unreachable) as (Hok & Hstore & _).
    + vm_compute. reflexivity.
    + split; assumption.
  - refine (proj1 (proj2 (proj2 (refine_one_in_place calm "yaml_prompts"
                                   "generated_tests" "test_util.cc"
                                   generated_world "// test 1"
                                   "Refine these tests." eq_refl eq_refl)
                                "// test 0" _ _)) _);
      vm_compute; reflexivity.
  - refine (proj1 (proj2 (proj2 (proj2 (refine_one_in_place surrogate_service
                                          "yaml_prompts" "generated_tests"
                                          "test_util.cc" generated_world
                                          "// test 1" "Refine these tests."
                                          eq_refl eq_refl)
                                       lone_surrogate _ _)) _));
      vm_compute; reflexivity.
Defined.

(** The scenario "the build succeeds and the tests pass". *)
Lemma tests_pass_then_coverage_witness :
  exists w',
    main_build_and_test calm "proj" "build" "yaml_prompts" twin_world = (Ok tt, w')
    /\ calls (trace w') = ["build_project"; "run_tests"; "run_coverage"]
    /\ posts (trace w') = []
    /\ In "📊 Coverage report generated at: build/coverage/index.html"
          (printed (trace w')).
Proof.
  destruct (tests_pass_then_coverage calm "proj" "build" "yaml_prompts"
              twin_world "" "" eq_refl eq_refl)
    as (w' & Hrun & Hcalls & Hposts & Hprinted).
  exists w'. split; [ exact Hrun | ]. split; [ exact Hcalls | ].
  split; [ exact Hposts | ].
  rewrite Hprinted. cbn. do 4 right. left. reflexivity.
Defined.

(** [cmake] is missing, and [ctest] is missing. *)
Lemma build_errors_end_the_run_witness :
  fst (main_build_and_test no_cmake "proj" "build" "yaml_prompts" twin_world)
  = Raise (new_exn OSError "[Errno 2] No such file or directory: 'cmake'")
  /\ fst (main_build_and_test no_ctest "proj" "build" "yaml_prompts" twin_world)
     = Raise (new_exn OSError "[Errno 2] No such file or directory: 'ctest'").
Proof.
  split.
  - apply (proj1 (build_errors_end_the_run no_cmake "proj" "build"
                    "yaml_prompts" twin_world
                    (new_exn OSError
                       "[Errno 2] No such file or directory: 'cmake'"))).
    reflexivity.
  - apply (proj2 (build_errors_end_the_run no_ctest "proj" "build"
                    "yaml_prompts" twin_world
                    (new_exn OSError
                       "[Errno 2] No such file or directory: 'ctest'")) "").
    + reflexivity.
    + reflexivity.
Defined.

(** The build fails on a disk without templates. *)
Lemma build_fix_needs_its_template_witness :
  exists w',
    main_build_and_test broken_build "proj" "build" "yaml_prompts" empty_world
      = (Ok tt, w')
    /\ calls (trace w') = ["build_project"]
    /\ posts (trace w') = [].
Proof.
  destruct (build_fix_needs_its_template broken_build "proj" "build"
              "yaml_prompts" empty_world "error: X"
              (new_exn OSError
                 "[Errno 2] No such file or directory: 'yaml_prompts/fix_build.yaml'")
              eq_refl eq_refl)
    as (w' & Hrun & Hcalls & Hposts & _).
  exists w'. auto.
Defined.

Lemma collect_only_recognised_suffixes_witness :
  is_cpp "proj/lib/b.cc" = true.
Proof.
  apply (collect_only_recognised_suffixes "proj" sample_project).
  vm_compute. right. left. reflexivity.
Defined.

Lemma collect_has_no_duplicates_witness :
  NoDup (collect_cpp_files "proj" sample_project).
Proof.
  apply (collect_has_no_duplicates "proj" sample_project). reflexivity.
Defined.

(** The sample project checked out below a directory named third_party. *)
Lemma collect_nothing_below_third_party_witness :
  collect_cpp_files "/opt/third_party/proj" sample_project = [].
Proof.
  apply (collect_nothing_below_third_party sample_project "/opt/third_party/proj");
    reflexivity.
Defined.

Lemma generated_test_is_refined_witness :
  is_cpp "test_util.cc" = true
  /\ is_cpp (test_file_of "generated_tests" "proj/a/util.cc") = true.
Proof.
  apply (generated_test_is_refined "generated_tests" "proj/a/util.cc").
  reflexivity.
Defined.

(** The scenarios "the build step exits non-zero with error: X" and "the
    build succeeds, a test fails". *)
Lemma build_failure_and_test_failure_witness :
  (let prompt :=
     "Fix this build." ++ Py.nl ++ Py.nl ++ "Build Log:" ++ Py.nl ++ "error: X" in
   exists w' cmds n,
     main_build_and_test broken_build "proj" "build" "yaml_prompts" twin_world
       = (Ok tt, w')
     /\ llm_calls (trace w') = (llm_calls (trace twin_world) ++ [prompt])%list
     /\ Py.str_in "error: X" prompt = true
     /\ calls (trace w')
        = (calls (trace twin_world) ++ ["build_project"; "call_llm"])%list
     /\ commands_run (trace w') = (commands_run (trace twin_world) ++ cmds)%list
     /\ Forall is_cmake cmds
     /\ (1 <= n <= 3)%nat
     /\ posts (trace w')
        = (posts (trace twin_world)
             ++ repeat (mk_payload default_model prompt false) n)%list
     /\ Forall (fun body => Py.str_in "error: X" (p_prompt body) = true)
               (repeat (mk_payload default_model prompt false) n)
     /\ In (match fst (call_llm broken_build prompt default_model
                         default_max_retries twin_world) with
            | Ok _ =>
                "🔧 LLM provided fix suggestions. Manual review may be needed."
            | Raise e => "❌ Error during build fix attempt: " ++ exc_str e
            end)
           (printed (trace w'))
     /\ exists sent,
          trace (snd (call_llm broken_build prompt default_model
                        default_max_retries twin_world))
            = (trace twin_world ++ sent)%list
          /\ posts (trace w') = (posts (trace twin_world) ++ posts sent)%list)
  /\
  (exists w' cmds,
      main_build_and_test failing_tests "proj" "build" "yaml_prompts" twin_world
        = (Ok tt, w')
      /\ calls (trace w')
         = (calls (trace twin_world) ++ ["build_project"; "run_tests"])%list
      /\ commands_run (trace w')
         = (commands_run (trace twin_world) ++ cmds
              ++ [["ctest"; "--output-on-failure"]])%list
      /\ Forall is_cmake cmds
      /\ posts (trace w') = posts (trace twin_world)
      /\ In ("Test log:" ++ Py.nl ++ "1 test failed") (printed (trace w'))).
Proof.
  split.
  - apply (proj1 (build_failure_and_test_failure broken_build
                    "proj" "build" "yaml_prompts" twin_world)
                 "error: X" "Fix this build."); reflexivity.
  - apply (proj2 (build_failure_and_test_failure failing_tests
                    "proj" "build" "yaml_prompts" twin_world)
                 "built" "1 test failed"); reflexivity.
Defined.

(** Step 1 on the two source files of the same name of [twin_project]: the
    test file is written twice, and holds the answer for the second.  And
    step 1 on a file that is not there followed by a file that is: the
    second has its test. *)
Lemma generated_tests_by_base_name_witness :
  files_written
    (trace (snd (main_generate calm "yaml_prompts" "generated_tests"
                   ["proj/a/util.cc"; "proj/b/util.cc"] twin_world)))
  = ["generated_tests/test_util.cc"; "generated_tests/test_util.cc"]
  /\ store_get
       (file_store (snd (main_generate calm "yaml_prompts" "generated_tests"
                           ["proj/a/util.cc"; "proj/b/util.cc"] twin_world)))
       "generated_tests/test_util.cc"
     = Some "// test 1"
  /\ store_get
       (file_store (snd (main_generate calm "yaml_prompts" "generated_tests"
                           ["proj/missing.cc"; "proj/b/util.cc"] twin_world)))
       "generated_tests/test_util.cc"
     = Some "// test 0".
Proof.
  destruct (proj1 (proj2 (proj2 (proj2 (generated_tests_by_base_name calm
                                          "yaml_prompts" "generated_tests"
                                          ["proj/a/util.cc"; "proj/b/util.cc"]
                                          twin_world))))
              "Write unit tests."
              (fun i => match i with
                        | O => "int a() { return 1; }"
                        | S _ => "int b() { return 2; }"
                        end)
              (fun i => "// test " ++ Py.str_of_int (Z.of_nat i)))
    as (Hfw & _ & Hstore).
  - reflexivity.
  - intros [ | [ | i ] ] f Hnth; [ | | destruct i; discriminate Hnth ];
      injection Hnth as <-;
      (split; [ reflexivity | ]); (split; [ reflexivity | ]);
      (split; [ | reflexivity ]);
      do 2 eexists;
      (split; [ reflexivity | ]); (split; [ reflexivity | ]);
      split; reflexivity.
  - intros g [ <- | [ <- | [] ] ];
      (split; [ discriminate | ]);
      intros f [ <- | [ <- | [] ] ]; discriminate.
  - split; [ exact Hfw | ]. split.
    + apply (Hstore 1%nat "proj/b/util.cc" eq_refl).
      intros j g Hj Hg.
      destruct j as [ | [ | j ] ]; [ lia | lia | destruct j; discriminate Hg ].
    + refine (proj2 (proj2 (proj2 (proj2 (generated_tests_by_base_name calm
                                            "yaml_prompts" "generated_tests"
                                            ["proj/missing.cc"; "proj/b/util.cc"]
                                            twin_world))))
                ["proj/missing.cc"] [] "proj/b/util.cc"
                "int b() { return 2; }" "Write unit tests." "// test 0"
                eq_refl _ _ _ _ _ _);
        try (vm_compute; reflexivity).
      intros g [].
Defined.
